(** * The Shopify order webhook handler

    A shallow embedding of the three listings of the order-created webhook
    handler:

    - [Original]: [functions/shopify-webhook-handler.js], the Calendly
      handler that reads [order.customer] directly and whose lookup helpers
      are elided in the file;
    - [Calendly]: the full Calendly listing, with the identity fallback
      chain and the e-mail guard in front of the Klaviyo call;
    - [Metaobject]: the metaobject-only listing, which tracks by an
      order-derived key instead of customer identity.

    JavaScript values are the values [JSON.parse] produces plus [undefined];
    an invocation is a computation in a state-and-exception monad over the
    [world] (the external calls issued so far and the console); the external
    services and the built-ins of the platform ([crypto], [JSON.parse],
    [Date], string-to-number conversion) are the fields of a [runtime].

    What the model leaves out: numbers other than integers (so fractional and
    infinite quantities), characters beyond [ascii], the fixed headers of the
    outbound requests, and time.  Every [await] is a sequential step.  The
    webhook secret is configured, and the inbound event has a map of headers;
    its body is a value: a string, or [null] for a request without one. *)

From stdpp Require Import base strings list gmap pretty.
From Stdlib Require Import ZArith Lia.

Set Warnings "-register-all".
Open Scope Z_scope.

(** ** JavaScript values *)

(** A value as [JSON.parse] returns it, or [undefined].  Numbers are the
    integers; an object keeps its properties in insertion order, which is the
    order [JSON.stringify] sends them in. *)
Inductive val :=
  | JUndefined
  | JNull
  | JBool (b : bool)
  | JNum (n : Z)
  | JStr (s : string)
  | JArr (items : list val)
  | JObj (props : list (string * val)).

(** What a [throw] carries.  An [AxiosError] has the body of the upstream
    response when there was one. *)
Inductive exn :=
  | TypeError (message : string)
  | SyntaxError (message : string)
  | RangeError (message : string)
  | Error (message : string)
  | AxiosError (message : string) (response : option val).

(** The result of evaluating an expression or a call: a value or a [throw]. *)
Inductive outcome (A : Type) :=
  | Returned (a : A)
  | Thrown (e : exn).
Arguments Returned {A} a.
Arguments Thrown {A} e.

#[global] Instance outcome_ret : MRet outcome := @Returned.
#[global] Instance outcome_bind : MBind outcome := λ A B f o,
  match o with
  | Returned a => f a
  | Thrown e => Thrown e
  end.

(** The line feed, [\n] in the listings. *)
Definition LF : string := String (Ascii.Ascii false true false true false false false false) "".

(** [error.message] *)
Definition message_of (e : exn) : string :=
  match e with
  | TypeError m | SyntaxError m | RangeError m | Error m | AxiosError m _ => m
  end.

(** [error.response ? error.response.data : error.message], the detail every
    catch block of the helpers logs. *)
Definition error_detail (e : exn) : val :=
  match e with
  | AxiosError _ (Some data) => data
  | _ => JStr (message_of e)
  end.

(** Truthiness: [undefined], [null], [false], [0] and the empty string are
    falsy, everything else (empty arrays and objects included) is truthy. *)
Definition truthy (v : val) : bool :=
  match v with
  | JUndefined | JNull => false
  | JBool b => b
  | JNum n => negb (n =? 0)
  | JStr s => negb (String.eqb s "")
  | JArr _ | JObj _ => true
  end.

(** Own-property lookup in an object. *)
Fixpoint assoc (k : string) (props : list (string * val)) : option val :=
  match props with
  | [] => None
  | (k', v) :: rest => if String.eqb k k' then Some v else assoc k rest
  end.

(** [o[k] = v] on an object: an existing property keeps its place. *)
Fixpoint set_prop (k : string) (v : val) (props : list (string * val))
  : list (string * val) :=
  match props with
  | [] => [(k, v)]
  | (k', v') :: rest =>
      if String.eqb k k' then (k, v) :: rest else (k', v') :: set_prop k v rest
  end.

(** [v.k] for the property names the handlers read.  Reading a property of
    [undefined] or [null] throws; an absent property is [undefined]; of the
    inherited properties only [length] is read by name. *)
Definition get_prop (v : val) (k : string) : outcome val :=
  match v with
  | JUndefined => Thrown (TypeError "Cannot read properties of undefined")
  | JNull => Thrown (TypeError "Cannot read properties of null")
  | JObj props => Returned (default JUndefined (assoc k props))
  | JArr items =>
      Returned (if String.eqb k "length" then JNum (Z.of_nat (length items))
                else JUndefined)
  | JStr s =>
      Returned (if String.eqb k "length" then JNum (Z.of_nat (String.length s))
                else JUndefined)
  | JBool _ | JNum _ => Returned JUndefined
  end.

(** [ToString], as a template literal applies it.  A plain object prints as
    [[object Object]] unless it has an own [toString] property, which after
    [JSON.parse] is never callable: then the conversion throws.  An array
    prints its elements joined by commas, [undefined] and [null] as empty. *)
Fixpoint ToString (v : val) : outcome string :=
  match v with
  | JUndefined => Returned "undefined"
  | JNull => Returned "null"
  | JBool true => Returned "true"
  | JBool false => Returned "false"
  | JNum n => Returned (pretty n)
  | JStr s => Returned s
  | JArr items =>
      (fix join (l : list val) : outcome string :=
         match l with
         | [] => Returned ""
         | x :: rest =>
             match match x with
                   | JUndefined | JNull => Returned ""
                   | _ => ToString x
                   end with
             | Thrown e => Thrown e
             | Returned s =>
                 match rest with
                 | [] => Returned s
                 | _ :: _ =>
                     match join rest with
                     | Thrown e => Thrown e
                     | Returned r => Returned (s +:+ "," +:+ r)
                     end
                 end
             end
         end) items
  | JObj props =>
      match assoc "toString" props with
      | Some _ => Thrown (TypeError "Cannot convert object to primitive value")
      | None => Returned "[object Object]"
      end
  end.

(** A template literal: literal text and substitutions, converted left to
    right. *)
Inductive part :=
  | lit (s : string)
  | sub (v : val).

Fixpoint template (parts : list part) : outcome string :=
  match parts with
  | [] => Returned ""
  | lit s :: rest => r ← template rest; Returned (s +:+ r)
  | sub v :: rest => s ← ToString v; r ← template rest; Returned (s +:+ r)
  end.

(** [a === b] between a value and a value of another response: primitives
    compare by value, arrays and objects by identity, which two distinct
    parses never share. *)
Definition strict_equal (a b : val) : bool :=
  match a, b with
  | JUndefined, JUndefined | JNull, JNull => true
  | JBool x, JBool y => bool_decide (x = y)
  | JNum x, JNum y => x =? y
  | JStr x, JStr y => String.eqb x y
  | _, _ => false
  end.

(** The characters of a string, each a string of its own. *)
Fixpoint chars (s : string) : list val :=
  match s with
  | EmptyString => []
  | String c rest => JStr (String c "") :: chars rest
  end.

(** What [for (const x of v)] iterates over: the elements of an array, the
    characters of a string; anything else is not iterable. *)
Definition iterate (v : val) : outcome (list val) :=
  match v with
  | JArr items => Returned items
  | JStr s => Returned (chars s)
  | _ => Thrown (TypeError "is not iterable")
  end.

(** [v.find(p)]: only an array has the method. *)
Fixpoint find_first (p : val → outcome bool) (l : list val) : outcome val :=
  match l with
  | [] => Returned JUndefined
  | x :: rest =>
      match p x with
      | Thrown e => Thrown e
      | Returned true => Returned x
      | Returned false => find_first p rest
      end
  end.

Definition Array_find (v : val) (p : val → outcome bool) : outcome val :=
  match v with
  | JArr items => find_first p items
  | JUndefined | JNull => Thrown (TypeError "Cannot read properties of undefined")
  | _ => Thrown (TypeError "find is not a function")
  end.

(** [Object.keys(v)] *)
Definition Object_keys (v : val) : outcome val :=
  match v with
  | JUndefined | JNull =>
      Thrown (TypeError "Cannot convert undefined or null to object")
  | JObj props => Returned (JArr (JStr <$> props.*1))
  | JArr items => Returned (JArr ((λ i, JStr (pretty i)) <$> seq 0 (length items)))
  | JStr s => Returned (JArr ((λ i, JStr (pretty i)) <$> seq 0 (String.length s)))
  | JBool _ | JNum _ => Returned (JArr [])
  end.

(** ** The platform and the outside world *)

(** The three GraphQL documents sent to the Admin API. *)
Inductive graphql_operation :=
  | GetProductMetafield
  | GetProductEvent
  | UpdateOrder.

(** An outbound HTTP call, by endpoint, with the data that varies: the
    GraphQL variables, the query parameters or the posted document.  The
    fixed headers (access tokens, content type, revision) are left out. *)
Inductive request :=
  | shopify_graphql (operation : graphql_operation) (variables : val)
  | calendly_users_me
  | calendly_event_types (params : val)
  | calendly_scheduling_links (data : val)
  | klaviyo_events (data : val).

(** What [await axios.get/post] gives: a response with its [data], or a
    rejection (a transport error, or a status outside 2xx with its body). *)
Inductive response :=
  | Resolved (data : val)
  | Rejected (message : string) (response_data : option val).

Inductive level := log | warn | error.

(** A console line: its first argument, rendered, and the other arguments as
    values (an argument [JSON.stringify(x, null, 2)] is recorded as [x], an
    error object as its message). *)
Record log_entry := LogEntry { lvl : level; text : string; args : list val }.

(** The observable effects of an invocation, oldest first. *)
Record world := World { calls : list request; console : list log_entry }.

(** The process configuration and the built-ins the handlers call.  The
    external services answer a request as a function of the calls made
    before it. *)
Record runtime := Runtime {
  SHOPIFY_WEBHOOK_SECRET : string;
  (** [crypto.createHmac('sha256', key).update(body, 'utf8').digest('base64')]
      of a body that is a string *)
  createHmac_sha256_base64 : string → string → string;
  (** the value a text parses to as JSON, [None] for a [SyntaxError] *)
  parse_text : string → option val;
  (** the number a string converts to, [None] for [NaN] *)
  StringToNumber : string → option Z;
  (** [new Date(v).getTime()], [None] for an invalid date *)
  Date_getTime : val → outcome (option Z);
  (** [toISOString] of a valid time value *)
  Date_toISOString : Z → string;
  axios : list request → request → response;
}.

(** The inbound request as the platform hands it over: [event.body] is the
    raw body, [null] when the request has none. *)
Record event := Event { headers : gmap string string; body : val }.

(** [event.headers[name]] *)
Definition header (ev : event) (name : string) : val :=
  match headers ev !! name with
  | Some s => JStr s
  | None => JUndefined
  end.

Record http_response := Response { statusCode : Z; responseBody : string }.

(** ** Computations *)

Definition M (A : Type) : Type := world → outcome A * world.

#[global] Instance M_ret : MRet M := λ A a w, (Returned a, w).
#[global] Instance M_bind : MBind M := λ A B f m w,
  match m w with
  | (Returned a, w') => f a w'
  | (Thrown e, w') => (Thrown e, w')
  end.

Definition lift {A} (o : outcome A) : M A := λ w, (o, w).

Definition throw {A} (e : exn) : M A := lift (Thrown e).

(** [try { m } catch (error) { h error }] *)
Definition try_catch {A} (m : M A) (h : exn → M A) : M A := λ w,
  match m w with
  | (Returned a, w') => (Returned a, w')
  | (Thrown e, w') => h e w'
  end.

Definition console_write (l : level) (t : string) (a : list val) : M unit := λ w,
  (Returned (), World (calls w) (console w ++ [LogEntry l t a])).

Definition console_log := console_write log.
Definition console_warn := console_write warn.
Definition console_error := console_write error.

(** [await axios...]: the call is recorded, and answered from the calls made
    before it. *)
Definition fetch (rt : runtime) (req : request) : M val := λ w,
  let w' := World (calls w ++ [req]) (console w) in
  match axios rt (calls w) req with
  | Resolved data => (Returned data, w')
  | Rejected m r => (Thrown (AxiosError m r), w')
  end.

Definition get (v : val) (k : string) : M val := lift (get_prop v k).

(** [a && b] and [a || b], the right operand evaluated only when needed. *)
Definition and_then (a : val) (b : M val) : M val :=
  if truthy a then b else mret a.

Definition or_else (a : val) (b : M val) : M val :=
  if truthy a then mret a else b.

(** [ToNumber], as [<] and [>] apply it to an operand: [None] is [NaN]. *)
Definition ToNumber (rt : runtime) (v : val) : outcome (option Z) :=
  match v with
  | JUndefined => Returned None
  | JNull => Returned (Some 0)
  | JBool b => Returned (Some (if b then 1 else 0))
  | JNum n => Returned (Some n)
  | JStr s => Returned (StringToNumber rt s)
  | JArr _ | JObj _ =>
      match ToString v with
      | Returned s => Returned (StringToNumber rt s)
      | Thrown e => Thrown e
      end
  end.

(** [v > 0] *)
Definition greater_than_zero (rt : runtime) (v : val) : outcome bool :=
  match ToNumber rt v with
  | Returned (Some z) => Returned (0 <? z)
  | Returned None => Returned false
  | Thrown e => Thrown e
  end.

(** How often [for (let i = 0; i < quantity; i++)] runs its body: the test
    converts [quantity] afresh each time, always to the same number. *)
Definition loop_bound (rt : runtime) (quantity : val) : outcome nat :=
  match ToNumber rt quantity with
  | Returned (Some z) => Returned (Z.to_nat z)
  | Returned None => Returned 0%nat
  | Thrown e => Thrown e
  end.

(** [for (const x of items) acc = body x acc] *)
Fixpoint for_of {A} (items : list val) (body : val → A → M A) (acc : A) : M A :=
  match items with
  | [] => mret acc
  | x :: rest => acc' ← body x acc; for_of rest body acc'
  end.

(** [for (; i < i + n; i++) acc = body i acc] *)
Fixpoint for_range {A} (i n : nat) (body : nat → A → M A) (acc : A) : M A :=
  match n with
  | O => mret acc
  | S n' => acc' ← body i acc; for_range (S i) n' body acc'
  end.

(** [crypto.createHmac('sha256', SHOPIFY_WEBHOOK_SECRET).update(data, 'utf8')
    .digest('base64')]: [update] takes a string (or binary data, which no
    [val] is) and throws a [TypeError] on anything else. *)
Definition hmac_digest (rt : runtime) (data : val) : outcome string :=
  match data with
  | JStr s => Returned (createHmac_sha256_base64 rt (SHOPIFY_WEBHOOK_SECRET rt) s)
  | _ =>
      Thrown (TypeError
        "The data argument must be of type string or an instance of Buffer, TypedArray, or DataView")
  end.

(** [verifyShopifyWebhook], the same function in the three listings. *)
Definition verifyShopifyWebhook (rt : runtime) (hmacHeader body : val)
  : outcome bool :=
  generatedHash ← hmac_digest rt body;
  Returned (strict_equal (JStr generatedHash) hmacHeader).

(** [JSON.parse(text)]: the argument is converted to a string, which is then
    parsed. *)
Definition JSON_parse (rt : runtime) (text : val) : outcome val :=
  s ← ToString text;
  match parse_text rt s with
  | Some v => Returned v
  | None => Thrown (SyntaxError "Unexpected token in JSON")
  end.

Definition Invalid_request := Response 401 "Invalid request".
Definition Success := Response 200 "Success".
Definition Internal_Server_Error := Response 500 "Internal Server Error".

(** [gid://shopify/Product/${productId}] and its like *)
Definition gid (kind : string) (id : val) : outcome val :=
  s ← template [lit "gid://shopify/"; lit kind; lit "/"; sub id];
  Returned (JStr s).

(** [l.map(f)] with an [f] that may throw, elements left to right. *)
Fixpoint traverse {A B} (f : A → outcome B) (l : list A) : outcome (list B) :=
  match l with
  | [] => Returned []
  | x :: rest =>
      match f x with
      | Thrown e => Thrown e
      | Returned y =>
          match traverse f rest with
          | Thrown e => Thrown e
          | Returned ys => Returned (y :: ys)
          end
      end
  end.

(** ** The Calendly handler with the identity fallback chain *)

Module Calendly.

(** The [custom.event] metaobject of the product, and in it the value of the
    field [calendly_event_url_handle]; [null] whenever there is none or the
    lookup fails. *)
Definition getCalendlyEventHandle (rt : runtime) (productId : val) : M val :=
  try_catch
    (productGid ← lift (gid "Product" productId);
     let variables := JObj [("productId", productGid)] in
     data ← fetch rt (shopify_graphql GetProductMetafield variables);
     errors ← get data "errors";
     if truthy errors then
       console_error "GraphQL errors:" [errors];;
       mret JNull
     else
       data_data ← get data "data";
       product ← get data_data "product";
       metafield ← get product "metafield";
       reference ← and_then metafield (get metafield "reference");
       if negb (truthy reference) then
         msg ← lift (template [lit "No 'custom.event' metafield found for product ";
                               sub productId]);
         console_log msg [];;
         mret JNull
       else
         metaobject ← get metafield "reference";
         fields ← get metaobject "fields";
         calendlyField ← lift (Array_find fields (λ field,
           key ← get_prop field "key";
           Returned (strict_equal key (JStr "calendly_event_url_handle"))));
         if truthy calendlyField then get calendlyField "value" else mret JNull)
    (λ error,
       console_error "Error fetching Calendly event handle from metaobject:"
         [error_detail error];;
       mret JNull).

(** The URI of the event type whose slug is the handle: the caller's
    identity, then the caller's event types, then the exact match. *)
Definition getCalendlyEventTypeUri (rt : runtime) (eventHandle : val) : M val :=
  try_catch
    (userData ← fetch rt calendly_users_me;
     resource ← get userData "resource";
     userUri ← get resource "uri";
     eventsData ← fetch rt (calendly_event_types (JObj [("user", userUri)]));
     collection ← get eventsData "collection";
     eventType ← lift (Array_find collection (λ event,
       slug ← get_prop event "slug";
       Returned (strict_equal slug eventHandle)));
     if truthy eventType then get eventType "uri" else mret JNull)
    (λ error,
       console_error "Error retrieving Calendly event type URI:"
         [error_detail error];;
       mret JNull).

(** The document posted to [/scheduling_links]. *)
Definition schedulingLinkRequest (email firstName lastName eventTypeUri : val)
  : val :=
  JObj [("max_event_count", JNum 1);
        ("owner", eventTypeUri);
        ("owner_type", JStr "EventType");
        ("invitee", JObj [("email", email);
                          ("first_name", firstName);
                          ("last_name", lastName)])].

(** One single-use scheduling link; a failure is logged and thrown on. *)
Definition createCalendlySchedulingLink (rt : runtime)
    (email firstName lastName eventTypeUri : val) : M val :=
  try_catch
    (data ← fetch rt (calendly_scheduling_links
                        (schedulingLinkRequest email firstName lastName eventTypeUri));
     resource ← get data "resource";
     schedulingLink ← get resource "booking_url";
     console_log "Created Calendly scheduling link:" [schedulingLink];;
     mret schedulingLink)
    (λ error,
       console_error "Error creating scheduling link via Calendly:"
         [error_detail error];;
       throw (Error "Failed to create Calendly scheduling link")).

(** [Math.floor(new Date(orderTime).getTime() / 1000)]; [NaN] goes over the
    wire as [null]. *)
Definition epochSeconds (ms : option Z) : val :=
  match ms with
  | Some t => JNum (t / 1000)
  | None => JNull
  end.

Definition klaviyoPayload (customerProperties : list (string * val))
    (schedulingLinks : list val) (orderId eventTimestamp : val) : val :=
  JObj [("data", JObj [
    ("type", JStr "event");
    ("attributes", JObj [
       ("event", JStr "Order Contains Event");
       ("customer_properties", JObj customerProperties);
       ("properties", JObj [("scheduling_links", JArr schedulingLinks);
                            ("order_id", orderId)]);
       ("time", eventTimestamp)])])].

Definition trackKlaviyoEvent (rt : runtime)
    (email firstName lastName : val) (schedulingLinks : list val)
    (orderId orderTime : val) : M unit :=
  try_catch
    (ms ← lift (Date_getTime rt orderTime);
     let eventTimestamp := epochSeconds ms in
     let customerProperties := [] in
     let customerProperties :=
       if truthy email then set_prop "$email" email customerProperties
       else customerProperties in
     let customerProperties :=
       if truthy firstName then set_prop "$first_name" firstName customerProperties
       else customerProperties in
     let customerProperties :=
       if truthy lastName then set_prop "$last_name" lastName customerProperties
       else customerProperties in
     if negb (truthy email) then
       console_warn "No customer email available. Skipping Klaviyo event tracking." []
     else
       let payload :=
         klaviyoPayload customerProperties schedulingLinks orderId eventTimestamp in
       console_log "Klaviyo event payload:" [payload];;
       fetch rt (klaviyo_events payload);;
       console_log "Tracked Klaviyo event: Order Contains Event." [])
    (λ error,
       console_error "Error tracking Klaviyo event:" [error_detail error];;
       throw (Error "Failed to track Klaviyo event")).

(** [`${link.title}: ${link.link}`] *)
Definition noteLine (link : val) : outcome string :=
  title ← get_prop link "title";
  url ← get_prop link "link";
  template [sub title; lit ": "; sub url].

Definition addNoteToShopifyOrder (rt : runtime)
    (orderId : val) (schedulingLinks : list val) : M unit :=
  try_catch
    (lines ← lift (traverse noteLine schedulingLinks);
     let notes := String.concat LF lines in
     orderGid ← lift (gid "Order" orderId);
     let variables :=
       JObj [("input", JObj [("id", orderGid);
                             ("note", JStr ("Scheduling Links:" +:+ LF +:+ notes))])] in
     data ← fetch rt (shopify_graphql UpdateOrder variables);
     errors ← get data "errors";
     if truthy errors then
       console_error "GraphQL errors:" [errors];;
       throw (Error "Failed to add note to Shopify order")
     else
       data_data ← get data "data";
       orderUpdate ← get data_data "orderUpdate";
       userErrors ← get orderUpdate "userErrors";
       len ← get userErrors "length";
       positive ← lift (greater_than_zero rt len);
       if positive : bool then
         console_error "User errors:" [userErrors];;
         throw (Error "Failed to add note to Shopify order")
       else
         console_log "Added multiple scheduling links to Shopify order notes." [])
    (λ error,
       console_error "Error adding note to Shopify order:" [error_detail error];;
       throw (Error "Failed to add note to Shopify order")).

(** The customer's e-mail and names, each from the first source that has a
    truthy value, the empty string when none has (with the three objects the
    handler logs on the way). *)
Definition customerIdentity (order : val) : M (val * val * val) :=
  keys ← lift (Object_keys order);
  console_log "Order object keys:" [keys];;
  order_customer ← get order "customer";
  console_log "order.customer:" [order_customer];;
  order_billing_address ← get order "billing_address";
  console_log "order.billing_address:" [order_billing_address];;
  customerEmail ← (
    customer ← get order "customer";
    customer_email ← and_then customer (get customer "email");
    or_else customer_email (
      email ← get order "email";
      or_else email (
        contact_email ← get order "contact_email";
        or_else contact_email (
          billing_address ← get order "billing_address";
          billing_email ← and_then billing_address (get billing_address "email");
          or_else billing_email (mret (JStr ""))))));
  firstName ← (
    customer ← get order "customer";
    customer_first_name ← and_then customer (get customer "first_name");
    or_else customer_first_name (
      billing_address ← get order "billing_address";
      billing_first_name ←
        and_then billing_address (get billing_address "first_name");
      or_else billing_first_name (mret (JStr ""))));
  lastName ← (
    customer ← get order "customer";
    customer_last_name ← and_then customer (get customer "last_name");
    or_else customer_last_name (
      billing_address ← get order "billing_address";
      billing_last_name ←
        and_then billing_address (get billing_address "last_name");
      or_else billing_last_name (mret (JStr ""))));
  console_log "Extracted customerEmail:" [customerEmail];;
  console_log "Extracted firstName:" [firstName];;
  console_log "Extracted lastName:" [lastName];;
  msg ← lift (template [lit "Received order from "; sub firstName; lit " ";
                        sub lastName; lit " ("; sub customerEmail; lit ")"]);
  console_log msg [];;
  mret (customerEmail, firstName, lastName).

(** One pass of the inner loop: a link for ticket [i + 1] of the line item,
    pushed onto the links. *)
Definition ticket (rt : runtime) (customerEmail firstName lastName : val)
    (lineItem eventTypeUri : val) (i : nat) (schedulingLinks : list val)
  : M (list val) :=
  schedulingLink ←
    createCalendlySchedulingLink rt customerEmail firstName lastName eventTypeUri;
  lineItem_title ← get lineItem "title";
  title ← lift (template [sub lineItem_title; lit " (Ticket ";
                          sub (JNum (Z.of_nat i + 1)); lit ")"]);
  mret (schedulingLinks ++ [JObj [("title", JStr title); ("link", schedulingLink)]]).

(** The body of the loop over the line items. *)
Definition lineItemLinks (rt : runtime) (customerEmail firstName lastName : val)
    (lineItem : val) (schedulingLinks : list val) : M (list val) :=
  productId ← get lineItem "product_id";
  quantity ← get lineItem "quantity";
  eventHandle ← getCalendlyEventHandle rt productId;
  if truthy eventHandle then
    lineItem_title ← get lineItem "title";
    msg ← lift (template [lit "Product "; sub lineItem_title;
                          lit " has a Calendly event handle: "; sub eventHandle]);
    console_log msg [];;
    eventTypeUri ← getCalendlyEventTypeUri rt eventHandle;
    if truthy eventTypeUri then
      n ← lift (loop_bound rt quantity);
      for_range 0 n
        (ticket rt customerEmail firstName lastName lineItem eventTypeUri)
        schedulingLinks
    else
      msg ← lift (template [lit "No matching event found for handle: ";
                            sub eventHandle]);
      console_warn msg [];;
      mret schedulingLinks
  else mret schedulingLinks.

(** The enrichment pass: the links of all line items, in order. *)
Definition collectSchedulingLinks (rt : runtime)
    (customerEmail firstName lastName order : val) : M (list val) :=
  line_items ← get order "line_items";
  items ← lift (iterate line_items);
  for_of items (lineItemLinks rt customerEmail firstName lastName) [].

(** The two writes, only when there is a link: the Klaviyo event unless the
    e-mail is missing, then the order note. *)
Definition trackAndAnnotate (rt : runtime)
    (customerEmail firstName lastName order : val) (schedulingLinks : list val)
  : M unit :=
  if (0 <? length schedulingLinks)%nat then
    (if negb (truthy customerEmail) then
       console_warn "No customer email available. Skipping Klaviyo event tracking." []
     else
       order_id ← get order "id";
       order_created_at ← get order "created_at";
       trackKlaviyoEvent rt customerEmail firstName lastName schedulingLinks
         order_id order_created_at);;
    order_id ← get order "id";
    addNoteToShopifyOrder rt order_id schedulingLinks
  else mret ().

Definition handler (rt : runtime) (ev : event) : M http_response :=
  try_catch
    (let hmacHeader := header ev "x-shopify-hmac-sha256" in
     let body := body ev in
     verified ← lift (verifyShopifyWebhook rt hmacHeader body);
     if negb verified then mret Invalid_request
     else
       order ← lift (JSON_parse rt body);
       '(customerEmail, firstName, lastName) ← customerIdentity order;
       schedulingLinks ←
         collectSchedulingLinks rt customerEmail firstName lastName order;
       trackAndAnnotate rt customerEmail firstName lastName order schedulingLinks;;
       mret Success)
    (λ error,
       console_error "Error processing webhook:" [JStr (message_of error)];;
       mret Internal_Server_Error).

End Calendly.

(** ** The original handler

    [functions/shopify-webhook-handler.js].  The file elides the bodies of
    the three lookup helpers and of the annotator (a comment stands for each),
    so the handler takes them as parameters. *)

Module Original.
Section Handler.

Variable getCalendlyEventHandle : val → M val.
Variable getCalendlyEventTypeUri : val → M val.
Variable createCalendlySchedulingLink : val → val → val → val → M val.
Variable addNoteToShopifyOrder : val → list val → M unit.

Definition klaviyoPayload (email firstName lastName : val)
    (schedulingLinks : list val) (orderId eventTime : val) : val :=
  JObj [("data", JObj [
    ("type", JStr "event");
    ("attributes", JObj [
       ("event_name", JStr "Order Contains Event");
       ("profile", JObj [("data", JObj [
          ("type", JStr "profile");
          ("attributes", JObj [("email", email);
                               ("first_name", firstName);
                               ("last_name", lastName)])])]);
       ("properties", JObj [("scheduling_links", JArr schedulingLinks);
                            ("order_id", orderId)]);
       ("time", eventTime)])])].

Definition trackKlaviyoEvent (rt : runtime)
    (email firstName lastName : val) (schedulingLinks : list val)
    (orderId orderTime : val) : M unit :=
  try_catch
    (ms ← lift (Date_getTime rt orderTime);
     let eventTime := Calendly.epochSeconds ms in
     fetch rt (klaviyo_events
       (klaviyoPayload email firstName lastName schedulingLinks orderId eventTime));;
     console_log "Tracked Klaviyo event for purchase with multiple scheduling links." [])
    (λ error,
       console_error "Error tracking Klaviyo event:" [error_detail error];;
       throw (Error "Failed to track Klaviyo event")).

Definition ticket (customerEmail firstName lastName : val)
    (lineItem eventTypeUri : val) (i : nat) (schedulingLinks : list val)
  : M (list val) :=
  schedulingLink ←
    createCalendlySchedulingLink customerEmail firstName lastName eventTypeUri;
  lineItem_title ← get lineItem "title";
  title ← lift (template [sub lineItem_title; lit " (Ticket ";
                          sub (JNum (Z.of_nat i + 1)); lit ")"]);
  mret (schedulingLinks ++ [JObj [("title", JStr title); ("link", schedulingLink)]]).

Definition lineItemLinks (rt : runtime) (customerEmail firstName lastName : val)
    (lineItem : val) (schedulingLinks : list val) : M (list val) :=
  productId ← get lineItem "product_id";
  quantity ← get lineItem "quantity";
  eventHandle ← getCalendlyEventHandle productId;
  if truthy eventHandle then
    lineItem_title ← get lineItem "title";
    msg ← lift (template [lit "Product "; sub lineItem_title;
                          lit " has a Calendly event handle: "; sub eventHandle]);
    console_log msg [];;
    eventTypeUri ← getCalendlyEventTypeUri eventHandle;
    if truthy eventTypeUri then
      n ← lift (loop_bound rt quantity);
      for_range 0 n
        (ticket customerEmail firstName lastName lineItem eventTypeUri)
        schedulingLinks
    else
      msg ← lift (template [lit "No matching event found for handle: ";
                            sub eventHandle]);
      console_warn msg [];;
      mret schedulingLinks
  else mret schedulingLinks.

Definition handler (rt : runtime) (ev : event) : M http_response :=
  try_catch
    (let hmacHeader := header ev "x-shopify-hmac-sha256" in
     let body := body ev in
     verified ← lift (verifyShopifyWebhook rt hmacHeader body);
     if negb verified then mret Invalid_request
     else
       order ← lift (JSON_parse rt body);
       customerEmail ← get order "email";
       customer ← get order "customer";
       firstName ← get customer "first_name";
       customer ← get order "customer";
       lastName ← get customer "last_name";
       msg ← lift (template [lit "Received order from "; sub firstName; lit " ";
                             sub lastName; lit " ("; sub customerEmail; lit ")"]);
       console_log msg [];;
       line_items ← get order "line_items";
       items ← lift (iterate line_items);
       schedulingLinks ←
         for_of items (lineItemLinks rt customerEmail firstName lastName) [];
       (if (0 <? length schedulingLinks)%nat then
          order_id ← get order "id";
          order_created_at ← get order "created_at";
          trackKlaviyoEvent rt customerEmail firstName lastName schedulingLinks
            order_id order_created_at;;
          order_id ← get order "id";
          addNoteToShopifyOrder order_id schedulingLinks
        else mret ());;
       mret Success)
    (λ error,
       console_error "Error processing webhook:" [JStr (message_of error)];;
       mret Internal_Server_Error).

End Handler.
End Original.

(** ** The metaobject handler *)

Module Metaobject.

(** The metaobject keys the handler keeps, and the names it keeps them
    under. *)
Definition eventKeys : list (string * string) :=
  [("event.title", "title");
   ("event.map_embed", "map_embed");
   ("event.address", "address");
   ("event.start_date_time", "start_date_time");
   ("event.end_date_time", "end_date_time");
   ("event.refund_policy", "refund_policy");
   ("event.calendar_embed", "calendar_embed")].

(** The chain of [if (field.key === ...) eventData.name = field.value]. *)
Definition eventField (field : val) (eventData : list (string * val))
  : outcome (list (string * val)) :=
  key ← get_prop field "key";
  match list_find (λ kn, strict_equal key (JStr kn.1) = true) eventKeys with
  | Some (_, (_, name)) =>
      value ← get_prop field "value";
      Returned (set_prop name value eventData)
  | None => Returned eventData
  end.

Definition getEventDataFromProduct (rt : runtime) (productId : val) : M val :=
  try_catch
    (productGid ← lift (gid "Product" productId);
     let variables := JObj [("productId", productGid)] in
     data ← fetch rt (shopify_graphql GetProductEvent variables);
     errors ← get data "errors";
     if truthy errors then
       console_error "GraphQL errors:" [errors];;
       mret JNull
     else
       data_data ← get data "data";
       product ← get data_data "product";
       metafield ← get product "metafield";
       reference ← and_then metafield (get metafield "reference");
       if negb (truthy reference) then
         msg ← lift (template [lit "No 'custom.event' metafield found for product ";
                               sub productId]);
         console_log msg [];;
         mret JNull
       else
         metafield_reference ← get metafield "reference";
         fields ← get metafield_reference "fields";
         items ← lift (iterate fields);
         eventData ← for_of items (λ field eventData, lift (eventField field eventData)) [];
         mret (JObj eventData))
    (λ error,
       console_error "Error fetching event data from product metaobject:"
         [error_detail error];;
       mret JNull).

Definition klaviyoPayload (eventProducts : list val) (orderId : val)
    (eventIsoTime : string) : val :=
  JObj [("data", JObj [
    ("type", JStr "event");
    ("attributes", JObj [
       ("metric", JObj [("data", JObj [
          ("type", JStr "metric");
          ("attributes", JObj [("name", JStr "Event Product Purchased")])])]);
       ("profile", JObj [("data", JObj [
          ("type", JStr "profile");
          ("attributes", JObj [("external_id", JStr "order_5845762638078")])])]);
       ("properties", JObj [("event_products", JArr eventProducts);
                            ("order_id", orderId)]);
       ("time", JStr eventIsoTime)])])].

Definition trackKlaviyoEvent (rt : runtime) (nonPiiId : string)
    (eventProducts : list val) (orderId orderTime : val) : M unit :=
  try_catch
    (ms ← lift (Date_getTime rt orderTime);
     eventIsoTime ← match ms with
                    | Some t => mret (Date_toISOString rt t)
                    | None => throw (RangeError "Invalid time value")
                    end;
     let payload := klaviyoPayload eventProducts orderId eventIsoTime in
     console_log "Sending payload to Klaviyo:" [payload];;
     fetch rt (klaviyo_events payload);;
     console_log "Tracked Klaviyo event for event products purchased." [])
    (λ error,
       console_error "Error tracking Klaviyo event:" [error_detail error];;
       throw (Error "Failed to track Klaviyo event")).

(** The stanza of one event product, [idx] counted from zero. *)
Definition stanza (entry : nat * val) : outcome string :=
  let '(idx, ep) := entry in
  title ← get_prop ep "title";
  l1 ← template [lit "Event "; sub (JNum (Z.of_nat idx + 1)); lit ": "; sub title];
  address ← get_prop ep "address";
  l2 ← template [lit "Address: "; sub address];
  start_date_time ← get_prop ep "start_date_time";
  l3 ← template [lit "Start: "; sub start_date_time];
  end_date_time ← get_prop ep "end_date_time";
  l4 ← template [lit "End: "; sub end_date_time];
  refund_policy ← get_prop ep "refund_policy";
  l5 ← template [lit "Refund Policy: "; sub refund_policy];
  map_embed ← get_prop ep "map_embed";
  l6 ← template [lit "Map Embed: "; sub map_embed];
  calendar_embed ← get_prop ep "calendar_embed";
  l7 ← template [lit "Calendar Embed: "; sub calendar_embed];
  Returned (String.concat LF [l1; l2; l3; l4; l5; l6; l7]).

Definition addNoteToShopifyOrder (rt : runtime)
    (orderId : val) (eventProducts : list val) : M unit :=
  try_catch
    (stanzas ← lift (traverse stanza
                       (zip (seq 0 (length eventProducts)) eventProducts));
     let notes := String.concat (LF +:+ LF) stanzas in
     msg ← lift (template [lit "Adding note to Shopify order "; sub orderId;
                           lit ":"; lit LF; lit notes]);
     console_log msg [];;
     orderGid ← lift (gid "Order" orderId);
     let variables :=
       JObj [("input", JObj [("id", orderGid);
                             ("note", JStr ("Event Details:" +:+ LF +:+ LF +:+ notes))])] in
     data ← fetch rt (shopify_graphql UpdateOrder variables);
     errors ← get data "errors";
     if truthy errors then
       console_error "GraphQL errors:" [errors];;
       throw (Error "Failed to add note to Shopify order")
     else
       data_data ← get data "data";
       orderUpdate ← get data_data "orderUpdate";
       userErrors ← get orderUpdate "userErrors";
       len ← get userErrors "length";
       positive ← lift (greater_than_zero rt len);
       if positive : bool then
         console_error "User errors:" [userErrors];;
         throw (Error "Failed to add note to Shopify order")
       else
         console_log "Added event details to Shopify order notes." [])
    (λ error,
       console_error "Error adding note to Shopify order:" [error_detail error];;
       throw (Error "Failed to add note to Shopify order")).

(** The record pushed once per purchased unit. *)
Definition eventProduct (eventData lineItem_title : val) : outcome val :=
  title ← get_prop eventData "title";
  map_embed ← get_prop eventData "map_embed";
  address ← get_prop eventData "address";
  start_date_time ← get_prop eventData "start_date_time";
  end_date_time ← get_prop eventData "end_date_time";
  refund_policy ← get_prop eventData "refund_policy";
  calendar_embed ← get_prop eventData "calendar_embed";
  Returned (JObj [("title", title);
                  ("map_embed", map_embed);
                  ("address", address);
                  ("start_date_time", start_date_time);
                  ("end_date_time", end_date_time);
                  ("refund_policy", refund_policy);
                  ("calendar_embed", calendar_embed);
                  ("line_item_title", lineItem_title)]).

(** The body of the loop over the line items. *)
Definition lineItemEvents (rt : runtime) (lineItem : val)
    (eventProducts : list val) : M (list val) :=
  productId ← get lineItem "product_id";
  quantity ← get lineItem "quantity";
  lineItem_title ← get lineItem "title";
  msg ← lift (template [lit "Processing line item: "; sub lineItem_title;
                        lit ", Product ID: "; sub productId;
                        lit ", Quantity: "; sub quantity]);
  console_log msg [];;
  eventData ← getEventDataFromProduct rt productId;
  if truthy eventData then
    n ← lift (loop_bound rt quantity);
    for_range 0 n
      (λ _ eventProducts,
         lineItem_title ← get lineItem "title";
         record ← lift (eventProduct eventData lineItem_title);
         mret (eventProducts ++ [record]))
      eventProducts
  else
    msg ← lift (template [lit "No event data found for product ID: "; sub productId]);
    console_warn msg [];;
    mret eventProducts.

(** The enrichment pass: the event products of all line items, in order. *)
Definition collectEventProducts (rt : runtime) (order : val) : M (list val) :=
  line_items ← get order "line_items";
  items ← lift (iterate line_items);
  for_of items (lineItemEvents rt) [].

(** The two writes, only when there is an event product: the Klaviyo event,
    then the order note. *)
Definition trackAndAnnotate (rt : runtime) (nonPiiId : string) (order : val)
    (eventProducts : list val) : M unit :=
  if (0 <? length eventProducts)%nat then
    order_id ← get order "id";
    order_created_at ← get order "created_at";
    trackKlaviyoEvent rt nonPiiId eventProducts order_id order_created_at;;
    order_id ← get order "id";
    addNoteToShopifyOrder rt order_id eventProducts
  else
    console_log
      "No event products found, skipping Klaviyo event tracking and order note update."
      [].

(** [event.headers['x-shopify-hmac-sha256'] ||
    event.headers['X-Shopify-Hmac-Sha256']] *)
Definition hmacHeader (ev : event) : val :=
  let lower := header ev "x-shopify-hmac-sha256" in
  if truthy lower then lower else header ev "X-Shopify-Hmac-Sha256".

Definition handler (rt : runtime) (ev : event) : M http_response :=
  try_catch
    (let hmacHeader := hmacHeader ev in
     let body := body ev in
     verified ← lift (verifyShopifyWebhook rt hmacHeader body);
     if negb verified then
       console_error "Invalid webhook signature." [];;
       mret Invalid_request
     else
       order ← lift (JSON_parse rt body);
       console_log "Received order object:" [order];;
       order_id ← get order "id";
       nonPiiId ← lift (template [lit "order_"; sub order_id]);
       eventProducts ← collectEventProducts rt order;
       console_log "Collected event product data:" [JArr eventProducts];;
       trackAndAnnotate rt nonPiiId order eventProducts;;
       mret Success)
    (λ error,
       console_error "Error processing webhook:" [JStr (message_of error)];;
       mret Internal_Server_Error).

End Metaobject.

(** ** Notions the properties are stated with *)

(** The world after one more request, and after one more console line. *)
Definition sent (req : request) (w : world) : world :=
  World (calls w ++ [req]) (console w).

Definition logged (l : level) (t : string) (a : list val) (w : world) : world :=
  World (calls w) (console w ++ [LogEntry l t a]).

(** The handlers' catch block. *)
Definition report (error : exn) : M http_response :=
  console_error "Error processing webhook:" [JStr (message_of error)];;
  mret Internal_Server_Error.

(** The runtime with another parser and other services, everything else as
    it is. *)
Definition with_parser_and_services (rt : runtime)
    (parse : string → option val) (services : list request → request → response)
  : runtime :=
  {| SHOPIFY_WEBHOOK_SECRET := SHOPIFY_WEBHOOK_SECRET rt;
     createHmac_sha256_base64 := createHmac_sha256_base64 rt;
     parse_text := parse;
     StringToNumber := StringToNumber rt;
     Date_getTime := Date_getTime rt;
     Date_toISOString := Date_toISOString rt;
     axios := services |}.

(** [m], when it returns, returns [r]. *)
Definition returns_only {A} (r : A) (m : M A) : Prop :=
  ∀ w a w', m w = (Returned a, w') → a = r.

(** One of the three responses a handler gives. *)
Definition one_of_three (r : http_response) : Prop :=
  r = Success ∨ r = Invalid_request ∨ r = Internal_Server_Error.

(** The world after the catch block of a handler has reported [e]. *)
Definition reported (e : exn) (w : world) : world :=
  logged error "Error processing webhook:" [JStr (message_of e)] w.

(** [m] sends only requests with property [P], whatever the world it runs
    in and however it ends. *)
Definition sends {A} (P : request → Prop) (m : M A) : Prop :=
  ∀ w, ∃ new, calls (m w).2 = calls w ++ new ∧ Forall P new.

(** [m] only adds lines to the console. *)
Definition keeps_console {A} (m : M A) : Prop :=
  ∀ w, ∃ more, console (m w).2 = console w ++ more.

(** [m] sends nothing. *)
Definition quiet {A} (m : M A) : Prop := ∀ w, calls (m w).2 = calls w.

(** [m] returns, whatever the world it runs in: it throws nothing. *)
Definition never_throws {A} (m : M A) : Prop :=
  ∀ w, ∃ a w', m w = (Returned a, w').

Definition is_klaviyo (req : request) : bool :=
  match req with
  | klaviyo_events _ => true
  | _ => false
  end.

Definition is_order_update (req : request) : bool :=
  match req with
  | shopify_graphql UpdateOrder _ => true
  | _ => false
  end.

(** [v.k1.k2...], [undefined] where a read would throw. *)
Definition member (v : val) (k : string) : val :=
  match get_prop v k with
  | Returned x => x
  | Thrown _ => JUndefined
  end.

Definition at_path (v : val) (keys : list string) : val := foldl member v keys.

(** The last line on the console. *)
Definition last_line (w : world) : option log_entry := last (console w).

(** The answer of the order-note mutation carries a non-empty GraphQL error
    array, or a non-empty array of user errors. *)
Definition mutation_failed (data : val) : Prop :=
  (∃ e es, get_prop data "errors" = Returned (JArr (e :: es))) ∨
  (∃ data_data orderUpdate u us,
     get_prop data "data" = Returned data_data ∧
     get_prop data_data "orderUpdate" = Returned orderUpdate ∧
     get_prop orderUpdate "userErrors" = Returned (JArr (u :: us))).

(** What an annotator logs about the answer of a failed mutation: the
    GraphQL errors when the answer has any, the user errors otherwise. *)
Definition refusal (data : val) : log_entry :=
  if truthy (member data "errors") then
    LogEntry error "GraphQL errors:" [member data "errors"]
  else
    LogEntry error "User errors:" [at_path data ["data"; "orderUpdate"; "userErrors"]].

(** The world once an annotator has given up on a failed mutation: the
    errors of the answer logged, then the line of its catch block. *)
Definition annotation_refused (data : val) (w : world) : world :=
  logged error "Error adding note to Shopify order:"
    [JStr "Failed to add note to Shopify order"]
    (World (calls w) (console w ++ [refusal data])).

(** The world once the Calendly handler has warned that it skips the
    tracker. *)
Definition tracking_skipped (w : world) : world :=
  logged warn "No customer email available. Skipping Klaviyo event tracking." [] w.

(** The first value that is truthy, the empty string when none is: what a
    chain [a || b || ... || ''] evaluates to. *)
Fixpoint first_truthy (candidates : list val) : val :=
  match candidates with
  | [] => JStr ""
  | v :: rest => if truthy v then v else first_truthy rest
  end.

(** [o && o.k] *)
Definition guarded (o : val) (k : string) : val :=
  if truthy o then member o k else o.

(** The identity the fallback chain extracts from an order. *)
Definition identity_of (order : val) : val * val * val :=
  let customer := member order "customer" in
  let billing_address := member order "billing_address" in
  (first_truthy [guarded customer "email"; member order "email";
                 member order "contact_email"; guarded billing_address "email"],
   first_truthy [guarded customer "first_name"; guarded billing_address "first_name"],
   first_truthy [guarded customer "last_name"; guarded billing_address "last_name"]).

(** The line the fallback-chain handler logs once it has the identity. *)
Definition greeting (identity : val * val * val) : outcome string :=
  let '(customerEmail, firstName, lastName) := identity in
  template [lit "Received order from "; sub firstName; lit " ";
            sub lastName; lit " ("; sub customerEmail; lit ")"].

(** ** The enrichment pass, taken apart

    The loop over the line items does two things at once: it looks things up
    (and logs), and it pushes records.  [lookup] below is the first half of a
    loop body alone, with what it found as its result; the output sequence is
    then described from the line items and the finds, in the words of the
    specification: items in payload order, for each hit one record per
    purchased unit in unit order, for each miss none. *)

(** [f] on each item in turn, the results in order. *)
Fixpoint each {A} (f : val → M A) (items : list val) : M (list A) :=
  match items with
  | [] => mret []
  | x :: rest => a ← f x; others ← each f rest; mret (a :: others)
  end.

(** [f] on [i], [i + 1], ..., [n] times, the results in order. *)
Fixpoint each_index {A} (f : nat → M A) (i n : nat) : M (list A) :=
  match n with
  | O => mret []
  | S n' => a ← f i; others ← each_index f (S i) n'; mret (a :: others)
  end.

(** The purchased units of a line item, as the loop over the quantity counts
    them: the quantity itself when it is a non-negative number. *)
Definition units (rt : runtime) (lineItem : val) : nat :=
  match loop_bound rt (member lineItem "quantity") with
  | Returned n => n
  | Thrown _ => 0%nat
  end.

(** A line item as the order payload has it: an object with a number for the
    product, a title and a number for the quantity. *)
Definition is_line_item (lineItem : val) : Prop :=
  ∃ props product_id title quantity,
    lineItem = JObj props ∧
    assoc "product_id" props = Some (JNum product_id) ∧
    assoc "title" props = Some (JStr title) ∧
    assoc "quantity" props = Some (JNum quantity).

(** What the metaobject handler looks up and logs for a line item: the event
    data of its product, [null] for a miss. *)
Definition lookup_event (rt : runtime) (lineItem : val) : M val :=
  productId ← get lineItem "product_id";
  quantity ← get lineItem "quantity";
  lineItem_title ← get lineItem "title";
  msg ← lift (template [lit "Processing line item: "; sub lineItem_title;
                        lit ", Product ID: "; sub productId;
                        lit ", Quantity: "; sub quantity]);
  console_log msg [];;
  eventData ← Metaobject.getEventDataFromProduct rt productId;
  if truthy eventData then mret eventData
  else
    msg ← lift (template [lit "No event data found for product ID: "; sub productId]);
    console_warn msg [];;
    mret eventData.

(** The record of one purchased unit. *)
Definition event_record (eventData lineItem : val) : val :=
  JObj [("title", member eventData "title");
        ("map_embed", member eventData "map_embed");
        ("address", member eventData "address");
        ("start_date_time", member eventData "start_date_time");
        ("end_date_time", member eventData "end_date_time");
        ("refund_policy", member eventData "refund_policy");
        ("calendar_embed", member eventData "calendar_embed");
        ("line_item_title", member lineItem "title")].

(** The records of one line item: one per unit for a hit, none for a miss. *)
Definition event_records (rt : runtime) (lineItem eventData : val) : list val :=
  if truthy eventData then replicate (units rt lineItem) (event_record eventData lineItem)
  else [].

(** The output sequence of the metaobject handler. *)
Definition event_products (rt : runtime) (items found : list val) : list val :=
  concat (zip_with (event_records rt) items found).

(** The title of ticket [i + 1] of a line item. *)
Definition ticket_title (lineItem : val) (i : nat) : string :=
  match template [sub (member lineItem "title"); lit " (Ticket ";
                  sub (JNum (Z.of_nat i + 1)); lit ")"] with
  | Returned title => title
  | Thrown _ => ""
  end.

Definition ticket_record (lineItem : val) (i : nat) (link : val) : val :=
  JObj [("title", JStr (ticket_title lineItem i)); ("link", link)].

(** What the Calendly handler does for ticket [i + 1] of a line item, short
    of pushing the link. *)
Definition mint (rt : runtime) (customerEmail firstName lastName : val)
    (lineItem eventTypeUri : val) (i : nat) : M val :=
  schedulingLink ←
    Calendly.createCalendlySchedulingLink rt customerEmail firstName lastName eventTypeUri;
  lineItem_title ← get lineItem "title";
  lift (template [sub lineItem_title; lit " (Ticket ";
                  sub (JNum (Z.of_nat i + 1)); lit ")"]);;
  mret schedulingLink.

(** What the Calendly handler looks up, logs and mints for a line item: the
    links of its units for a hit, [None] for a miss. *)
Definition lookup_links (rt : runtime) (customerEmail firstName lastName : val)
    (lineItem : val) : M (option (list val)) :=
  productId ← get lineItem "product_id";
  quantity ← get lineItem "quantity";
  eventHandle ← Calendly.getCalendlyEventHandle rt productId;
  if truthy eventHandle then
    lineItem_title ← get lineItem "title";
    msg ← lift (template [lit "Product "; sub lineItem_title;
                          lit " has a Calendly event handle: "; sub eventHandle]);
    console_log msg [];;
    eventTypeUri ← Calendly.getCalendlyEventTypeUri rt eventHandle;
    if truthy eventTypeUri then
      n ← lift (loop_bound rt quantity);
      links ← each_index
                 (mint rt customerEmail firstName lastName lineItem eventTypeUri) 0 n;
      mret (Some links)
    else
      msg ← lift (template [lit "No matching event found for handle: "; sub eventHandle]);
      console_warn msg [];;
      mret None
  else mret None.

(** The records of one line item: one per minted link, titled by ticket
    number from 1, for a hit, none for a miss. *)
Definition ticket_records (lineItem : val) (found : option (list val)) : list val :=
  match found with
  | Some links => imap (ticket_record lineItem) links
  | None => []
  end.

(** The output sequence of the Calendly handler. *)
Definition scheduling_links (items : list val) (found : list (option (list val)))
  : list val :=
  concat (zip_with ticket_records items found).

(** The quantity a line item states, zero when it states none. *)
Definition quantity_of (lineItem : val) : Z :=
  match member lineItem "quantity" with
  | JNum quantity => quantity
  | _ => 0
  end.

(** The sum of the purchased units of the line items. *)
Definition total_units (rt : runtime) (items : list val) : nat :=
  sum_list (units rt <$> items).

(** A hit of the Calendly handler has one link per purchased unit. *)
Definition one_link_per_unit (rt : runtime) (lineItem : val)
    (found : option (list val)) : Prop :=
  ∀ links, found = Some links → length links = units rt lineItem.

(** ** A deployment to run the handlers on

    A stand-in runtime: the digest is a keyed tag (not a real HMAC), the
    parser knows a table of bodies, and the services answer by endpoint. *)

Module Shop.

Definition secret : string := "shpss_test".

Definition digest (key body : string) : string := key +:+ "." +:+ body.

Definition platform (orders : list (string * val))
    (services : list request → request → response) : runtime :=
  {| SHOPIFY_WEBHOOK_SECRET := secret;
     createHmac_sha256_base64 := digest;
     parse_text := λ body, assoc body orders;
     StringToNumber := λ _, None;
     Date_getTime := λ v,
       match v with
       | JStr _ => Returned (Some 1700000000123)
       | _ => Returned None
       end;
     Date_toISOString := λ _, "2023-11-14T22:13:20.123Z";
     axios := services |}.

Definition item (product_id : Z) (title : string) (quantity : Z) : val :=
  JObj [("product_id", JNum product_id); ("title", JStr title);
        ("quantity", JNum quantity)].

(** The Admin API's answer for a product whose [custom.event] metafield
    references a metaobject with these fields. *)
Definition metaobject (fields : list (string * string)) : val :=
  JObj [("data", JObj [("product", JObj [("metafield", JObj [("reference",
    JObj [("fields",
      JArr ((λ kv, JObj [("key", JStr kv.1); ("value", JStr kv.2)]) <$> fields))])])])])].

Definition no_metafield : val :=
  JObj [("data", JObj [("product", JObj [("metafield", JNull)])])].

Definition note_written : val :=
  JObj [("data", JObj [("orderUpdate", JObj [("userErrors", JArr [])])])].

Definition note_refused : val :=
  JObj [("errors", JArr [JObj [("message", JStr "Throttled")]])].

Definition note_rejected : val :=
  JObj [("data", JObj [("orderUpdate", JObj [("userErrors",
    JArr [JObj [("field", JArr [JStr "note"]);
                ("message", JStr "Note is too long")]])])])].

(** Product 7 is an event (a workshop), every other product is not.  The
    scheduling service and the order-note mutation answer as given. *)
Definition services (scheduling annotation : response)
    (history : list request) (req : request) : response :=
  match req with
  | shopify_graphql GetProductMetafield (JObj [(_, JStr "gid://shopify/Product/7")]) =>
      Resolved (metaobject [("calendly_event_url_handle", "workshop")])
  | shopify_graphql GetProductEvent (JObj [(_, JStr "gid://shopify/Product/7")]) =>
      Resolved (metaobject [("event.title", "Workshop"); ("event.address", "1 Main St")])
  | shopify_graphql UpdateOrder _ => annotation
  | shopify_graphql _ _ => Resolved no_metafield
  | calendly_users_me =>
      Resolved (JObj [("resource", JObj [("uri", JStr "https://api.calendly.com/users/U1")])])
  | calendly_event_types _ =>
      Resolved (JObj [("collection",
        JArr [JObj [("slug", JStr "workshop");
                    ("uri", JStr "https://api.calendly.com/event_types/E1")]])])
  | calendly_scheduling_links _ => scheduling
  | klaviyo_events _ => Resolved (JObj [])
  end.

Definition link_minted : response :=
  Resolved (JObj [("resource", JObj [("booking_url", JStr "https://calendly.com/d/abc")])]).

Definition link_refused : response :=
  Rejected "Request failed with status code 429" (Some (JObj [("title", JStr "Too Many Requests")])).

(** Order 1001: two workshop tickets and a mug, bought by a customer known
    only by the order's e-mail. *)
Definition order_1001 : val :=
  JObj [("id", JNum 1001);
        ("created_at", JStr "2023-11-14T22:13:20Z");
        ("email", JStr "ada@example.com");
        ("line_items", JArr [item 7 "Workshop" 2; item 8 "Mug" 1])].

(** Order 1002: the same purchase with no identity anywhere. *)
Definition order_1002 : val :=
  JObj [("id", JNum 1002);
        ("created_at", JStr "2023-11-14T22:13:20Z");
        ("line_items", JArr [item 7 "Workshop" 2; item 8 "Mug" 1])].

(** Order 1003: a payload with neither customer nor line items. *)
Definition order_1003 : val :=
  JObj [("id", JNum 1003); ("created_at", JStr "2023-11-14T22:13:20Z")].

Definition orders : list (string * val) :=
  [("order 1001", order_1001); ("order 1002", order_1002); ("order 1003", order_1003)].

Definition runtime_with (scheduling annotation : response) : runtime :=
  platform orders (services scheduling annotation).

(** Everything upstream works. *)
Definition healthy : runtime := runtime_with link_minted (Resolved note_written).

(** The request carrying [body], signed under the lower-case header name. *)
Definition signed (body : string) : event :=
  Event {[ "x-shopify-hmac-sha256" := digest secret body ]} (JStr body).

(** The same request signed under the capitalised header name only. *)
Definition signed_capitalised (body : string) : event :=
  Event {[ "X-Shopify-Hmac-Sha256" := digest secret body ]} (JStr body).

(** The same request with a signature that is not the body's. *)
Definition forged (body : string) : event :=
  Event {[ "x-shopify-hmac-sha256" := "c2lnbmF0dXJl" ]} (JStr body).

(** The same request with no signature header at all. *)
Definition unsigned (body : string) : event := Event ∅ (JStr body).

(** A request with no signature header and no body. *)
Definition bodiless : event := Event ∅ JNull.

Definition fresh : world := World [] [].

(** Order 1002 in the healthy deployment, stage by stage: the world once the
    identity is extracted, and the links and the world once the Calendly
    handler's enrichment pass is over. *)
Definition identified_1002 : world :=
  Eval vm_compute in (Calendly.customerIdentity order_1002 fresh).2.

Definition links_1002 : list val :=
  Eval vm_compute in
    match (Calendly.collectSchedulingLinks healthy (JStr "") (JStr "") (JStr "")
             order_1002 identified_1002).1 with
    | Returned links => links
    | Thrown _ => []
    end.

Definition enriched_1002 : world :=
  Eval vm_compute in
    (Calendly.collectSchedulingLinks healthy (JStr "") (JStr "") (JStr "")
       order_1002 identified_1002).2.

(** Order 1001 in the healthy deployment, stage by stage.  In the Calendly
    handler: the world once the identity is extracted, the two links of the
    enrichment pass and the world after it, and the world once the event is
    tracked. *)
Definition identified_1001 : world :=
  Eval vm_compute in (Calendly.customerIdentity order_1001 fresh).2.

Definition entries_1001 : list (string * val) :=
  [("Workshop (Ticket 1)", JStr "https://calendly.com/d/abc");
   ("Workshop (Ticket 2)", JStr "https://calendly.com/d/abc")].

Definition enriched_1001 : world :=
  Eval vm_compute in
    (Calendly.collectSchedulingLinks healthy (JStr "ada@example.com") (JStr "") (JStr "")
       order_1001 identified_1001).2.

Definition tracked_1001 : world :=
  Eval vm_compute in
    (Calendly.trackKlaviyoEvent healthy (JStr "ada@example.com") (JStr "") (JStr "")
       ((λ entry, JObj [("title", JStr entry.1); ("link", entry.2)]) <$> entries_1001)
       (JNum 1001) (JStr "2023-11-14T22:13:20Z") enriched_1001).2.

(** In the metaobject handler: the event products of the enrichment pass and
    the world after it, and the world once the event is tracked. *)
Definition events_1001 : list val :=
  Eval vm_compute in
    match (Metaobject.collectEventProducts healthy order_1001
             (logged log "Received order object:" [order_1001] fresh)).1 with
    | Returned eventProducts => eventProducts
    | Thrown _ => []
    end.

Definition events_collected_1001 : world :=
  Eval vm_compute in
    (Metaobject.collectEventProducts healthy order_1001
       (logged log "Received order object:" [order_1001] fresh)).2.

Definition event_tracked_1001 : world :=
  Eval vm_compute in
    (Metaobject.trackKlaviyoEvent healthy "order_1001" events_1001
       (JNum 1001) (JStr "2023-11-14T22:13:20Z")
       (logged log "Collected event product data:" [JArr events_1001]
          events_collected_1001)).2.

End Shop.

(** ** Notions for the helpers on their own *)

(** An object, as opposed to a primitive, an array, [null] or [undefined]. *)
Definition is_object (v : val) : Prop := ∃ props, v = JObj props.

(** What a template literal prints for a value. *)
Definition shown (v : val) : string :=
  match ToString v with
  | Returned s => s
  | Thrown _ => ""
  end.

(** A value a template literal can print: the conversion does not throw. *)
Definition printable (v : val) : Prop := ∃ s, ToString v = Returned s.

(** The value of the first field of a metaobject with this key, [null] when
    no field has the key. *)
Definition field_value (key : string) (fields : list val) : val :=
  match list_find (λ field, strict_equal (member field "key") (JStr key) = true) fields with
  | Some (_, field) => member field "value"
  | None => JNull
  end.

(** The value of the last field of a metaobject with this key, [undefined]
    when no field has the key. *)
Definition last_field_value (key : string) (fields : list val) : val :=
  match list_find (λ field, strict_equal (member field "key") (JStr key) = true)
          (reverse fields) with
  | Some (_, field) => member field "value"
  | None => JUndefined
  end.

(** The URI of the first event type whose slug is the handle, [null] when
    there is none. *)
Definition event_type_uri (eventHandle : val) (collection : list val) : val :=
  match list_find (λ event, strict_equal (member event "slug") eventHandle = true)
          collection with
  | Some (_, event) => member event "uri"
  | None => JNull
  end.

(** The customer properties of the Klaviyo event: of e-mail, first and last
    name the ones that have a value, in this order. *)
Definition customer_properties (email firstName lastName : val) : list (string * val) :=
  (if truthy email then [("$email", email)] else []) ++
  (if truthy firstName then [("$first_name", firstName)] else []) ++
  (if truthy lastName then [("$last_name", lastName)] else []).

(** A scheduling link as the enrichment pass records it. *)
Definition link_record (entry : string * val) : val :=
  JObj [("title", JStr entry.1); ("link", entry.2)].

(** The order note of the Calendly handler: a heading, then one line per
    link. *)
Definition scheduling_note (links : list (string * val)) : string :=
  "Scheduling Links:" +:+ LF +:+
  String.concat LF ((λ entry, entry.1 +:+ ": " +:+ shown entry.2) <$> links).

(** The mutation that sets the note of an order. *)
Definition order_note_mutation (id note : string) : request :=
  shopify_graphql UpdateOrder
    (JObj [("input", JObj [("id", JStr ("gid://shopify/Order/" +:+ id));
                           ("note", JStr note)])]).

(** The stanza of the order note for the event product at [idx], counted
    from zero: seven lines, numbered from one. *)
Definition event_stanza (idx : nat) (ep : val) : string :=
  String.concat LF
    ["Event " +:+ pretty (Z.of_nat idx + 1) +:+ ": " +:+ shown (member ep "title");
     "Address: " +:+ shown (member ep "address");
     "Start: " +:+ shown (member ep "start_date_time");
     "End: " +:+ shown (member ep "end_date_time");
     "Refund Policy: " +:+ shown (member ep "refund_policy");
     "Map Embed: " +:+ shown (member ep "map_embed");
     "Calendar Embed: " +:+ shown (member ep "calendar_embed")].

(** The stanzas of all event products, a blank line between two. *)
Definition event_stanzas (eventProducts : list val) : string :=
  String.concat (LF +:+ LF) (imap event_stanza eventProducts).

(** The order note of the metaobject handler. *)
Definition event_note (eventProducts : list val) : string :=
  "Event Details:" +:+ LF +:+ LF +:+ event_stanzas eventProducts.

(** The world once the metaobject annotator has logged the note it is about
    to write. *)
Definition note_announced (id : string) (eventProducts : list val) (w : world) : world :=
  logged log ("Adding note to Shopify order " +:+ id +:+ ":" +:+ LF +:+
              event_stanzas eventProducts) [] w.

(** An event product whose seven fields a template literal can print. *)
Definition printable_event (ep : val) : Prop :=
  is_object ep ∧
  Forall (λ k, printable (member ep k))
    ["title"; "address"; "start_date_time"; "end_date_time"; "refund_policy";
     "map_embed"; "calendar_embed"].

(** The catalog query the metaobject handler sends for a line item. *)
Definition event_query (lineItem : val) : request :=
  shopify_graphql GetProductEvent
    (JObj [("productId",
            JStr ("gid://shopify/Product/" +:+ shown (member lineItem "product_id")))]).


(** [m] sends at most [n] requests, each with property [P], whatever the
    world it runs in and however it ends. *)
Definition sends_at_most {A} (n : nat) (P : request → Prop) (m : M A) : Prop :=
  ∀ w, ∃ new, calls (m w).2 = calls w ++ new ∧ (length new ≤ n)%nat ∧ Forall P new.

(** What the two writes of an invocation may send: at most one event to
    Klaviyo, and after it at most one order-note mutation. *)
Definition writes (new : list request) : Prop :=
  ∃ tracked annotated,
    new = tracked ++ annotated ∧
    (length tracked ≤ 1)%nat ∧ Forall (λ r, is_klaviyo r = true) tracked ∧
    (length annotated ≤ 1)%nat ∧ Forall (λ r, is_order_update r = true) annotated.

(** The requests of the metaobject handler: the catalog query for the event
    of a product, the Klaviyo event and the order-note mutation. *)
Definition metaobject_request (r : request) : Prop :=
  match r with
  | shopify_graphql GetProductEvent _ | shopify_graphql UpdateOrder _
  | klaviyo_events _ => True
  | _ => False
  end.

(** The requests of the Calendly handler's enrichment pass: the catalog
    query for the metafield of a product, the two lookups of the scheduling
    service, and the creation of a link for this invitee. *)
Definition calendly_lookup (email firstName lastName : val) (r : request) : Prop :=
  match r with
  | shopify_graphql GetProductMetafield _ | calendly_users_me
  | calendly_event_types _ => True
  | calendly_scheduling_links document =>
      ∃ eventTypeUri,
        document = Calendly.schedulingLinkRequest email firstName lastName eventTypeUri
  | _ => False
  end.

(** The requests of the Calendly handler: anything but the catalog query of
    the metaobject handler. *)
Definition calendly_request (r : request) : Prop :=
  match r with
  | shopify_graphql GetProductEvent _ => False
  | _ => True
  end.

Definition is_link_creation (r : request) : bool :=
  match r with
  | calendly_scheduling_links _ => true
  | _ => false
  end.

(** How many of the requests create a scheduling link. *)
Definition link_creations (requests : list request) : nat :=
  length (filter (λ r, is_link_creation r = true) requests).

(** A step of the enrichment pass that, when it returns, has created one
    link per record it added. *)
Definition mints_per_link (step : list val → M (list val)) : Prop :=
  ∀ acc w acc' w',
    step acc w = (Returned acc', w') →
    ∃ new, calls w' = calls w ++ new ∧
           length acc' = (length acc + link_creations new)%nat.


(** * Properties *)

(** ** Running a computation *)

Lemma run_bind {A B} (m : M A) (f : A → M B) (w : world) :
  (m ≫= f) w =
  match m w with
  | (Returned a, w') => f a w'
  | (Thrown e, w') => (Thrown e, w')
  end.
Proof. reflexivity. Qed.

Lemma run_ret {A} (a : A) (w : world) : (mret a : M A) w = (Returned a, w).
Proof. reflexivity. Qed.

Lemma run_try_catch {A} (m : M A) (h : exn → M A) (w : world) :
  try_catch m h w =
  match m w with
  | (Returned a, w') => (Returned a, w')
  | (Thrown e, w') => h e w'
  end.
Proof. reflexivity. Qed.

(** Unfolds the monad down to functions on worlds. *)
Ltac run :=
  unfold try_catch, throw, get, lift, console_log, console_warn, console_error,
    console_write, and_then, or_else, mbind, M_bind, mret, M_ret in *;
  cbn beta iota in *.

(** A step whose outcome is known. *)
Lemma lift_bind {A B} (a : A) (f : A → M B) : lift (Returned a) ≫= f = f a.
Proof. reflexivity. Qed.

Lemma returns_only_ret {A} (r : A) : returns_only r (mret r).
Proof. intros w a w' H. run. congruence. Qed.

Lemma returns_only_bind {A B} (r : B) (m : M A) (f : A → M B) :
  (∀ a, returns_only r (f a)) → returns_only r (m ≫= f).
Proof.
  intros Hf w b w' H. rewrite run_bind in H.
  destruct (m w) as [[a|e] w1]; [exact (Hf a w1 b w' H) | discriminate].
Qed.

(** A block that can only return [Success], under the handlers' catch: the
    invocation answers [Success] or [Internal_Server_Error], and throws
    nothing. *)
Lemma caught (m : M http_response) (w : world) :
  returns_only Success m →
  ∃ w', try_catch m report w = (Returned Success, w')
      ∨ try_catch m report w = (Returned Internal_Server_Error, w').
Proof.
  intros Hm. rewrite run_try_catch.
  destruct (m w) as [[r|e] w1] eqn:E.
  - exists w1. left. by rewrite (Hm w r w1 E).
  - eexists. right. reflexivity.
Qed.

Lemma Original_block_returns_only_Success h u c n rt ev :
  verifyShopifyWebhook rt (header ev "x-shopify-hmac-sha256") (body ev) = Returned true →
  ∃ m, returns_only Success m ∧ Original.handler h u c n rt ev = try_catch m report.
Proof.
  intros Hv. eexists. split;
    [|unfold Original.handler; cbn zeta; rewrite Hv, lift_bind; reflexivity].
  repeat (apply returns_only_bind; intros). apply returns_only_ret.
Qed.

Lemma Calendly_block_returns_only_Success rt ev :
  verifyShopifyWebhook rt (header ev "x-shopify-hmac-sha256") (body ev) = Returned true →
  ∃ m, returns_only Success m ∧ Calendly.handler rt ev = try_catch m report.
Proof.
  intros Hv. eexists. split;
    [|unfold Calendly.handler; cbn zeta; rewrite Hv, lift_bind; reflexivity].
  apply returns_only_bind; intros order.
  apply returns_only_bind; intros [[customerEmail firstName] lastName].
  repeat (apply returns_only_bind; intros). apply returns_only_ret.
Qed.

Lemma Metaobject_block_returns_only_Success rt ev :
  verifyShopifyWebhook rt (Metaobject.hmacHeader ev) (body ev) = Returned true →
  ∃ m, returns_only Success m ∧ Metaobject.handler rt ev = try_catch m report.
Proof.
  intros Hv. eexists. split;
    [|unfold Metaobject.handler; cbn zeta; rewrite Hv, lift_bind; reflexivity].
  repeat (apply returns_only_bind; intros). apply returns_only_ret.
Qed.

Lemma Original_rejects h u c n rt ev w :
  verifyShopifyWebhook rt (header ev "x-shopify-hmac-sha256") (body ev) = Returned false →
  Original.handler h u c n rt ev w = (Returned Invalid_request, w).
Proof. intros Hv. unfold Original.handler. cbn zeta. rewrite Hv, lift_bind. reflexivity. Qed.

Lemma Calendly_rejects rt ev w :
  verifyShopifyWebhook rt (header ev "x-shopify-hmac-sha256") (body ev) = Returned false →
  Calendly.handler rt ev w = (Returned Invalid_request, w).
Proof. intros Hv. unfold Calendly.handler. cbn zeta. rewrite Hv, lift_bind. reflexivity. Qed.

Lemma Metaobject_rejects rt ev w :
  verifyShopifyWebhook rt (Metaobject.hmacHeader ev) (body ev) = Returned false →
  Metaobject.handler rt ev w =
  (Returned Invalid_request, logged error "Invalid webhook signature." [] w).
Proof. intros Hv. unfold Metaobject.handler. cbn zeta. rewrite Hv, lift_bind. reflexivity. Qed.

(** ** Signature verification gates everything (C7, C10) *)

(** C7.  A request whose signature does not verify is answered 401 at once:
    no request goes out (the calls of the world are as before), nothing is
    logged beyond the one error line of the metaobject handler, and the
    answer is the same whatever parser and services are in place, so the body
    is never parsed. *)
Theorem rejected_signature_short_circuits (rt : runtime) (ev : event) (w : world)
    (parse : string → option val) (services : list request → request → response) :
  let rt' := with_parser_and_services rt parse services in
  (verifyShopifyWebhook rt (header ev "x-shopify-hmac-sha256") (body ev) = Returned false →
     (∀ h u c n, Original.handler h u c n rt' ev w = (Returned Invalid_request, w)) ∧
     Calendly.handler rt' ev w = (Returned Invalid_request, w)) ∧
  (verifyShopifyWebhook rt (Metaobject.hmacHeader ev) (body ev) = Returned false →
     Metaobject.handler rt' ev w =
     (Returned Invalid_request, logged error "Invalid webhook signature." [] w)).
Proof.
  cbn zeta. split.
  - intros Hv. split; [intros h u c n; apply Original_rejects | apply Calendly_rejects];
      exact Hv.
  - intros Hv. apply Metaobject_rejects. exact Hv.
Qed.

Lemma rejected_signature_short_circuits_witness :
  verifyShopifyWebhook Shop.healthy
    (header (Shop.forged "order 1001") "x-shopify-hmac-sha256") (JStr "order 1001")
  = Returned false ∧
  Calendly.handler Shop.healthy (Shop.forged "order 1001") Shop.fresh
  = (Returned Invalid_request, Shop.fresh) ∧
  Metaobject.handler Shop.healthy (Shop.forged "order 1001") Shop.fresh
  = (Returned Invalid_request,
     World [] [LogEntry error "Invalid webhook signature." []]).
Proof.
  pose proof (rejected_signature_short_circuits Shop.healthy
                (Shop.forged "order 1001") Shop.fresh
                (parse_text Shop.healthy) (axios Shop.healthy)) as [H1 H2].
  split; [reflexivity|]. split.
  - apply H1. reflexivity.
  - apply H2. reflexivity.
Defined.

Lemma verify_undefined (rt : runtime) (text : string) :
  verifyShopifyWebhook rt JUndefined (JStr text) = Returned false.
Proof. reflexivity. Qed.

Lemma header_absent (ev : event) (name : string) :
  headers ev !! name = None → header ev name = JUndefined.
Proof. unfold header. by intros ->. Qed.

Lemma header_present (ev : event) (name h : string) :
  headers ev !! name = Some h → header ev name = JStr h.
Proof. unfold header. by intros ->. Qed.

Lemma verify_digest (rt : runtime) (text : string) :
  verifyShopifyWebhook rt
    (JStr (createHmac_sha256_base64 rt (SHOPIFY_WEBHOOK_SECRET rt) text)) (JStr text)
  = Returned true.
Proof.
  unfold verifyShopifyWebhook, strict_equal. cbn. by rewrite String.eqb_refl.
Qed.

(** Verification compares the claimed header with the digest of the body
    for exact equality: any other header is refused, and another body is
    accepted under the same header exactly when it has the same digest. *)
Lemma verify_iff (rt : runtime) (hmacHeader body : val) :
  verifyShopifyWebhook rt hmacHeader body = Returned true ↔
  ∃ text, body = JStr text ∧
          hmacHeader = JStr (createHmac_sha256_base64 rt (SHOPIFY_WEBHOOK_SECRET rt) text).
Proof.
  unfold verifyShopifyWebhook, strict_equal. split.
  - destruct body as [| | | |text| |]; try done. cbn.
    destruct hmacHeader; try done. intros [= H%String.eqb_eq]. exists text. by rewrite H.
  - intros (text & -> & ->). cbn. by rewrite String.eqb_refl.
Qed.

Lemma verify_other_header (rt : runtime) (hmacHeader : val) (text : string) :
  hmacHeader ≠ JStr (createHmac_sha256_base64 rt (SHOPIFY_WEBHOOK_SECRET rt) text) →
  verifyShopifyWebhook rt hmacHeader (JStr text) = Returned false.
Proof.
  intros H. destruct (verifyShopifyWebhook rt hmacHeader (JStr text)) as [[]|e] eqn:E;
    [|done|done].
  apply verify_iff in E as (text' & [= <-] & ->). done.
Qed.

Lemma verify_other_body (rt : runtime) (text text' : string) :
  verifyShopifyWebhook rt
    (JStr (createHmac_sha256_base64 rt (SHOPIFY_WEBHOOK_SECRET rt) text)) (JStr text')
  = Returned true ↔
  createHmac_sha256_base64 rt (SHOPIFY_WEBHOOK_SECRET rt) text'
  = createHmac_sha256_base64 rt (SHOPIFY_WEBHOOK_SECRET rt) text.
Proof.
  rewrite verify_iff. split.
  - by intros (t & [= <-] & [= ->]).
  - intros H. exists text'. by rewrite H.
Qed.

(** A body that is not a string makes the digest throw, whatever the
    header. *)
Lemma verify_without_text (rt : runtime) (body : val) :
  (∀ text, body ≠ JStr text) →
  ∃ e, ∀ hmacHeader, verifyShopifyWebhook rt hmacHeader body = Thrown e.
Proof.
  intros H. unfold verifyShopifyWebhook.
  destruct body as [| | | |text| |]; try (eexists; reflexivity).
  by destruct (H text).
Qed.

(** A verification that returns has a string for a body. *)
Lemma verified_text (rt : runtime) (hmacHeader body : val) (b : bool) :
  verifyShopifyWebhook rt hmacHeader body = Returned b → ∃ text, body = JStr text.
Proof. destruct body; try done. eauto. Qed.

Lemma Original_digest_throws h u c n rt ev w e :
  verifyShopifyWebhook rt (header ev "x-shopify-hmac-sha256") (body ev) = Thrown e →
  Original.handler h u c n rt ev w = (Returned Internal_Server_Error, reported e w).
Proof. intros Hv. unfold Original.handler. cbn zeta. rewrite Hv. reflexivity. Qed.

Lemma Calendly_digest_throws rt ev w e :
  verifyShopifyWebhook rt (header ev "x-shopify-hmac-sha256") (body ev) = Thrown e →
  Calendly.handler rt ev w = (Returned Internal_Server_Error, reported e w).
Proof. intros Hv. unfold Calendly.handler. cbn zeta. rewrite Hv. reflexivity. Qed.

Lemma Metaobject_digest_throws rt ev w e :
  verifyShopifyWebhook rt (Metaobject.hmacHeader ev) (body ev) = Thrown e →
  Metaobject.handler rt ev w = (Returned Internal_Server_Error, reported e w).
Proof. intros Hv. unfold Metaobject.handler. cbn zeta. rewrite Hv. reflexivity. Qed.

(** Once the signature verifies, the answer is [Success] or
    [Internal_Server_Error]. *)
Lemma Metaobject_accepted rt ev w :
  verifyShopifyWebhook rt (Metaobject.hmacHeader ev) (body ev) = Returned true →
  ∃ w', Metaobject.handler rt ev w = (Returned Success, w')
      ∨ Metaobject.handler rt ev w = (Returned Internal_Server_Error, w').
Proof.
  intros Hv. destruct (Metaobject_block_returns_only_Success rt ev Hv) as (m & Hm & ->).
  by apply caught.
Qed.

Lemma Calendly_accepted rt ev w :
  verifyShopifyWebhook rt (header ev "x-shopify-hmac-sha256") (body ev) = Returned true →
  ∃ w', Calendly.handler rt ev w = (Returned Success, w')
      ∨ Calendly.handler rt ev w = (Returned Internal_Server_Error, w').
Proof.
  intros Hv. destruct (Calendly_block_returns_only_Success rt ev Hv) as (m & Hm & ->).
  by apply caught.
Qed.

Lemma Original_accepted h u c n rt ev w :
  verifyShopifyWebhook rt (header ev "x-shopify-hmac-sha256") (body ev) = Returned true →
  ∃ w', Original.handler h u c n rt ev w = (Returned Success, w')
      ∨ Original.handler h u c n rt ev w = (Returned Internal_Server_Error, w').
Proof.
  intros Hv.
  destruct (Original_block_returns_only_Success h u c n rt ev Hv) as (m & Hm & ->).
  by apply caught.
Qed.

(** C10.  With no signature header the digest of a body is compared
    against [undefined], which is never equal, and the answer is 401, nothing
    thrown.  The two Calendly handlers read the lower-case name only, so a
    signature under the capitalised name does not count there; the metaobject
    handler falls back on the capitalised name and accepts a signature given
    there.  A request without a body has no digest: computing it throws
    inside the [try] block, and the answer is 500, whatever the headers. *)
Theorem absent_signature_header (rt : runtime) (ev : event) (w : world) :
  (∀ text, verifyShopifyWebhook rt JUndefined (JStr text) = Returned false) ∧
  (∀ text,
     body ev = JStr text →
     headers ev !! "x-shopify-hmac-sha256" = None →
     (∀ h u c n, Original.handler h u c n rt ev w = (Returned Invalid_request, w)) ∧
     Calendly.handler rt ev w = (Returned Invalid_request, w) ∧
     (headers ev !! "X-Shopify-Hmac-Sha256" = None →
        Metaobject.handler rt ev w =
        (Returned Invalid_request, logged error "Invalid webhook signature." [] w)) ∧
     (headers ev !! "X-Shopify-Hmac-Sha256"
        = Some (createHmac_sha256_base64 rt (SHOPIFY_WEBHOOK_SECRET rt) text) →
        ∃ w', Metaobject.handler rt ev w = (Returned Success, w')
            ∨ Metaobject.handler rt ev w = (Returned Internal_Server_Error, w'))) ∧
  ((∀ text, body ev ≠ JStr text) →
     ∃ e,
       (∀ hmacHeader, verifyShopifyWebhook rt hmacHeader (body ev) = Thrown e) ∧
       (∀ h u c n, Original.handler h u c n rt ev w
                   = (Returned Internal_Server_Error, reported e w)) ∧
       Calendly.handler rt ev w = (Returned Internal_Server_Error, reported e w) ∧
       Metaobject.handler rt ev w = (Returned Internal_Server_Error, reported e w)).
Proof.
  split; [reflexivity|]. split.
  - intros text Hbody Hlower.
    pose proof (header_absent ev _ Hlower) as Hl.
    split; [|split; [|split]].
    + intros h u c n. apply Original_rejects. by rewrite Hl, Hbody.
    + apply Calendly_rejects. by rewrite Hl, Hbody.
    + intros Hupper. apply Metaobject_rejects.
      unfold Metaobject.hmacHeader. rewrite Hl. cbn [truthy].
      by rewrite (header_absent ev _ Hupper), Hbody.
    + intros Hupper. apply Metaobject_accepted.
      unfold Metaobject.hmacHeader. rewrite Hl. cbn [truthy].
      rewrite (header_present ev _ _ Hupper), Hbody. apply verify_digest.
  - intros Hbody. destruct (verify_without_text rt (body ev) Hbody) as [e He].
    exists e. split; [exact He|]. split; [|split].
    + intros h u c n. apply Original_digest_throws, He.
    + apply Calendly_digest_throws, He.
    + apply Metaobject_digest_throws, He.
Qed.

Lemma absent_signature_header_witness :
  (Calendly.handler Shop.healthy (Shop.signed_capitalised "order 1001") Shop.fresh
   = (Returned Invalid_request, Shop.fresh) ∧
   ∃ w', Metaobject.handler Shop.healthy (Shop.signed_capitalised "order 1001") Shop.fresh
         = (Returned Success, w')
       ∨ Metaobject.handler Shop.healthy (Shop.signed_capitalised "order 1001") Shop.fresh
         = (Returned Internal_Server_Error, w')) ∧
  ∃ e, Calendly.handler Shop.healthy Shop.bodiless Shop.fresh
       = (Returned Internal_Server_Error, reported e Shop.fresh).
Proof.
  pose proof (absent_signature_header Shop.healthy
                (Shop.signed_capitalised "order 1001") Shop.fresh) as (_ & H & _).
  pose proof (absent_signature_header Shop.healthy Shop.bodiless Shop.fresh)
    as (_ & _ & H').
  assert (Hlower : headers (Shop.signed_capitalised "order 1001")
                     !! "x-shopify-hmac-sha256" = None) by (vm_compute; reflexivity).
  split.
  - destruct (H "order 1001" eq_refl Hlower) as (_ & HC & _ & HM).
    split; [exact HC|]. apply HM. vm_compute. reflexivity.
  - assert (Hbody : ∀ text, body Shop.bodiless ≠ JStr text) by (intros text; discriminate).
    destruct (H' Hbody) as (e & _ & _ & HC & _). by exists e.
Defined.

(** A request with neither signature header nor body is answered 500, not
    401: verification does not return [false] on it, it throws. *)
Lemma bodiless_request_is_an_error :
  headers Shop.bodiless !! "x-shopify-hmac-sha256" = None ∧
  headers Shop.bodiless !! "X-Shopify-Hmac-Sha256" = None ∧
  body Shop.bodiless = JNull ∧
  verifyShopifyWebhook Shop.healthy (header Shop.bodiless "x-shopify-hmac-sha256")
    (body Shop.bodiless) ≠ Returned false ∧
  (Calendly.handler Shop.healthy Shop.bodiless Shop.fresh).1
  = Returned Internal_Server_Error ∧
  (Metaobject.handler Shop.healthy Shop.bodiless Shop.fresh).1
  = Returned Internal_Server_Error ∧
  Internal_Server_Error ≠ Invalid_request.
Proof. repeat split; try (vm_compute; reflexivity); discriminate. Qed.

(** ** The three responses (C8) *)

(** C8.  Every invocation ends by returning one of the three responses, and
    throws nothing; a body that does not parse, under a signature that
    verifies, gives the 500 response, with the error reported on the console
    and no request sent. *)
Theorem handler_always_responds (rt : runtime) (ev : event) (w : world) :
  (∀ h u c n, ∃ r w', Original.handler h u c n rt ev w = (Returned r, w') ∧ one_of_three r) ∧
  (∃ r w', Calendly.handler rt ev w = (Returned r, w') ∧ one_of_three r) ∧
  (∃ r w', Metaobject.handler rt ev w = (Returned r, w') ∧ one_of_three r) ∧
  statusCode Success = 200 ∧ statusCode Invalid_request = 401 ∧
  statusCode Internal_Server_Error = 500 ∧
  (∀ e,
     JSON_parse rt (body ev) = Thrown e →
     (verifyShopifyWebhook rt (header ev "x-shopify-hmac-sha256") (body ev) = Returned true →
        (∀ h u c n, Original.handler h u c n rt ev w
                    = (Returned Internal_Server_Error, reported e w)) ∧
        Calendly.handler rt ev w = (Returned Internal_Server_Error, reported e w)) ∧
     (verifyShopifyWebhook rt (Metaobject.hmacHeader ev) (body ev) = Returned true →
        Metaobject.handler rt ev w = (Returned Internal_Server_Error, reported e w))).
Proof.
  unfold one_of_three. repeat split.
  - intros h u c n.
    destruct (verifyShopifyWebhook rt (header ev "x-shopify-hmac-sha256") (body ev))
      as [[]|e] eqn:Hv.
    + destruct (Original_accepted h u c n rt ev w Hv) as [w' [H|H]]; eauto 10.
    + rewrite (Original_rejects h u c n rt ev w Hv). eauto 10.
    + rewrite (Original_digest_throws h u c n rt ev w e Hv). eauto 10.
  - destruct (verifyShopifyWebhook rt (header ev "x-shopify-hmac-sha256") (body ev))
      as [[]|e] eqn:Hv.
    + destruct (Calendly_accepted rt ev w Hv) as [w' [H|H]]; eauto 10.
    + rewrite (Calendly_rejects rt ev w Hv). eauto 10.
    + rewrite (Calendly_digest_throws rt ev w e Hv). eauto 10.
  - destruct (verifyShopifyWebhook rt (Metaobject.hmacHeader ev) (body ev))
      as [[]|e] eqn:Hv.
    + destruct (Metaobject_accepted rt ev w Hv) as [w' [H|H]]; eauto 10.
    + rewrite (Metaobject_rejects rt ev w Hv). eauto 10.
    + rewrite (Metaobject_digest_throws rt ev w e Hv). eauto 10.
  - intros h u c n. unfold Original.handler. cbn zeta.
    rewrite H0, lift_bind. cbn [negb]. rewrite H. reflexivity.
  - unfold Calendly.handler. cbn zeta.
    rewrite H0, lift_bind. cbn [negb]. rewrite H. reflexivity.
  - intros Hv. unfold Metaobject.handler. cbn zeta.
    rewrite Hv, lift_bind. cbn [negb]. rewrite H. reflexivity.
Qed.

Lemma handler_always_responds_witness :
  Calendly.handler Shop.healthy (Shop.signed "not json") Shop.fresh
  = (Returned Internal_Server_Error,
     reported (SyntaxError "Unexpected token in JSON") Shop.fresh) ∧
  Metaobject.handler Shop.healthy (Shop.signed "not json") Shop.fresh
  = (Returned Internal_Server_Error,
     reported (SyntaxError "Unexpected token in JSON") Shop.fresh).
Proof.
  destruct (handler_always_responds Shop.healthy (Shop.signed "not json") Shop.fresh)
    as (_ & _ & _ & _ & _ & _ & H).
  assert (Hparse : JSON_parse Shop.healthy (body (Shop.signed "not json"))
                   = Thrown (SyntaxError "Unexpected token in JSON"))
    by reflexivity.
  destruct (H _ Hparse) as [HC HM]. split.
  - apply HC. vm_compute. reflexivity.
  - apply HM. vm_compute. reflexivity.
Defined.

(** ** What a computation sends *)

Lemma sends_ret {A} P (a : A) : sends P (mret a).
Proof. intros w. exists []. by rewrite app_nil_r. Qed.

Lemma sends_lift {A} P (o : outcome A) : sends P (lift o).
Proof. intros w. exists []. by rewrite app_nil_r. Qed.

Lemma sends_throw {A} P (e : exn) : sends P (throw e : M A).
Proof. apply sends_lift. Qed.

Lemma sends_get P v k : sends P (get v k).
Proof. apply sends_lift. Qed.

Lemma sends_console P l t a : sends P (console_write l t a).
Proof. intros w. exists []. by rewrite app_nil_r. Qed.

Lemma sends_fetch (P : request → Prop) rt req : P req → sends P (fetch rt req).
Proof.
  intros HP w. exists [req]. unfold fetch.
  destruct (axios rt (calls w) req); cbn; auto.
Qed.

Lemma sends_bind {A B} P (m : M A) (f : A → M B) :
  sends P m → (∀ a, sends P (f a)) → sends P (m ≫= f).
Proof.
  intros Hm Hf w. rewrite run_bind. destruct (Hm w) as (n1 & E1 & F1).
  destruct (m w) as [[a|e] w1]; cbn in *.
  - destruct (Hf a w1) as (n2 & E2 & F2). exists (n1 ++ n2).
    rewrite E2, E1, app_assoc. split; [done|]. by apply Forall_app.
  - by exists n1.
Qed.

Lemma sends_try_catch {A} P (m : M A) (h : exn → M A) :
  sends P m → (∀ e, sends P (h e)) → sends P (try_catch m h).
Proof.
  intros Hm Hh w. rewrite run_try_catch. destruct (Hm w) as (n1 & E1 & F1).
  destruct (m w) as [[a|e] w1]; cbn in *.
  - by exists n1.
  - destruct (Hh e w1) as (n2 & E2 & F2). exists (n1 ++ n2).
    rewrite E2, E1, app_assoc. split; [done|]. by apply Forall_app.
Qed.

Lemma sends_for_of {A} P (body : val → A → M A) items acc :
  (∀ x a, sends P (body x a)) → sends P (for_of items body acc).
Proof.
  intros Hb. revert acc. induction items as [|x rest IH]; intros acc; cbn.
  - apply sends_ret.
  - apply sends_bind; [apply Hb | intros; apply IH].
Qed.

Lemma sends_for_range {A} P (body : nat → A → M A) i n acc :
  (∀ j a, sends P (body j a)) → sends P (for_range i n body acc).
Proof.
  intros Hb. revert i acc. induction n as [|n IH]; intros i acc; cbn.
  - apply sends_ret.
  - apply sends_bind; [apply Hb | intros; apply IH].
Qed.

Lemma sends_mono {A} (P Q : request → Prop) (m : M A) :
  (∀ r, P r → Q r) → sends P m → sends Q m.
Proof.
  intros HPQ Hm w. destruct (Hm w) as (new & E & F). exists new. split; [done|].
  eapply Forall_impl; eauto.
Qed.

Lemma sends_nothing_quiet {A} (m : M A) : sends (λ _, False) m → quiet m.
Proof.
  intros Hm w. destruct (Hm w) as (new & E & F).
  destruct new as [|r new]; [by rewrite app_nil_r in E|].
  by apply Forall_cons in F as [[] _].
Qed.

(** Breaks a computation down along its binds, branches and loops. *)
Ltac sends_step :=
  first
    [ apply sends_ret
    | apply sends_get
    | apply sends_lift
    | apply sends_throw
    | apply sends_console
    | apply sends_bind; [|intros]
    | apply sends_try_catch; [|intros]
    | apply sends_for_of; intros
    | apply sends_for_range; intros
    | match goal with
      | |- sends _ (if ?b then _ else _) => destruct b
      | |- sends _ (match ?x with _ => _ end) => destruct x
      end ].

Ltac sends_all :=
  unfold and_then, or_else, console_log, console_warn, console_error;
  repeat sends_step.

Lemma customerIdentity_quiet order : quiet (Calendly.customerIdentity order).
Proof. apply sends_nothing_quiet. unfold Calendly.customerIdentity. sends_all. Qed.

Lemma Calendly_addNote_sends rt orderId links :
  sends (λ r, is_order_update r = true) (Calendly.addNoteToShopifyOrder rt orderId links).
Proof.
  unfold Calendly.addNoteToShopifyOrder. sends_all. by apply sends_fetch.
Qed.

Lemma Metaobject_addNote_sends rt orderId eps :
  sends (λ r, is_order_update r = true) (Metaobject.addNoteToShopifyOrder rt orderId eps).
Proof.
  unfold Metaobject.addNoteToShopifyOrder. sends_all. by apply sends_fetch.
Qed.

(** ** What a computation leaves on the console *)

Lemma keeps_console_lift {A} (o : outcome A) : keeps_console (lift o).
Proof. intros w. exists []. by rewrite app_nil_r. Qed.

Lemma keeps_console_ret {A} (a : A) : keeps_console (mret a).
Proof. intros w. exists []. by rewrite app_nil_r. Qed.

Lemma keeps_console_write l t a : keeps_console (console_write l t a).
Proof. intros w. by eexists. Qed.

Lemma keeps_console_fetch rt req : keeps_console (fetch rt req).
Proof.
  intros w. exists []. unfold fetch.
  destruct (axios rt (calls w) req); cbn; by rewrite app_nil_r.
Qed.

Lemma keeps_console_bind {A B} (m : M A) (f : A → M B) :
  keeps_console m → (∀ a, keeps_console (f a)) → keeps_console (m ≫= f).
Proof.
  intros Hm Hf w. rewrite run_bind. destruct (Hm w) as (n1 & E1).
  destruct (m w) as [[a|e] w1]; cbn in *.
  - destruct (Hf a w1) as (n2 & E2). exists (n1 ++ n2). by rewrite E2, E1, app_assoc.
  - by exists n1.
Qed.

Lemma keeps_console_try_catch {A} (m : M A) (h : exn → M A) :
  keeps_console m → (∀ e, keeps_console (h e)) → keeps_console (try_catch m h).
Proof.
  intros Hm Hh w. rewrite run_try_catch. destruct (Hm w) as (n1 & E1).
  destruct (m w) as [[a|e] w1]; cbn in *.
  - by exists n1.
  - destruct (Hh e w1) as (n2 & E2). exists (n1 ++ n2). by rewrite E2, E1, app_assoc.
Qed.

Ltac keeps_console_step :=
  first
    [ apply keeps_console_ret
    | apply keeps_console_lift
    | apply keeps_console_write
    | apply keeps_console_fetch
    | apply keeps_console_bind; [|intros]
    | apply keeps_console_try_catch; [|intros]
    | match goal with
      | |- keeps_console (if ?b then _ else _) => destruct b
      | |- keeps_console (match ?x with _ => _ end) => destruct x
      end ].

Lemma Calendly_addNote_keeps_console rt orderId links :
  keeps_console (Calendly.addNoteToShopifyOrder rt orderId links).
Proof.
  unfold Calendly.addNoteToShopifyOrder, get, throw, console_log, console_error.
  repeat keeps_console_step.
Qed.

(** ** The tracked profile of the metaobject handler (C1) *)

(** C1.  The metaobject handler derives the key [order_<id>] from the order
    and passes it to the tracker, but the tracker does not use it: the
    payload's [external_id] is the fixed string [order_5845762638078],
    whatever the order.  For order 1001 the event goes to that profile and not
    to [order_1001]. *)
Theorem tracked_profile_is_hard_coded :
  (∀ rt nonPiiId nonPiiId' eventProducts orderId orderTime,
     Metaobject.trackKlaviyoEvent rt nonPiiId eventProducts orderId orderTime
     = Metaobject.trackKlaviyoEvent rt nonPiiId' eventProducts orderId orderTime) ∧
  (∀ eventProducts orderId eventIsoTime,
     at_path (Metaobject.klaviyoPayload eventProducts orderId eventIsoTime)
       ["data"; "attributes"; "profile"; "data"; "attributes"; "external_id"]
     = JStr "order_5845762638078") ∧
  (∃ payload w',
     Metaobject.handler Shop.healthy (Shop.signed "order 1001") Shop.fresh
     = (Returned Success, w') ∧
     calls w' !! 2%nat = Some (klaviyo_events payload) ∧
     at_path payload
       ["data"; "attributes"; "profile"; "data"; "attributes"; "external_id"]
     = JStr "order_5845762638078" ∧
     template [lit "order_"; sub (member Shop.order_1001 "id")] = Returned "order_1001").
Proof.
  split; [reflexivity|]. split; [reflexivity|].
  eexists _, _. split; [vm_compute; reflexivity|].
  split; [cbn; reflexivity|]. split; reflexivity.
Qed.

(** ** Stages of an invocation *)

(** A helper's catch block that logs and throws on. *)
Lemma rethrown {A} (m : M A) (t E : string) (w : world) :
  try_catch m (λ error, console_error t [error_detail error];; throw (Error E)) w =
  match m w with
  | (Returned a, w') => (Returned a, w')
  | (Thrown e, w') =>
      (Thrown (Error E),
       logged error t [error_detail e] w')
  end.
Proof. rewrite run_try_catch. by destruct (m w) as [[a|e] w']. Qed.

(** A helper's catch block that logs and returns [null]. *)
Lemma swallowed (m : M val) (t : string) (w : world) :
  try_catch m (λ error, console_error t [error_detail error];; mret JNull) w =
  match m w with
  | (Returned a, w') => (Returned a, w')
  | (Thrown e, w') =>
      (Returned JNull,
       logged error t [error_detail e] w')
  end.
Proof. rewrite run_try_catch. by destruct (m w) as [[a|e] w']. Qed.

(** The Calendly handler from the end of the enrichment pass on. *)
Lemma Calendly_after_enrichment rt ev w order email firstName lastName w1 links w2 :
  verifyShopifyWebhook rt (header ev "x-shopify-hmac-sha256") (body ev) = Returned true →
  JSON_parse rt (body ev) = Returned order →
  Calendly.customerIdentity order w = (Returned (email, firstName, lastName), w1) →
  Calendly.collectSchedulingLinks rt email firstName lastName order w1
  = (Returned links, w2) →
  Calendly.handler rt ev w =
  match Calendly.trackAndAnnotate rt email firstName lastName order links w2 with
  | (Returned _, w3) => (Returned Success, w3)
  | (Thrown e, w3) => (Returned Internal_Server_Error, reported e w3)
  end.
Proof.
  intros Hv Hp Hi Hc. unfold Calendly.handler. cbn zeta.
  rewrite run_try_catch, Hv, lift_bind. cbn [negb]. rewrite Hp, lift_bind.
  rewrite run_bind, Hi. rewrite run_bind, Hc. rewrite run_bind.
  by destruct (Calendly.trackAndAnnotate _ _ _ _ _ _ _) as [[[]|e] w3].
Qed.

(** The metaobject handler from the end of the enrichment pass on. *)
Lemma Metaobject_after_enrichment rt ev w order order_id nonPiiId eventProducts w2 :
  verifyShopifyWebhook rt (Metaobject.hmacHeader ev) (body ev) = Returned true →
  JSON_parse rt (body ev) = Returned order →
  get_prop order "id" = Returned order_id →
  template [lit "order_"; sub order_id] = Returned nonPiiId →
  Metaobject.collectEventProducts rt order
    (logged log "Received order object:" [order] w)
  = (Returned eventProducts, w2) →
  Metaobject.handler rt ev w =
  match Metaobject.trackAndAnnotate rt nonPiiId order eventProducts
          (logged log "Collected event product data:" [JArr eventProducts] w2) with
  | (Returned _, w3) => (Returned Success, w3)
  | (Thrown e, w3) => (Returned Internal_Server_Error, reported e w3)
  end.
Proof.
  intros Hv Hp Hid Ht Hc. unfold logged in *. unfold Metaobject.handler. cbn zeta.
  rewrite run_try_catch, Hv, lift_bind. cbn [negb]. rewrite Hp, lift_bind.
  rewrite run_bind. unfold console_log at 1, console_write at 1.
  rewrite run_bind. unfold get at 1, lift at 1. rewrite Hid.
  rewrite run_bind. unfold lift at 1. rewrite Ht.
  rewrite run_bind, Hc. rewrite run_bind.
  unfold console_log at 1, console_write at 1. rewrite run_bind.
  by destruct (Metaobject.trackAndAnnotate _ _ _ _ _) as [[[]|e] w3].
Qed.

(** ** Reading an answer *)

Lemma truthy_get_prop v k : truthy v = true → get_prop v k = Returned (member v k).
Proof. unfold member. by destruct v. Qed.

Lemma get_prop_total v k x k' :
  get_prop v k = Returned x → get_prop v k' = Returned (member v k').
Proof. unfold member. by destruct v. Qed.

(** A property of a falsy value is falsy, and so is everything below it. *)
Lemma falsy_member v k : truthy v = false → truthy (member v k) = false.
Proof.
  unfold member. destruct v as [| |b|n|s|items|props]; cbn; try done.
  intros Hs. destruct (String.eqb k "length"); [|done].
  destruct s; [done|]. done.
Qed.

Lemma falsy_at_path v keys : truthy v = false → truthy (at_path v keys) = false.
Proof.
  revert v. induction keys as [|k keys IH]; intros v Hv; [done|].
  cbn. apply IH. by apply falsy_member.
Qed.

(** A truthy value at the end of a path: the first read of the path succeeds. *)
Lemma truthy_at_path v k keys :
  truthy (at_path v (k :: keys)) = true →
  get_prop v k = Returned (member v k) ∧ truthy (at_path (member v k) keys) = true.
Proof.
  intros H. split; [|exact H].
  apply truthy_get_prop. destruct (truthy v) eqn:E; [done|].
  by rewrite (falsy_at_path v (k :: keys) E) in H.
Qed.

Lemma truthy_member v k : truthy (member v k) = true → truthy v = true.
Proof.
  intros H. destruct (truthy v) eqn:E; [done|]. by rewrite (falsy_member v k E) in H.
Qed.

(** [find] with a test that cannot throw is a search of the list. *)
Lemma find_first_list_find (p : val → bool) l :
  find_first (λ x, Returned (p x)) l
  = Returned (match list_find (λ x, p x = true) l with
              | Some (_, x) => x
              | None => JUndefined
              end).
Proof.
  induction l as [|x l IH]; [done|]. cbn [find_first list_find].
  destruct (decide (p x = true)) as [Hp|Hp].
  - by rewrite Hp.
  - apply not_true_is_false in Hp. rewrite Hp, IH.
    by destruct (list_find _ l) as [[i y]|].
Qed.

Lemma find_first_ext (p q : val → outcome bool) l :
  Forall (λ x, p x = q x) l → find_first p l = find_first q l.
Proof.
  induction 1 as [|x l Hx _ IH]; [done|]. cbn. by rewrite Hx, IH.
Qed.

(** Reads the next property: [get v k] with [get_prop v k] known. *)
Ltac read H := rewrite run_bind; unfold get at 1, lift at 1; rewrite H; cbn beta iota.

(** [find] by the value of a property, among objects. *)
Lemma find_by_key (k : string) (target : val) fields :
  Forall is_object fields →
  find_first (λ field, key ← get_prop field k; Returned (strict_equal key target)) fields
  = Returned (match list_find (λ field, strict_equal (member field k) target = true) fields with
              | Some (_, field) => field
              | None => JUndefined
              end).
Proof.
  intros Hobj. rewrite <- find_first_list_find. apply find_first_ext.
  eapply Forall_impl; [exact Hobj|]. by intros x [props ->].
Qed.

(** An answer of the Admin API that has the fields of a metaobject: every
    read on the way to them succeeds, and metafield and reference are there. *)
Lemma metaobject_reads data fields :
  at_path data ["data"; "product"; "metafield"; "reference"; "fields"] = JArr fields →
  let metafield := at_path data ["data"; "product"; "metafield"] in
  get_prop data "errors" = Returned (member data "errors") ∧
  get_prop data "data" = Returned (member data "data") ∧
  get_prop (member data "data") "product" = Returned (at_path data ["data"; "product"]) ∧
  get_prop (at_path data ["data"; "product"]) "metafield" = Returned metafield ∧
  truthy metafield = true ∧
  truthy (member metafield "reference") = true ∧
  get_prop metafield "reference" = Returned (member metafield "reference") ∧
  get_prop (member metafield "reference") "fields" = Returned (JArr fields).
Proof.
  intros Hf.
  assert (Ht : truthy (at_path data ["data"; "product"; "metafield"; "reference"; "fields"]) = true)
    by (by rewrite Hf).
  apply truthy_at_path in Ht as [H1 Ht]. apply truthy_at_path in Ht as [H2 Ht].
  apply truthy_at_path in Ht as [H3 Ht]. apply truthy_at_path in Ht as [H4 Ht].
  apply truthy_at_path in Ht as [H5 _].
  cbn [at_path foldl] in *. rewrite Hf in H5.
  set (metafield := member (member (member data "data") "product") "metafield") in *.
  assert (Hm : truthy metafield = true).
  { destruct (truthy metafield) eqn:E; [done|].
    apply (falsy_at_path _ ["reference"; "fields"]) in E. cbn [at_path foldl] in E.
    by rewrite Hf in E. }
  assert (Href : truthy (member metafield "reference") = true).
  { destruct (truthy (member metafield "reference")) eqn:E; [done|].
    apply (falsy_at_path _ ["fields"]) in E. cbn [at_path foldl] in E.
    by rewrite Hf in E. }
  repeat split; try done. by eapply get_prop_total.
Qed.

(** ** Printing *)

Lemma append_empty_r (s : string) : s +:+ "" = s.
Proof. induction s as [|c s IH]; [done|]. exact (f_equal (String c) IH). Qed.

(** The global id of a resource whose id prints as [s]. *)
Lemma gid_printed (kind : string) (id : val) (s : string) :
  ToString id = Returned s →
  gid kind id = Returned (JStr ("gid://shopify/" +:+ kind +:+ "/" +:+ s)).
Proof.
  intros Hs. unfold gid. cbn [template]. rewrite Hs. cbn [mbind outcome_bind].
  by rewrite append_empty_r.
Qed.

Lemma shown_printable v s : ToString v = Returned s → shown v = s.
Proof. unfold shown. by intros ->. Qed.

Lemma noteLine_link_record entry :
  printable entry.2 →
  Calendly.noteLine (link_record entry)
  = Returned (entry.1 +:+ ": " +:+ shown entry.2).
Proof.
  destruct entry as [title link]. intros [s Hs]. cbn [fst snd] in *.
  unfold Calendly.noteLine, link_record. cbn [get_prop assoc String.eqb Ascii.eqb Bool.eqb fst snd].
  cbn. rewrite Hs. cbn. by rewrite append_empty_r, (shown_printable _ _ Hs).
Qed.

Lemma stanza_printable idx ep :
  printable_event ep → Metaobject.stanza (idx, ep) = Returned (event_stanza idx ep).
Proof.
  intros [[props ->] Hp].
  repeat (apply Forall_cons in Hp as [[? ?] Hp]).
  unfold Metaobject.stanza, event_stanza.
  assert (Hget : ∀ k, get_prop (JObj props) k = Returned (member (JObj props) k)) by done.
  rewrite !Hget. cbn [mbind outcome_bind template ToString].
  repeat match goal with
  | H : ToString ?v = Returned _ |- _ =>
      rewrite H, <- (shown_printable v _ H); clear H
  end.
  cbn [mbind outcome_bind]. by rewrite !append_empty_r.
Qed.

Lemma stanzas_printable eventProducts i :
  Forall printable_event eventProducts →
  traverse Metaobject.stanza (zip (seq i (length eventProducts)) eventProducts)
  = Returned (imap (λ j, event_stanza (i + j)) eventProducts).
Proof.
  intros Hp. revert i. induction Hp as [|ep rest Hep _ IH]; intros i; [done|].
  cbn [length seq zip zip_with traverse imap].
  rewrite (stanza_printable _ _ Hep).
  change (zip_with pair (seq (S i) (length rest)) rest)
    with (zip (seq (S i) (length rest)) rest).
  rewrite IH, Nat.add_0_r. do 2 f_equal.
  apply imap_ext. intros j x _. cbn. by rewrite Nat.add_succ_r.
Qed.

(** ** The annotator's failures are fatal (C6) *)


(** What the annotators do with a failed mutation's answer, from
    [data.errors] on: one line with the errors, and a throw. *)
Lemma mutation_refused rt data (done : string) w :
  mutation_failed data →
  (errors ← get data "errors";
   if truthy errors then
     console_error "GraphQL errors:" [errors];;
     throw (Error "Failed to add note to Shopify order")
   else
     data_data ← get data "data";
     orderUpdate ← get data_data "orderUpdate";
     userErrors ← get orderUpdate "userErrors";
     len ← get userErrors "length";
     positive ← lift (greater_than_zero rt len);
     if positive : bool then
       console_error "User errors:" [userErrors];;
       throw (Error "Failed to add note to Shopify order")
     else
       console_log done []) w
  = (Thrown (Error "Failed to add note to Shopify order"),
     World (calls w) (console w ++ [refusal data])).
Proof.
  intros Hf.
  assert (He : ∃ errors, get_prop data "errors" = Returned errors).
  { destruct Hf as [(e & es & He)|(dd & ou & u & us & Hd & Ho & Hu)]; [eauto|].
    rewrite (get_prop_total _ _ _ "errors" Hd). eauto. }
  destruct He as [errors He].
  assert (Hm : member data "errors" = errors) by (unfold member; by rewrite He).
  unfold refusal. rewrite Hm. read He.
  destruct (truthy errors) eqn:Ht; [reflexivity|].
  destruct Hf as [(e & es & He')|(dd & ou & u & us & Hd & Ho & Hu)].
  { rewrite He' in He. injection He as <-. done. }
  assert (Hp : at_path data ["data"; "orderUpdate"; "userErrors"] = JArr (u :: us)).
  { cbn [at_path foldl]. unfold member. by rewrite Hd, Ho, Hu. }
  rewrite Hp. read Hd. read Ho. read Hu.
  rewrite run_bind. unfold get at 1, lift at 1. cbn [get_prop String.eqb Ascii.eqb Bool.eqb].
  rewrite run_bind. unfold lift at 1, greater_than_zero, ToNumber.
  assert ((0 <? Z.of_nat (length (u :: us))) = true) as ->
    by (apply Z.ltb_lt; cbn [length]; lia).
  reflexivity.
Qed.

(** The mutation the Calendly annotator sends for links that print. *)
Lemma Calendly_note_request rt orderId id entries (K : val → M ()) w :
  ToString orderId = Returned id →
  Forall (λ entry, printable entry.2) entries →
  (lines ← lift (traverse Calendly.noteLine (link_record <$> entries));
   let notes := String.concat LF lines in
   orderGid ← lift (gid "Order" orderId);
   let variables :=
     JObj [("input", JObj [("id", orderGid);
                           ("note", JStr ("Scheduling Links:" +:+ LF +:+ notes))])] in
   data ← fetch rt (shopify_graphql UpdateOrder variables);
   K data) w
  = (data ← fetch rt (order_note_mutation id (scheduling_note entries)); K data) w.
Proof.
  intros Hid Hentries.
  assert (Hlines :
    traverse Calendly.noteLine (link_record <$> entries)
    = Returned ((λ entry, entry.1 +:+ ": " +:+ shown entry.2) <$> entries)).
  { induction Hentries as [|entry rest He _ IH]; [done|].
    rewrite !fmap_cons. cbn [traverse].
    by rewrite (noteLine_link_record _ He), IH. }
  rewrite run_bind. unfold lift at 1. rewrite Hlines. cbn zeta.
  rewrite run_bind. unfold lift at 1. by rewrite (gid_printed _ _ _ Hid).
Qed.

(** The line the metaobject annotator logs and the mutation it sends, for
    event products that print. *)
Lemma Metaobject_note_request rt orderId id eventProducts (K : val → M ()) w :
  ToString orderId = Returned id →
  Forall printable_event eventProducts →
  (stanzas ← lift (traverse Metaobject.stanza
                     (zip (seq 0 (length eventProducts)) eventProducts));
   let notes := String.concat (LF +:+ LF) stanzas in
   msg ← lift (template [lit "Adding note to Shopify order "; sub orderId;
                         lit ":"; lit LF; lit notes]);
   console_log msg [];;
   orderGid ← lift (gid "Order" orderId);
   let variables :=
     JObj [("input", JObj [("id", orderGid);
                           ("note", JStr ("Event Details:" +:+ LF +:+ LF +:+ notes))])] in
   data ← fetch rt (shopify_graphql UpdateOrder variables);
   K data) w
  = (data ← fetch rt (order_note_mutation id (event_note eventProducts)); K data)
      (note_announced id eventProducts w).
Proof.
  intros Hid Hp. rewrite run_bind. unfold lift at 1.
  rewrite (stanzas_printable _ 0%nat Hp). cbn zeta.
  rewrite run_bind. unfold lift at 1. cbn [template]. rewrite Hid.
  cbn [mbind outcome_bind]. rewrite append_empty_r.
  rewrite run_bind. unfold console_log at 1, console_write at 1.
  rewrite run_bind. unfold lift at 1. by rewrite (gid_printed _ _ _ Hid).
Qed.

Lemma Calendly_addNote_refused rt orderId id entries w data :
  ToString orderId = Returned id →
  Forall (λ entry, printable entry.2) entries →
  axios rt (calls w) (order_note_mutation id (scheduling_note entries)) = Resolved data →
  mutation_failed data →
  Calendly.addNoteToShopifyOrder rt orderId (link_record <$> entries) w
  = (Thrown (Error "Failed to add note to Shopify order"),
     annotation_refused data
       (sent (order_note_mutation id (scheduling_note entries)) w)).
Proof.
  intros Hid Hentries Hr Hf. unfold Calendly.addNoteToShopifyOrder.
  rewrite rethrown, (Calendly_note_request _ _ _ _ _ _ Hid Hentries), run_bind.
  unfold fetch at 1. rewrite Hr.
  by rewrite (mutation_refused rt data _ _ Hf).
Qed.

Lemma Metaobject_addNote_refused rt orderId id eventProducts w data :
  ToString orderId = Returned id →
  Forall printable_event eventProducts →
  axios rt (calls w) (order_note_mutation id (event_note eventProducts)) = Resolved data →
  mutation_failed data →
  Metaobject.addNoteToShopifyOrder rt orderId eventProducts w
  = (Thrown (Error "Failed to add note to Shopify order"),
     annotation_refused data
       (sent (order_note_mutation id (event_note eventProducts))
          (note_announced id eventProducts w))).
Proof.
  intros Hid Hp Hr Hf. unfold Metaobject.addNoteToShopifyOrder.
  rewrite rethrown, (Metaobject_note_request _ _ _ _ _ _ Hid Hp), run_bind.
  unfold fetch at 1. cbn [calls note_announced logged]. rewrite Hr.
  by rewrite (mutation_refused rt data _ _ Hf).
Qed.

(** C6.  When the order-note mutation of an invocation is answered with a
    non-empty GraphQL error array or a non-empty array of user errors, the
    annotator logs that array (under [GraphQL errors:], or under [User
    errors:] when there are no GraphQL errors), logs its own error line and
    throws; the invocation, whose tracker step has returned (or was skipped
    for want of an e-mail), answers 500 with nothing sent after the
    mutation. *)
Theorem annotator_failure_is_fatal (rt : runtime) (data : val) :
  mutation_failed data →
  (∀ e es, get_prop data "errors" = Returned (JArr (e :: es)) →
           refusal data = LogEntry error "GraphQL errors:" [JArr (e :: es)]) ∧
  (∀ u us, truthy (member data "errors") = false →
           at_path data ["data"; "orderUpdate"; "userErrors"] = JArr (u :: us) →
           refusal data = LogEntry error "User errors:" [JArr (u :: us)]) ∧
  (∀ orderId id entries w,
     ToString orderId = Returned id →
     Forall (λ entry, printable entry.2) entries →
     let request := order_note_mutation id (scheduling_note entries) in
     axios rt (calls w) request = Resolved data →
     Calendly.addNoteToShopifyOrder rt orderId (link_record <$> entries) w
     = (Thrown (Error "Failed to add note to Shopify order"),
        annotation_refused data (sent request w))) ∧
  (∀ orderId id eventProducts w,
     ToString orderId = Returned id →
     Forall printable_event eventProducts →
     let request := order_note_mutation id (event_note eventProducts) in
     axios rt (calls w) request = Resolved data →
     Metaobject.addNoteToShopifyOrder rt orderId eventProducts w
     = (Thrown (Error "Failed to add note to Shopify order"),
        annotation_refused data (sent request (note_announced id eventProducts w)))) ∧
  (∀ ev w order email firstName lastName w1 entries w2 orderId id w3,
     verifyShopifyWebhook rt (header ev "x-shopify-hmac-sha256") (body ev) = Returned true →
     JSON_parse rt (body ev) = Returned order →
     Calendly.customerIdentity order w = (Returned (email, firstName, lastName), w1) →
     Calendly.collectSchedulingLinks rt email firstName lastName order w1
     = (Returned (link_record <$> entries), w2) →
     entries ≠ [] →
     Forall (λ entry, printable entry.2) entries →
     get_prop order "id" = Returned orderId →
     ToString orderId = Returned id →
     (truthy email = false ∧ w3 = tracking_skipped w2 ∨
      truthy email = true ∧
      Calendly.trackKlaviyoEvent rt email firstName lastName (link_record <$> entries)
        orderId (member order "created_at") w2 = (Returned (), w3)) →
     let request := order_note_mutation id (scheduling_note entries) in
     axios rt (calls w3) request = Resolved data →
     Calendly.handler rt ev w
     = (Returned Internal_Server_Error,
        reported (Error "Failed to add note to Shopify order")
          (annotation_refused data (sent request w3)))) ∧
  (∀ ev w order orderId id nonPiiId eventProducts w2 w3,
     verifyShopifyWebhook rt (Metaobject.hmacHeader ev) (body ev) = Returned true →
     JSON_parse rt (body ev) = Returned order →
     get_prop order "id" = Returned orderId →
     ToString orderId = Returned id →
     template [lit "order_"; sub orderId] = Returned nonPiiId →
     Metaobject.collectEventProducts rt order
       (logged log "Received order object:" [order] w)
     = (Returned eventProducts, w2) →
     eventProducts ≠ [] →
     Forall printable_event eventProducts →
     Metaobject.trackKlaviyoEvent rt nonPiiId eventProducts orderId
       (member order "created_at")
       (logged log "Collected event product data:" [JArr eventProducts] w2)
     = (Returned (), w3) →
     let request := order_note_mutation id (event_note eventProducts) in
     axios rt (calls w3) request = Resolved data →
     Metaobject.handler rt ev w
     = (Returned Internal_Server_Error,
        reported (Error "Failed to add note to Shopify order")
          (annotation_refused data
             (sent request (note_announced id eventProducts w3))))).
Proof.
  intros Hf. split; [|split; [|split; [|split; [|split]]]].
  - intros e es He. unfold refusal, member. by rewrite He.
  - intros u us He Hu. unfold refusal. by rewrite He, Hu.
  - intros orderId id entries w Hid Hentries request Hr.
    by apply Calendly_addNote_refused.
  - intros orderId id eventProducts w Hid Hp request Hr.
    by apply Metaobject_addNote_refused.
  - intros ev w order email firstName lastName w1 entries w2 orderId id w3
      Hv Hp Hi Hc Hne Hentries Hoid Hid Htrack request Hr.
    rewrite (Calendly_after_enrichment _ _ _ _ _ _ _ _ _ _ Hv Hp Hi Hc).
    unfold Calendly.trackAndAnnotate.
    assert ((0 <? length (link_record <$> entries))%nat = true) as ->
      by (destruct entries; [done | reflexivity]).
    rewrite run_bind.
    assert (Hstep :
      (if negb (truthy email)
       then console_warn "No customer email available. Skipping Klaviyo event tracking." []
       else
         order_id ← get order "id";
         order_created_at ← get order "created_at";
         Calendly.trackKlaviyoEvent rt email firstName lastName (link_record <$> entries)
           order_id order_created_at) w2
      = (Returned (), w3)).
    { destruct Htrack as [[-> ->]|[-> Ht]]; cbn [negb]; [reflexivity|].
      read Hoid. read (get_prop_total _ _ _ "created_at" Hoid). exact Ht. }
    rewrite Hstep. read Hoid.
    by rewrite (Calendly_addNote_refused _ _ _ _ _ _ Hid Hentries Hr Hf).
  - intros ev w order orderId id nonPiiId eventProducts w2 w3
      Hv Hp Hoid Hid Hn Hc Hne Hprint Ht request Hr.
    rewrite (Metaobject_after_enrichment _ _ _ _ _ _ _ _ Hv Hp Hoid Hn Hc).
    unfold Metaobject.trackAndAnnotate.
    assert ((0 <? length eventProducts)%nat = true) as ->
      by (destruct eventProducts; [done | reflexivity]).
    read Hoid. read (get_prop_total _ _ _ "created_at" Hoid).
    rewrite run_bind, Ht. read Hoid.
    by rewrite (Metaobject_addNote_refused _ _ _ _ _ _ Hid Hprint Hr Hf).
Qed.

Lemma annotator_failure_is_fatal_witness :
  Calendly.handler (Shop.runtime_with Shop.link_minted (Resolved Shop.note_refused))
    (Shop.signed "order 1001") Shop.fresh
  = (Returned Internal_Server_Error,
     reported (Error "Failed to add note to Shopify order")
       (annotation_refused Shop.note_refused
          (sent (order_note_mutation "1001" (scheduling_note Shop.entries_1001))
             Shop.tracked_1001))) ∧
  Metaobject.handler (Shop.runtime_with Shop.link_minted (Resolved Shop.note_rejected))
    (Shop.signed "order 1001") Shop.fresh
  = (Returned Internal_Server_Error,
     reported (Error "Failed to add note to Shopify order")
       (annotation_refused Shop.note_rejected
          (sent (order_note_mutation "1001" (event_note Shop.events_1001))
             (note_announced "1001" Shop.events_1001 Shop.event_tracked_1001)))) ∧
  refusal Shop.note_refused
  = LogEntry error "GraphQL errors:" [JArr [JObj [("message", JStr "Throttled")]]] ∧
  refusal Shop.note_rejected
  = LogEntry error "User errors:"
      [JArr [JObj [("field", JArr [JStr "note"]); ("message", JStr "Note is too long")]]].
Proof.
  assert (H1 : mutation_failed Shop.note_refused) by (left; by eexists _, _).
  assert (H2 : mutation_failed Shop.note_rejected).
  { right. eexists _, _, _, _. repeat split; reflexivity. }
  destruct (annotator_failure_is_fatal
              (Shop.runtime_with Shop.link_minted (Resolved Shop.note_refused))
              Shop.note_refused H1) as (Hg & _ & _ & _ & HC & _).
  destruct (annotator_failure_is_fatal
              (Shop.runtime_with Shop.link_minted (Resolved Shop.note_rejected))
              Shop.note_rejected H2) as (_ & Hu & _ & _ & _ & HM).
  split; [|split; [|split]].
  - apply (HC (Shop.signed "order 1001") Shop.fresh Shop.order_1001
             (JStr "ada@example.com") (JStr "") (JStr "") Shop.identified_1001
             Shop.entries_1001 Shop.enriched_1001 (JNum 1001) "1001" Shop.tracked_1001).
    + vm_compute. reflexivity.
    + reflexivity.
    + vm_compute. reflexivity.
    + vm_compute. reflexivity.
    + done.
    + repeat constructor; by eexists.
    + reflexivity.
    + reflexivity.
    + right. split; [reflexivity | vm_compute; reflexivity].
    + reflexivity.
  - apply (HM (Shop.signed "order 1001") Shop.fresh Shop.order_1001
             (JNum 1001) "1001" "order_1001" Shop.events_1001 Shop.events_collected_1001
             Shop.event_tracked_1001).
    + vm_compute. reflexivity.
    + reflexivity.
    + reflexivity.
    + reflexivity.
    + reflexivity.
    + vm_compute. reflexivity.
    + done.
    + repeat constructor; by eexists.
    + vm_compute. reflexivity.
    + reflexivity.
  - by apply Hg.
  - by apply Hu.
Defined.

(** ** A missing e-mail skips the tracker only (C4) *)

(** C4.  In the Calendly handler with the fallback chain, when the extracted
    e-mail is empty and there is at least one scheduling link, the writes are
    a warning on the console followed by the order-note annotation and
    nothing else: no request goes to Klaviyo, and the invocation answers 200
    unless the annotation itself fails. *)
Theorem missing_email_skips_tracking (rt : runtime)
    (email firstName lastName order : val) (links : list val) (w : world) :
  truthy email = false →
  links ≠ [] →
  Calendly.trackAndAnnotate rt email firstName lastName order links w
  = (order_id ← get order "id"; Calendly.addNoteToShopifyOrder rt order_id links)
      (tracking_skipped w) ∧
  (∃ new,
     calls (Calendly.trackAndAnnotate rt email firstName lastName order links w).2
     = calls w ++ new ∧
     Forall (λ r, is_klaviyo r = false) new) ∧
  LogEntry warn "No customer email available. Skipping Klaviyo event tracking." []
    ∈ console (Calendly.trackAndAnnotate rt email firstName lastName order links w).2 ∧
  (∀ ev w0 w1,
     verifyShopifyWebhook rt (header ev "x-shopify-hmac-sha256") (body ev) = Returned true →
     JSON_parse rt (body ev) = Returned order →
     Calendly.customerIdentity order w0 = (Returned (email, firstName, lastName), w1) →
     Calendly.collectSchedulingLinks rt email firstName lastName order w1
     = (Returned links, w) →
     Calendly.handler rt ev w0 =
     match (order_id ← get order "id"; Calendly.addNoteToShopifyOrder rt order_id links)
             (tracking_skipped w) with
     | (Returned _, w3) => (Returned Success, w3)
     | (Thrown e, w3) => (Returned Internal_Server_Error, reported e w3)
     end).
Proof.
  intros He Hl.
  assert (Hskip :
    Calendly.trackAndAnnotate rt email firstName lastName order links w
    = (order_id ← get order "id"; Calendly.addNoteToShopifyOrder rt order_id links)
        (tracking_skipped w)).
  { unfold Calendly.trackAndAnnotate. destruct links as [|link links]; [done|].
    cbn [length Nat.ltb Nat.leb]. rewrite He. reflexivity. }
  split; [exact Hskip|]. split; [|split].
  - rewrite Hskip.
    assert (Hs : sends (λ r, is_klaviyo r = false)
                   (order_id ← get order "id";
                    Calendly.addNoteToShopifyOrder rt order_id links)).
    { apply sends_bind; [apply sends_get|]. intros order_id.
      eapply sends_mono; [|apply Calendly_addNote_sends].
      by intros [[]| | | |]. }
    apply (Hs (tracking_skipped w)).
  - rewrite Hskip.
    assert (Hk : keeps_console
                   (order_id ← get order "id";
                    Calendly.addNoteToShopifyOrder rt order_id links)).
    { apply keeps_console_bind; [apply keeps_console_lift|]. intros order_id.
      apply Calendly_addNote_keeps_console. }
    destruct (Hk (tracking_skipped w)) as [more ->].
    unfold tracking_skipped, logged. cbn [console]. set_solver.
  - intros ev w0 w1 Hv Hp Hi Hc.
    rewrite (Calendly_after_enrichment _ _ _ _ _ _ _ _ _ _ Hv Hp Hi Hc).
    by rewrite Hskip.
Qed.

Lemma missing_email_skips_tracking_witness :
  (Calendly.handler Shop.healthy (Shop.signed "order 1002") Shop.fresh).1
  = Returned Success ∧
  filter (λ r, is_klaviyo r = true)
    (calls (Calendly.handler Shop.healthy (Shop.signed "order 1002") Shop.fresh).2) = [] ∧
  filter (λ r, is_order_update r = true)
    (calls (Calendly.handler Shop.healthy (Shop.signed "order 1002") Shop.fresh).2)
  = [shopify_graphql UpdateOrder
       (JObj [("input", JObj [
          ("id", JStr "gid://shopify/Order/1002");
          ("note", JStr ("Scheduling Links:" +:+ LF +:+
                         "Workshop (Ticket 1): https://calendly.com/d/abc" +:+ LF +:+
                         "Workshop (Ticket 2): https://calendly.com/d/abc"))])])].
Proof.
  assert (He : truthy (JStr "") = false) by reflexivity.
  assert (Hl : Shop.links_1002 ≠ []) by done.
  destruct (missing_email_skips_tracking Shop.healthy (JStr "") (JStr "") (JStr "")
              Shop.order_1002 Shop.links_1002 Shop.enriched_1002 He Hl) as (_ & _ & _ & H).
  rewrite (H (Shop.signed "order 1002") Shop.fresh Shop.identified_1002);
    [| vm_compute; reflexivity | reflexivity | vm_compute; reflexivity
     | vm_compute; reflexivity].
  vm_compute. done.
Defined.

(** C4 as stated fails on the listing in [functions/shopify-webhook-handler.js],
    which has no guard in front of the tracker.  With the helpers of the full
    listing in place of the elided ones, an order with an empty e-mail and one
    workshop ticket is answered 200 with the event posted to Klaviyo under
    the empty e-mail, and no warning on the console. *)
Lemma Original_tracks_without_an_email :
  let order :=
    JObj [("id", JNum 1004); ("created_at", JStr "2023-11-14T22:13:20Z");
          ("email", JStr ""); ("customer", JObj []);
          ("line_items", JArr [Shop.item 7 "Workshop" 1])] in
  let rt := Shop.platform [("order 1004", order)] (axios Shop.healthy) in
  let run :=
    Original.handler (Calendly.getCalendlyEventHandle rt) (Calendly.getCalendlyEventTypeUri rt)
      (Calendly.createCalendlySchedulingLink rt) (Calendly.addNoteToShopifyOrder rt) rt
      (Shop.signed "order 1004") Shop.fresh in
  truthy (member order "email") = false ∧
  run.1 = Returned Success ∧
  filter (λ r, is_klaviyo r = true) (calls run.2)
  = [klaviyo_events
       (Original.klaviyoPayload (JStr "") JUndefined JUndefined
          [JObj [("title", JStr "Workshop (Ticket 1)");
                 ("link", JStr "https://calendly.com/d/abc")]]
          (JNum 1004) (JNum 1700000000))] ∧
  Forall (λ line, lvl line ≠ warn) (console run.2).
Proof.
  cbn zeta. split; [reflexivity|]. split; [vm_compute; reflexivity|].
  split; [vm_compute; reflexivity|].
  vm_compute. repeat constructor; discriminate.
Qed.

(** ** Orders without a customer, and without line items (C3) *)

Lemma and_then_guarded o k w :
  and_then o (get o k) w = (Returned (guarded o k), w).
Proof.
  unfold and_then, guarded. destruct (truthy o) eqn:E; [|done].
  unfold get, lift. by rewrite truthy_get_prop.
Qed.

Lemma or_else_first a (m : M val) w rest :
  m w = (Returned (first_truthy rest), w) →
  or_else a m w = (Returned (first_truthy (a :: rest)), w).
Proof. unfold or_else. cbn. by destruct (truthy a). Qed.

(** The fallback chain on an object: every read succeeds, and each of e-mail,
    first and last name is the first truthy candidate of its chain. *)
Lemma customerIdentity_object props w msg :
  greeting (identity_of (JObj props)) = Returned msg →
  ∃ w', Calendly.customerIdentity (JObj props) w
        = (Returned (identity_of (JObj props)), w') ∧
        calls w' = calls w.
Proof.
  intros Hmsg. unfold Calendly.customerIdentity.
  set (order := JObj props) in *.
  assert (Hget : ∀ k w, get order k w = (Returned (member order k), w)) by done.
  assert (Hemail : ∀ w,
    (customer ← get order "customer";
     customer_email ← and_then customer (get customer "email");
     or_else customer_email (
       email ← get order "email";
       or_else email (
         contact_email ← get order "contact_email";
         or_else contact_email (
           billing_address ← get order "billing_address";
           billing_email ← and_then billing_address (get billing_address "email");
           or_else billing_email (mret (JStr "")))))) w
    = (Returned (first_truthy [guarded (member order "customer") "email";
                               member order "email"; member order "contact_email";
                               guarded (member order "billing_address") "email"]), w)).
  { intros w0. rewrite run_bind, Hget, run_bind, and_then_guarded.
    apply or_else_first. rewrite run_bind, Hget.
    apply or_else_first. rewrite run_bind, Hget.
    apply or_else_first. rewrite run_bind, Hget, run_bind, and_then_guarded.
    by apply or_else_first. }
  assert (Hname : ∀ k w,
    (customer ← get order "customer";
     customer_name ← and_then customer (get customer k);
     or_else customer_name (
       billing_address ← get order "billing_address";
       billing_name ← and_then billing_address (get billing_address k);
       or_else billing_name (mret (JStr "")))) w
    = (Returned (first_truthy [guarded (member order "customer") k;
                               guarded (member order "billing_address") k]), w)).
  { intros k w0. rewrite run_bind, Hget, run_bind, and_then_guarded.
    apply or_else_first. rewrite run_bind, Hget, run_bind, and_then_guarded.
    by apply or_else_first. }
  eexists. split.
  - rewrite run_bind. unfold lift at 1. cbn [Object_keys order].
    rewrite run_bind. unfold console_log at 1, console_write at 1.
    rewrite run_bind, Hget. rewrite run_bind. unfold console_log at 1, console_write at 1.
    rewrite run_bind, Hget. rewrite run_bind. unfold console_log at 1, console_write at 1.
    rewrite run_bind, Hemail. rewrite run_bind, Hname. rewrite run_bind, Hname.
    rewrite run_bind. unfold console_log at 1, console_write at 1.
    rewrite run_bind. unfold console_log at 1, console_write at 1.
    rewrite run_bind. unfold console_log at 1, console_write at 1.
    rewrite run_bind. unfold lift at 1.
    unfold greeting, identity_of in Hmsg. cbn zeta in Hmsg. rewrite Hmsg.
    rewrite run_bind. unfold console_log at 1, console_write at 1. rewrite run_ret.
    unfold identity_of. reflexivity.
  - reflexivity.
Qed.

Lemma Calendly_empty_line_items rt ev w props msg :
  verifyShopifyWebhook rt (header ev "x-shopify-hmac-sha256") (body ev) = Returned true →
  JSON_parse rt (body ev) = Returned (JObj props) →
  greeting (identity_of (JObj props)) = Returned msg →
  assoc "line_items" props = Some (JArr []) →
  ∃ w', Calendly.handler rt ev w = (Returned Success, w') ∧ calls w' = calls w.
Proof.
  intros Hv Hp Hmsg Hitems.
  destruct (customerIdentity_object props w msg Hmsg) as (w1 & Hi & Hcalls).
  destruct (identity_of (JObj props)) as [[email firstName] lastName].
  exists w1. split; [|exact Hcalls].
  rewrite (Calendly_after_enrichment rt ev w (JObj props) email firstName lastName
             w1 [] w1 Hv Hp Hi); [reflexivity|].
  unfold Calendly.collectSchedulingLinks, get, lift. cbn [get_prop].
  rewrite run_bind, Hitems. reflexivity.
Qed.

Lemma Metaobject_empty_line_items rt ev w props nonPiiId :
  verifyShopifyWebhook rt (Metaobject.hmacHeader ev) (body ev) = Returned true →
  JSON_parse rt (body ev) = Returned (JObj props) →
  template [lit "order_"; sub (member (JObj props) "id")] = Returned nonPiiId →
  assoc "line_items" props = Some (JArr []) →
  ∃ w', Metaobject.handler rt ev w = (Returned Success, w') ∧ calls w' = calls w.
Proof.
  intros Hv Hp Ht Hitems. eexists. split.
  - rewrite (Metaobject_after_enrichment rt ev w (JObj props) _ nonPiiId []
               (logged log "Received order object:" [JObj props] w)
               Hv Hp eq_refl Ht); [reflexivity|].
    unfold Metaobject.collectEventProducts, get, lift. cbn [get_prop].
    rewrite run_bind, Hitems. reflexivity.
  - reflexivity.
Qed.

Lemma Calendly_missing_line_items rt ev w props :
  verifyShopifyWebhook rt (header ev "x-shopify-hmac-sha256") (body ev) = Returned true →
  JSON_parse rt (body ev) = Returned (JObj props) →
  assoc "line_items" props = None →
  ∃ w', Calendly.handler rt ev w = (Returned Internal_Server_Error, w') ∧
        calls w' = calls w.
Proof.
  intros Hv Hp Hitems. unfold Calendly.handler. cbn zeta.
  rewrite run_try_catch, Hv, lift_bind. cbn [negb]. rewrite Hp, lift_bind, run_bind.
  pose proof (customerIdentity_quiet (JObj props) w) as Hq.
  destruct (Calendly.customerIdentity (JObj props) w)
    as [[[[email firstName] lastName]|e] w1]; cbn [snd] in Hq.
  - rewrite run_bind. unfold Calendly.collectSchedulingLinks, get, lift.
    cbn [get_prop]. rewrite run_bind, Hitems. cbn. eauto.
  - cbn. eauto.
Qed.

Lemma Metaobject_missing_line_items rt ev w props :
  verifyShopifyWebhook rt (Metaobject.hmacHeader ev) (body ev) = Returned true →
  JSON_parse rt (body ev) = Returned (JObj props) →
  assoc "line_items" props = None →
  ∃ w', Metaobject.handler rt ev w = (Returned Internal_Server_Error, w') ∧
        calls w' = calls w.
Proof.
  intros Hv Hp Hitems. unfold Metaobject.handler. cbn zeta.
  rewrite run_try_catch, Hv, lift_bind. cbn [negb]. rewrite Hp, lift_bind, run_bind.
  unfold console_log at 1, console_write at 1.
  rewrite run_bind. unfold get at 1, lift at 1. cbn [get_prop].
  rewrite run_bind. unfold lift at 1.
  destruct (template _) as [nonPiiId|e]; [|cbn; eauto].
  rewrite run_bind. unfold Metaobject.collectEventProducts, get, lift.
  cbn [get_prop]. rewrite run_bind, Hitems. cbn. eauto.
Qed.

(** C3, as the code has it.  In the fallback-chain handler an order without a
    customer object is no error: e-mail and names come from the order's other
    fields, the empty string when none has a value; the metaobject handler
    reads no identity at all.  With an empty line-item array both handlers
    send nothing and answer 200.  With no line-item array the loop over it
    throws, and both handlers answer 500, again with nothing sent. *)
Theorem customerless_and_itemless_orders (rt : runtime) (ev : event) (w : world)
    (props : list (string * val)) :
  JSON_parse rt (body ev) = Returned (JObj props) →
  (assoc "customer" props = None →
     identity_of (JObj props)
     = (first_truthy [member (JObj props) "email"; member (JObj props) "contact_email";
                      guarded (member (JObj props) "billing_address") "email"],
        first_truthy [guarded (member (JObj props) "billing_address") "first_name"],
        first_truthy [guarded (member (JObj props) "billing_address") "last_name"]) ∧
     ∀ msg, greeting (identity_of (JObj props)) = Returned msg →
       ∃ w', Calendly.customerIdentity (JObj props) w
             = (Returned (identity_of (JObj props)), w') ∧
             calls w' = calls w) ∧
  (verifyShopifyWebhook rt (header ev "x-shopify-hmac-sha256") (body ev) = Returned true →
     (assoc "line_items" props = Some (JArr []) →
        ∀ msg, greeting (identity_of (JObj props)) = Returned msg →
          ∃ w', Calendly.handler rt ev w = (Returned Success, w') ∧ calls w' = calls w) ∧
     (assoc "line_items" props = None →
        ∃ w', Calendly.handler rt ev w = (Returned Internal_Server_Error, w') ∧
              calls w' = calls w)) ∧
  (verifyShopifyWebhook rt (Metaobject.hmacHeader ev) (body ev) = Returned true →
     (assoc "line_items" props = Some (JArr []) →
        ∀ nonPiiId,
          template [lit "order_"; sub (member (JObj props) "id")] = Returned nonPiiId →
          ∃ w', Metaobject.handler rt ev w = (Returned Success, w') ∧ calls w' = calls w) ∧
     (assoc "line_items" props = None →
        ∃ w', Metaobject.handler rt ev w = (Returned Internal_Server_Error, w') ∧
              calls w' = calls w)).
Proof.
  intros Hp. split; [|split].
  - intros Hc. split.
    + unfold identity_of, member, guarded. cbn [get_prop]. rewrite Hc. reflexivity.
    + intros msg Hmsg. by eapply customerIdentity_object.
  - intros Hv. split.
    + intros Hitems msg Hmsg. by eapply Calendly_empty_line_items.
    + intros Hitems. by eapply Calendly_missing_line_items.
  - intros Hv. split.
    + intros Hitems nonPiiId Ht. by eapply Metaobject_empty_line_items.
    + intros Hitems. by eapply Metaobject_missing_line_items.
Qed.

(** C3 as stated fails: order 1003 has no line-item array, its signature
    verifies and its body parses, and both handlers answer 500. *)
Lemma missing_line_items_is_an_error :
  verifyShopifyWebhook Shop.healthy
    (header (Shop.signed "order 1003") "x-shopify-hmac-sha256") (JStr "order 1003")
  = Returned true ∧
  JSON_parse Shop.healthy (JStr "order 1003") = Returned Shop.order_1003 ∧
  member Shop.order_1003 "line_items" = JUndefined ∧
  (Calendly.handler Shop.healthy (Shop.signed "order 1003") Shop.fresh).1
  = Returned Internal_Server_Error ∧
  (Metaobject.handler Shop.healthy (Shop.signed "order 1003") Shop.fresh).1
  = Returned Internal_Server_Error.
Proof. repeat split; vm_compute; reflexivity. Qed.

Lemma customerless_and_itemless_orders_witness :
  (∃ w', Calendly.customerIdentity Shop.order_1003 Shop.fresh
         = (Returned (JStr "", JStr "", JStr ""), w')) ∧
  (∃ w', Calendly.handler Shop.healthy (Shop.signed "order 1003") Shop.fresh
         = (Returned Internal_Server_Error, w') ∧ calls w' = []) ∧
  (∃ w', Metaobject.handler Shop.healthy (Shop.signed "order 1003") Shop.fresh
         = (Returned Internal_Server_Error, w') ∧ calls w' = []).
Proof.
  assert (Hp : JSON_parse Shop.healthy (body (Shop.signed "order 1003"))
               = Returned Shop.order_1003) by reflexivity.
  destruct (customerless_and_itemless_orders Shop.healthy (Shop.signed "order 1003")
              Shop.fresh _ Hp) as (HI & HC & HM).
  split; [|split].
  - destruct (HI eq_refl) as [_ H].
    destruct (H "Received order from   ()" eq_refl) as (w' & Hw & _). by exists w'.
  - assert (Hv : verifyShopifyWebhook Shop.healthy
                   (header (Shop.signed "order 1003") "x-shopify-hmac-sha256")
                   (body (Shop.signed "order 1003")) = Returned true)
      by (vm_compute; reflexivity).
    destruct (HC Hv) as [_ H]. exact (H eq_refl).
  - assert (Hv : verifyShopifyWebhook Shop.healthy
                   (Metaobject.hmacHeader (Shop.signed "order 1003"))
                   (body (Shop.signed "order 1003")) = Returned true)
      by (vm_compute; reflexivity).
    destruct (HM Hv) as [_ H]. exact (H eq_refl).
Defined.

(** The original handler reads [order.customer.first_name] unguarded: an
    order without a customer object is answered 500 before any helper runs. *)
Lemma Original_requires_customer h u c n rt ev w props :
  verifyShopifyWebhook rt (header ev "x-shopify-hmac-sha256") (body ev) = Returned true →
  JSON_parse rt (body ev) = Returned (JObj props) →
  assoc "customer" props = None →
  Original.handler h u c n rt ev w
  = (Returned Internal_Server_Error,
     reported (TypeError "Cannot read properties of undefined") w).
Proof.
  intros Hv Hp Hc. unfold Original.handler. cbn zeta.
  rewrite run_try_catch, Hv, lift_bind. cbn [negb]. rewrite Hp, lift_bind.
  unfold get, lift. cbn [get_prop]. rewrite !run_bind, Hc. reflexivity.
Qed.

(** ** Lookup failures (C2) *)

(** The loop over a list in two halves. *)
Lemma for_of_app {A} (body : val → A → M A) pre rest acc w :
  for_of (pre ++ rest) body acc w
  = (acc' ← for_of pre body acc; for_of rest body acc') w.
Proof.
  revert acc w. induction pre as [|x pre IH]; intros acc w; cbn.
  - reflexivity.
  - rewrite !run_bind. destruct (body x acc w) as [[a|e] w1]; [|done].
    by rewrite IH, run_bind.
Qed.

(** A throw of the loop body ends the loop: the items after it are not
    looked at. *)
Lemma for_of_abort {A} (body : val → A → M A) pre x rest acc w acc' w1 e w2 :
  for_of pre body acc w = (Returned acc', w1) →
  body x acc' w1 = (Thrown e, w2) →
  for_of (pre ++ x :: rest) body acc w = (Thrown e, w2).
Proof.
  intros Hpre Hx. rewrite for_of_app, run_bind, Hpre. cbn.
  by rewrite run_bind, Hx.
Qed.

Lemma for_range_abort {A} (body : nat → A → M A) k n i acc w acc' w1 e w2 :
  for_range i k body acc w = (Returned acc', w1) →
  body (i + k)%nat acc' w1 = (Thrown e, w2) →
  for_range i (k + S n) body acc w = (Thrown e, w2).
Proof.
  revert i acc w. induction k as [|k IH]; intros i acc w Hpre Hx; cbn in *.
  - rewrite run_ret in Hpre. injection Hpre as -> ->.
    rewrite Nat.add_0_r in Hx. by rewrite run_bind, Hx.
  - rewrite run_bind in *. destruct (body i acc w) as [[a|e'] w']; [|done].
    apply IH; [done|]. by rewrite Nat.add_succ_comm.
Qed.

Lemma swallowing_never_throws (m : M val) (t : string) :
  never_throws (try_catch m (λ error, console_error t [error_detail error];; mret JNull)).
Proof. intros w. rewrite swallowed. destruct (m w) as [[a|e] w']; eauto. Qed.

Lemma getCalendlyEventHandle_never_throws rt productId :
  never_throws (Calendly.getCalendlyEventHandle rt productId).
Proof. apply swallowing_never_throws. Qed.

Lemma getCalendlyEventTypeUri_never_throws rt eventHandle :
  never_throws (Calendly.getCalendlyEventTypeUri rt eventHandle).
Proof. apply swallowing_never_throws. Qed.

Lemma getEventDataFromProduct_never_throws rt productId :
  never_throws (Metaobject.getEventDataFromProduct rt productId).
Proof. apply swallowing_never_throws. Qed.

(** A rejected catalog request: the lookup logs the error and gives [null]. *)
Lemma getCalendlyEventHandle_rejected rt productId g w m r :
  gid "Product" productId = Returned g →
  axios rt (calls w) (shopify_graphql GetProductMetafield (JObj [("productId", g)]))
  = Rejected m r →
  Calendly.getCalendlyEventHandle rt productId w
  = (Returned JNull,
     logged error "Error fetching Calendly event handle from metaobject:"
       [error_detail (AxiosError m r)]
       (sent (shopify_graphql GetProductMetafield (JObj [("productId", g)])) w)).
Proof.
  intros Hg Hr. unfold Calendly.getCalendlyEventHandle.
  rewrite swallowed, run_bind. unfold lift at 1. rewrite Hg. cbn zeta.
  rewrite run_bind. unfold fetch at 1. by rewrite Hr.
Qed.

Lemma getEventDataFromProduct_rejected rt productId g w m r :
  gid "Product" productId = Returned g →
  axios rt (calls w) (shopify_graphql GetProductEvent (JObj [("productId", g)]))
  = Rejected m r →
  Metaobject.getEventDataFromProduct rt productId w
  = (Returned JNull,
     logged error "Error fetching event data from product metaobject:"
       [error_detail (AxiosError m r)]
       (sent (shopify_graphql GetProductEvent (JObj [("productId", g)])) w)).
Proof.
  intros Hg Hr. unfold Metaobject.getEventDataFromProduct.
  rewrite swallowed, run_bind. unfold lift at 1. rewrite Hg. cbn zeta.
  rewrite run_bind. unfold fetch at 1. by rewrite Hr.
Qed.

Lemma getCalendlyEventTypeUri_rejected rt eventHandle w m r :
  axios rt (calls w) calendly_users_me = Rejected m r →
  Calendly.getCalendlyEventTypeUri rt eventHandle w
  = (Returned JNull,
     logged error "Error retrieving Calendly event type URI:"
       [error_detail (AxiosError m r)] (sent calendly_users_me w)).
Proof.
  intros Hr. unfold Calendly.getCalendlyEventTypeUri.
  rewrite swallowed, run_bind. unfold fetch at 1. by rewrite Hr.
Qed.

Lemma getCalendlyEventTypeUri_list_rejected rt eventHandle w user m r :
  axios rt (calls w) calendly_users_me = Resolved user →
  truthy (member user "resource") = true →
  axios rt (calls w ++ [calendly_users_me])
    (calendly_event_types (JObj [("user", at_path user ["resource"; "uri"])]))
  = Rejected m r →
  Calendly.getCalendlyEventTypeUri rt eventHandle w
  = (Returned JNull,
     logged error "Error retrieving Calendly event type URI:"
       [error_detail (AxiosError m r)]
       (sent (calendly_event_types (JObj [("user", at_path user ["resource"; "uri"])]))
          (sent calendly_users_me w))).
Proof.
  intros Hu Hres Hr. unfold Calendly.getCalendlyEventTypeUri.
  rewrite swallowed, run_bind. unfold fetch at 1. rewrite Hu.
  read (truthy_get_prop _ "resource" (truthy_member _ _ Hres)).
  read (truthy_get_prop _ "uri" Hres).
  rewrite run_bind. unfold fetch at 1. cbn [calls console sent at_path foldl] in *.
  by rewrite Hr.
Qed.

(** A rejected link creation: the helper logs the error and throws. *)
Lemma createCalendlySchedulingLink_rejected rt email firstName lastName eventTypeUri w m r :
  axios rt (calls w)
    (calendly_scheduling_links
       (Calendly.schedulingLinkRequest email firstName lastName eventTypeUri))
  = Rejected m r →
  Calendly.createCalendlySchedulingLink rt email firstName lastName eventTypeUri w
  = (Thrown (Error "Failed to create Calendly scheduling link"),
     logged error "Error creating scheduling link via Calendly:"
       [error_detail (AxiosError m r)]
       (sent (calendly_scheduling_links
                (Calendly.schedulingLinkRequest email firstName lastName eventTypeUri)) w)).
Proof.
  intros Hr. unfold Calendly.createCalendlySchedulingLink.
  rewrite rethrown, run_bind. unfold fetch at 1. by rewrite Hr.
Qed.

(** A line item without an event handle adds no link, and the loop goes on
    with the items after it. *)
Lemma Calendly_item_without_handle rt email firstName lastName
    lineItem rest links w productId handle w' :
  get_prop lineItem "product_id" = Returned productId →
  Calendly.getCalendlyEventHandle rt productId w = (Returned handle, w') →
  truthy handle = false →
  for_of (lineItem :: rest) (Calendly.lineItemLinks rt email firstName lastName) links w
  = for_of rest (Calendly.lineItemLinks rt email firstName lastName) links w'.
Proof.
  intros Hpid Hh Hf. cbn [for_of]. rewrite run_bind. unfold Calendly.lineItemLinks.
  rewrite run_bind. unfold get at 1, lift at 1. rewrite Hpid.
  rewrite run_bind. unfold get at 1, lift at 1.
  rewrite (get_prop_total _ _ _ "quantity" Hpid).
  by rewrite run_bind, Hh, Hf, run_ret.
Qed.

(** A line item whose handle has no event type (the lookup found none, or
    failed and gave [null]) adds no link: a warning is logged, and the loop
    goes on with the items after it. *)
Lemma Calendly_item_without_event_type rt email firstName lastName
    lineItem rest links w productId handle w1 msg uri w2 msg' :
  get_prop lineItem "product_id" = Returned productId →
  Calendly.getCalendlyEventHandle rt productId w = (Returned handle, w1) →
  truthy handle = true →
  template [lit "Product "; sub (member lineItem "title");
            lit " has a Calendly event handle: "; sub handle] = Returned msg →
  Calendly.getCalendlyEventTypeUri rt handle (logged log msg [] w1) = (Returned uri, w2) →
  truthy uri = false →
  template [lit "No matching event found for handle: "; sub handle] = Returned msg' →
  for_of (lineItem :: rest) (Calendly.lineItemLinks rt email firstName lastName) links w
  = for_of rest (Calendly.lineItemLinks rt email firstName lastName) links
      (logged warn msg' [] w2).
Proof.
  intros Hpid Hh Hht Hmsg Hu Hut Hmsg'. cbn [for_of]. rewrite run_bind.
  unfold Calendly.lineItemLinks.
  rewrite run_bind. unfold get at 1, lift at 1. rewrite Hpid.
  rewrite run_bind. unfold get at 1, lift at 1.
  rewrite (get_prop_total _ _ _ "quantity" Hpid).
  rewrite run_bind, Hh, Hht.
  rewrite run_bind. unfold get at 1, lift at 1.
  rewrite (get_prop_total _ _ _ "title" Hpid).
  rewrite run_bind. unfold lift at 1. rewrite Hmsg.
  rewrite run_bind. unfold console_log at 1, console_write at 1.
  fold (logged log msg [] w1). rewrite run_bind, Hu, Hut.
  rewrite run_bind. unfold lift at 1. rewrite Hmsg'.
  rewrite run_bind. unfold console_warn at 1, console_write at 1.
  by rewrite run_ret.
Qed.

(** A line item whose product has no event data adds no record, and the loop
    goes on with the items after it. *)
Lemma Metaobject_item_without_event rt lineItem rest eventProducts w
    productId msg eventData w' msg' :
  get_prop lineItem "product_id" = Returned productId →
  template [lit "Processing line item: "; sub (member lineItem "title");
            lit ", Product ID: "; sub productId;
            lit ", Quantity: "; sub (member lineItem "quantity")] = Returned msg →
  Metaobject.getEventDataFromProduct rt productId (logged log msg [] w)
  = (Returned eventData, w') →
  truthy eventData = false →
  template [lit "No event data found for product ID: "; sub productId] = Returned msg' →
  for_of (lineItem :: rest) (Metaobject.lineItemEvents rt) eventProducts w
  = for_of rest (Metaobject.lineItemEvents rt) eventProducts (logged warn msg' [] w').
Proof.
  intros Hpid Hmsg Hd Hf Hmsg'. cbn [for_of]. rewrite run_bind.
  unfold Metaobject.lineItemEvents.
  rewrite run_bind. unfold get at 1, lift at 1. rewrite Hpid.
  rewrite run_bind. unfold get at 1, lift at 1.
  rewrite (get_prop_total _ _ _ "quantity" Hpid).
  rewrite run_bind. unfold get at 1, lift at 1.
  rewrite (get_prop_total _ _ _ "title" Hpid).
  rewrite run_bind. unfold lift at 1. rewrite Hmsg.
  rewrite run_bind. unfold console_log at 1, console_write at 1.
  fold (logged log msg [] w). rewrite run_bind, Hd, Hf.
  rewrite run_bind. unfold lift at 1. rewrite Hmsg'.
  rewrite run_bind. unfold console_warn at 1, console_write at 1.
  by rewrite run_ret.
Qed.

(** An enrichment pass that throws is answered 500, and nothing is sent after
    it. *)
Lemma Calendly_enrichment_throws rt ev w order email firstName lastName w1 e w2 :
  verifyShopifyWebhook rt (header ev "x-shopify-hmac-sha256") (body ev) = Returned true →
  JSON_parse rt (body ev) = Returned order →
  Calendly.customerIdentity order w = (Returned (email, firstName, lastName), w1) →
  Calendly.collectSchedulingLinks rt email firstName lastName order w1 = (Thrown e, w2) →
  Calendly.handler rt ev w = (Returned Internal_Server_Error, reported e w2).
Proof.
  intros Hv Hp Hi Hc. unfold Calendly.handler. cbn zeta.
  rewrite run_try_catch, Hv, lift_bind. cbn [negb]. rewrite Hp, lift_bind.
  by rewrite run_bind, Hi, run_bind, Hc.
Qed.

(** A line item with a handle and an event type, [k] tickets minted, the next
    link refused: the item throws, with the error logged and no link kept. *)
Lemma Calendly_item_link_refused rt email firstName lastName lineItem links w
    productId handle w1 msg uri w2 k n links' w3 m r :
  get_prop lineItem "product_id" = Returned productId →
  Calendly.getCalendlyEventHandle rt productId w = (Returned handle, w1) →
  truthy handle = true →
  template [lit "Product "; sub (member lineItem "title");
            lit " has a Calendly event handle: "; sub handle] = Returned msg →
  Calendly.getCalendlyEventTypeUri rt handle (logged log msg [] w1) = (Returned uri, w2) →
  truthy uri = true →
  loop_bound rt (member lineItem "quantity") = Returned (k + S n)%nat →
  for_range 0 k (Calendly.ticket rt email firstName lastName lineItem uri) links w2
  = (Returned links', w3) →
  axios rt (calls w3)
    (calendly_scheduling_links (Calendly.schedulingLinkRequest email firstName lastName uri))
  = Rejected m r →
  Calendly.lineItemLinks rt email firstName lastName lineItem links w
  = (Thrown (Error "Failed to create Calendly scheduling link"),
     logged error "Error creating scheduling link via Calendly:"
       [error_detail (AxiosError m r)]
       (sent (calendly_scheduling_links
                (Calendly.schedulingLinkRequest email firstName lastName uri)) w3)).
Proof.
  intros Hpid Hh Hht Hmsg Hu Hut Hn Hk Hr. unfold Calendly.lineItemLinks.
  rewrite run_bind. unfold get at 1, lift at 1. rewrite Hpid.
  rewrite run_bind. unfold get at 1, lift at 1.
  rewrite (get_prop_total _ _ _ "quantity" Hpid).
  rewrite run_bind, Hh, Hht.
  rewrite run_bind. unfold get at 1, lift at 1.
  rewrite (get_prop_total _ _ _ "title" Hpid).
  rewrite run_bind. unfold lift at 1. rewrite Hmsg.
  rewrite run_bind. unfold console_log at 1, console_write at 1.
  fold (logged log msg [] w1). rewrite run_bind, Hu, Hut.
  rewrite run_bind. unfold lift at 1. rewrite Hn.
  eapply for_range_abort; [exact Hk|].
  unfold Calendly.ticket. rewrite run_bind.
  by rewrite (createCalendlySchedulingLink_rejected _ _ _ _ _ _ _ _ Hr).
Qed.

(** C2, as the code has it.  The catalog lookup and the event-type lookup
    never throw: a rejected request (for the event-type lookup, either of its
    two) is logged and answered with [null]; a line item whose handle or
    whose event type is missing adds nothing, and the loop goes on with the
    next item.  The creation of a scheduling link is different: a rejected
    request is logged and thrown on as an error, which ends the loops and the
    invocation, with the 500 response and nothing sent after the rejected
    request. *)
Theorem lookup_failures (rt : runtime) :
  (∀ productId eventHandle,
     never_throws (Calendly.getCalendlyEventHandle rt productId) ∧
     never_throws (Calendly.getCalendlyEventTypeUri rt eventHandle) ∧
     never_throws (Metaobject.getEventDataFromProduct rt productId)) ∧
  (∀ productId g w m r,
     gid "Product" productId = Returned g →
     (axios rt (calls w) (shopify_graphql GetProductMetafield (JObj [("productId", g)]))
      = Rejected m r →
      Calendly.getCalendlyEventHandle rt productId w
      = (Returned JNull,
         logged error "Error fetching Calendly event handle from metaobject:"
           [error_detail (AxiosError m r)]
           (sent (shopify_graphql GetProductMetafield (JObj [("productId", g)])) w))) ∧
     (axios rt (calls w) (shopify_graphql GetProductEvent (JObj [("productId", g)]))
      = Rejected m r →
      Metaobject.getEventDataFromProduct rt productId w
      = (Returned JNull,
         logged error "Error fetching event data from product metaobject:"
           [error_detail (AxiosError m r)]
           (sent (shopify_graphql GetProductEvent (JObj [("productId", g)])) w)))) ∧
  (∀ eventHandle w m r,
     axios rt (calls w) calendly_users_me = Rejected m r →
     Calendly.getCalendlyEventTypeUri rt eventHandle w
     = (Returned JNull,
        logged error "Error retrieving Calendly event type URI:"
          [error_detail (AxiosError m r)] (sent calendly_users_me w))) ∧
  (∀ eventHandle w user m r,
     axios rt (calls w) calendly_users_me = Resolved user →
     truthy (member user "resource") = true →
     let query := calendly_event_types (JObj [("user", at_path user ["resource"; "uri"])]) in
     axios rt (calls w ++ [calendly_users_me]) query = Rejected m r →
     Calendly.getCalendlyEventTypeUri rt eventHandle w
     = (Returned JNull,
        logged error "Error retrieving Calendly event type URI:"
          [error_detail (AxiosError m r)] (sent query (sent calendly_users_me w)))) ∧
  (∀ email firstName lastName lineItem rest links w productId handle w',
     get_prop lineItem "product_id" = Returned productId →
     Calendly.getCalendlyEventHandle rt productId w = (Returned handle, w') →
     truthy handle = false →
     for_of (lineItem :: rest) (Calendly.lineItemLinks rt email firstName lastName) links w
     = for_of rest (Calendly.lineItemLinks rt email firstName lastName) links w') ∧
  (∀ email firstName lastName lineItem rest links w productId handle w1 msg uri w2 msg',
     get_prop lineItem "product_id" = Returned productId →
     Calendly.getCalendlyEventHandle rt productId w = (Returned handle, w1) →
     truthy handle = true →
     template [lit "Product "; sub (member lineItem "title");
               lit " has a Calendly event handle: "; sub handle] = Returned msg →
     Calendly.getCalendlyEventTypeUri rt handle (logged log msg [] w1)
     = (Returned uri, w2) →
     truthy uri = false →
     template [lit "No matching event found for handle: "; sub handle] = Returned msg' →
     for_of (lineItem :: rest) (Calendly.lineItemLinks rt email firstName lastName) links w
     = for_of rest (Calendly.lineItemLinks rt email firstName lastName) links
         (logged warn msg' [] w2)) ∧
  (∀ lineItem rest eventProducts w productId msg eventData w' msg',
     get_prop lineItem "product_id" = Returned productId →
     template [lit "Processing line item: "; sub (member lineItem "title");
               lit ", Product ID: "; sub productId;
               lit ", Quantity: "; sub (member lineItem "quantity")] = Returned msg →
     Metaobject.getEventDataFromProduct rt productId (logged log msg [] w)
     = (Returned eventData, w') →
     truthy eventData = false →
     template [lit "No event data found for product ID: "; sub productId] = Returned msg' →
     for_of (lineItem :: rest) (Metaobject.lineItemEvents rt) eventProducts w
     = for_of rest (Metaobject.lineItemEvents rt) eventProducts (logged warn msg' [] w')) ∧
  (∀ email firstName lastName eventTypeUri w m r,
     axios rt (calls w)
       (calendly_scheduling_links
          (Calendly.schedulingLinkRequest email firstName lastName eventTypeUri))
     = Rejected m r →
     Calendly.createCalendlySchedulingLink rt email firstName lastName eventTypeUri w
     = (Thrown (Error "Failed to create Calendly scheduling link"),
        logged error "Error creating scheduling link via Calendly:"
          [error_detail (AxiosError m r)]
          (sent (calendly_scheduling_links
                   (Calendly.schedulingLinkRequest email firstName lastName eventTypeUri))
             w))) ∧
  (∀ ev w order email firstName lastName w1 before lineItem after links w2
     productId handle w3 msg uri w4 k n links' w5 m r,
     verifyShopifyWebhook rt (header ev "x-shopify-hmac-sha256") (body ev) = Returned true →
     JSON_parse rt (body ev) = Returned order →
     Calendly.customerIdentity order w = (Returned (email, firstName, lastName), w1) →
     get_prop order "line_items" = Returned (JArr (before ++ lineItem :: after)) →
     for_of before (Calendly.lineItemLinks rt email firstName lastName) [] w1
     = (Returned links, w2) →
     get_prop lineItem "product_id" = Returned productId →
     Calendly.getCalendlyEventHandle rt productId w2 = (Returned handle, w3) →
     truthy handle = true →
     template [lit "Product "; sub (member lineItem "title");
               lit " has a Calendly event handle: "; sub handle] = Returned msg →
     Calendly.getCalendlyEventTypeUri rt handle (logged log msg [] w3)
     = (Returned uri, w4) →
     truthy uri = true →
     loop_bound rt (member lineItem "quantity") = Returned (k + S n)%nat →
     for_range 0 k (Calendly.ticket rt email firstName lastName lineItem uri) links w4
     = (Returned links', w5) →
     axios rt (calls w5)
       (calendly_scheduling_links
          (Calendly.schedulingLinkRequest email firstName lastName uri))
     = Rejected m r →
     Calendly.handler rt ev w
     = (Returned Internal_Server_Error,
        reported (Error "Failed to create Calendly scheduling link")
          (logged error "Error creating scheduling link via Calendly:"
             [error_detail (AxiosError m r)]
             (sent (calendly_scheduling_links
                      (Calendly.schedulingLinkRequest email firstName lastName uri))
                w5)))).
Proof.
  split; [|split; [|split; [|split; [|split; [|split; [|split; [|split]]]]]]].
  - intros productId eventHandle. split; [|split].
    + apply getCalendlyEventHandle_never_throws.
    + apply getCalendlyEventTypeUri_never_throws.
    + apply getEventDataFromProduct_never_throws.
  - intros productId g w m r Hg. split; intros Hr.
    + by apply getCalendlyEventHandle_rejected.
    + by apply getEventDataFromProduct_rejected.
  - intros. by apply getCalendlyEventTypeUri_rejected.
  - intros. by apply getCalendlyEventTypeUri_list_rejected.
  - intros. by eapply Calendly_item_without_handle.
  - intros. by eapply Calendly_item_without_event_type.
  - intros. by eapply Metaobject_item_without_event.
  - intros. by apply createCalendlySchedulingLink_rejected.
  - intros ev w order email firstName lastName w1 before lineItem after links w2
      productId handle w3 msg uri w4 k n links' w5 m r
      Hv Hp Hi Hitems Hbefore Hpid Hh Hht Hmsg Hu Hut Hn Hk Hr.
    eapply Calendly_enrichment_throws; [exact Hv | exact Hp | exact Hi |].
    unfold Calendly.collectSchedulingLinks.
    rewrite run_bind. unfold get at 1, lift at 1. rewrite Hitems.
    rewrite run_bind. unfold lift at 1. cbn [iterate].
    eapply for_of_abort; [exact Hbefore|].
    by eapply Calendly_item_link_refused.
Qed.

(** C2 as stated fails: with the scheduling service refusing to mint a link,
    order 1001 is answered 500; the refused request is the last one sent, so
    the second line item is never looked up and neither write happens. *)
Lemma refused_link_fails_the_invocation :
  let rt := Shop.runtime_with Shop.link_refused (Resolved Shop.note_written) in
  let run := Calendly.handler rt (Shop.signed "order 1001") Shop.fresh in
  run.1 = Returned Internal_Server_Error ∧
  calls run.2
  = [shopify_graphql GetProductMetafield
       (JObj [("productId", JStr "gid://shopify/Product/7")]);
     calendly_users_me;
     calendly_event_types (JObj [("user", JStr "https://api.calendly.com/users/U1")]);
     calendly_scheduling_links
       (Calendly.schedulingLinkRequest (JStr "ada@example.com") (JStr "") (JStr "")
          (JStr "https://api.calendly.com/event_types/E1"))] ∧
  axios rt (removelast (calls run.2))
    (calendly_scheduling_links
       (Calendly.schedulingLinkRequest (JStr "ada@example.com") (JStr "") (JStr "")
          (JStr "https://api.calendly.com/event_types/E1")))
  = Shop.link_refused ∧
  last_line run.2
  = Some (LogEntry error "Error processing webhook:"
            [JStr "Failed to create Calendly scheduling link"]).
Proof. cbn zeta. repeat split; vm_compute; reflexivity. Qed.

Lemma lookup_failures_witness :
  (∃ w', Calendly.handler (Shop.runtime_with Shop.link_refused (Resolved Shop.note_written))
           (Shop.signed "order 1001") Shop.fresh
         = (Returned Internal_Server_Error, w')) ∧
  let services history req :=
    match req with
    | calendly_event_types _ =>
        Rejected "Request failed with status code 401"
          (Some (JObj [("title", JStr "Unauthenticated")]))
    | _ => axios Shop.healthy history req
    end in
  let rt := with_parser_and_services Shop.healthy (parse_text Shop.healthy) services in
  for_of [Shop.item 7 "Workshop" 2; Shop.item 8 "Mug" 1]
    (Calendly.lineItemLinks rt (JStr "ada@example.com") (JStr "") (JStr "")) [] Shop.fresh
  = (Returned [],
     World
       [shopify_graphql GetProductMetafield
          (JObj [("productId", JStr "gid://shopify/Product/7")]);
        calendly_users_me;
        calendly_event_types (JObj [("user", JStr "https://api.calendly.com/users/U1")]);
        shopify_graphql GetProductMetafield
          (JObj [("productId", JStr "gid://shopify/Product/8")])]
       [LogEntry log "Product Workshop has a Calendly event handle: workshop" [];
        LogEntry error "Error retrieving Calendly event type URI:"
          [JObj [("title", JStr "Unauthenticated")]];
        LogEntry warn "No matching event found for handle: workshop" [];
        LogEntry log "No 'custom.event' metafield found for product 8" []]).
Proof.
  split.
  - destruct (lookup_failures
                (Shop.runtime_with Shop.link_refused (Resolved Shop.note_written)))
      as (_ & _ & _ & _ & _ & _ & _ & _ & H).
    eexists.
    eapply H with (before := []) (k := 0%nat) (n := 1%nat);
      [ vm_compute; reflexivity | reflexivity | vm_compute; reflexivity | reflexivity
      | reflexivity | reflexivity | vm_compute; reflexivity | reflexivity
      | reflexivity | vm_compute; reflexivity | reflexivity | reflexivity
      | reflexivity | reflexivity ].
  - cbn zeta.
    destruct (lookup_failures
                (with_parser_and_services Shop.healthy (parse_text Shop.healthy)
                   (λ history req,
                      match req with
                      | calendly_event_types _ =>
                          Rejected "Request failed with status code 401"
                            (Some (JObj [("title", JStr "Unauthenticated")]))
                      | _ => axios Shop.healthy history req
                      end)))
      as (_ & _ & _ & _ & _ & H & _).
    rewrite (H (JStr "ada@example.com") (JStr "") (JStr "") (Shop.item 7 "Workshop" 2)
               [Shop.item 8 "Mug" 1] [] Shop.fresh (JNum 7) (JStr "workshop")
               (World [shopify_graphql GetProductMetafield
                         (JObj [("productId", JStr "gid://shopify/Product/7")])] [])
               "Product Workshop has a Calendly event handle: workshop" JNull
               (World
                  [shopify_graphql GetProductMetafield
                     (JObj [("productId", JStr "gid://shopify/Product/7")]);
                   calendly_users_me;
                   calendly_event_types
                     (JObj [("user", JStr "https://api.calendly.com/users/U1")])]
                  [LogEntry log "Product Workshop has a Calendly event handle: workshop" [];
                   LogEntry error "Error retrieving Calendly event type URI:"
                     [JObj [("title", JStr "Unauthenticated")]]])
               "No matching event found for handle: workshop");
      [ vm_compute; reflexivity | reflexivity | vm_compute; reflexivity | reflexivity
      | reflexivity | vm_compute; reflexivity | reflexivity | reflexivity ].
Defined.

(** ** The enrichment output (C5) *)

Lemma template_subs parts msg :
  template parts = Returned msg →
  Forall (λ p, match p with
               | sub v => ∃ s, ToString v = Returned s
               | lit _ => True
               end) parts.
Proof.
  revert msg. induction parts as [|[s|v] parts IH]; intros msg H; cbn in H.
  - constructor.
  - destruct (template parts) as [r|e] eqn:E; [|done]. constructor; eauto.
  - destruct (ToString v) as [s|e] eqn:Ev; [|done].
    destruct (template parts) as [r|e] eqn:E; [|done]. constructor; eauto.
Qed.

Lemma loop_bound_printable rt v s :
  ToString v = Returned s → ∃ n, loop_bound rt v = Returned n.
Proof.
  intros Hs. unfold loop_bound, ToNumber.
  destruct v; try rewrite Hs; repeat case_match; eauto.
Qed.

Lemma loop_bound_units rt lineItem s :
  ToString (member lineItem "quantity") = Returned s →
  loop_bound rt (member lineItem "quantity") = Returned (units rt lineItem).
Proof.
  intros Hs. unfold units.
  by destruct (loop_bound_printable rt _ _ Hs) as [n ->].
Qed.

Lemma eventProduct_record eventData lineItem :
  truthy eventData = true →
  Metaobject.eventProduct eventData (member lineItem "title")
  = Returned (event_record eventData lineItem).
Proof.
  intros Ht. unfold Metaobject.eventProduct, event_record.
  by rewrite !(truthy_get_prop _ _ Ht).
Qed.

(** The inner loop of the metaobject handler pushes the same record [n]
    times. *)
Lemma push_event_records lineItem eventData title record n i acc w :
  get_prop lineItem "title" = Returned title →
  Metaobject.eventProduct eventData title = Returned record →
  for_range i n
    (λ _ eventProducts,
       lineItem_title ← get lineItem "title";
       record ← lift (Metaobject.eventProduct eventData lineItem_title);
       mret (eventProducts ++ [record]))
    acc w
  = (Returned (acc ++ replicate n record), w).
Proof.
  intros Ht Hr. revert i acc. induction n as [|n IH]; intros i acc; cbn [for_range replicate].
  - by rewrite app_nil_r.
  - rewrite run_bind. unfold get at 1, lift at 1. rewrite run_bind, Ht.
    unfold lift at 1. rewrite run_bind, Hr, run_ret, IH.
    by rewrite <- app_assoc.
Qed.

(** Two computations that start with the same step agree up to [K] when
    their continuations do. *)
Lemma lockstep {A B C} (m : M A) (f : A → M B) (g : A → M C)
    (K : C → world → outcome B * world) (w : world) :
  (∀ a w1, m w = (Returned a, w1) →
     f a w1 = match g a w1 with
              | (Returned c, w') => K c w'
              | (Thrown e, w') => (Thrown e, w')
              end) →
  (m ≫= f) w = match (m ≫= g) w with
               | (Returned c, w') => K c w'
               | (Thrown e, w') => (Thrown e, w')
               end.
Proof.
  intros H. rewrite !run_bind. destruct (m w) as [[a|e] w1]; [auto | done].
Qed.

Lemma get_returned v k x w w' :
  get v k w = (Returned x, w') → get_prop v k = Returned x ∧ w' = w.
Proof. unfold get, lift. by intros [= -> ->]. Qed.

Lemma lift_returned {A} (o : outcome A) x w w' :
  lift o w = (Returned x, w') → o = Returned x ∧ w' = w.
Proof. unfold lift. by intros [= -> ->]. Qed.

(** One pass of the metaobject handler's loop: the lookup, then the records
    of the line item after the ones already there. *)
Lemma lineItemEvents_lookup rt lineItem acc w :
  Metaobject.lineItemEvents rt lineItem acc w =
  match lookup_event rt lineItem w with
  | (Returned eventData, w') => (Returned (acc ++ event_records rt lineItem eventData), w')
  | (Thrown e, w') => (Thrown e, w')
  end.
Proof.
  unfold Metaobject.lineItemEvents, lookup_event.
  apply lockstep. intros productId w1 [Hpid ->]%get_returned.
  apply lockstep. intros quantity w2 [Hq ->]%get_returned.
  apply lockstep. intros title w3 [Ht ->]%get_returned.
  apply lockstep. intros msg w4 [Hmsg ->]%lift_returned.
  apply lockstep. intros [] w5 _.
  apply lockstep. intros eventData w6 _.
  unfold event_records. destruct (truthy eventData) eqn:Hd.
  - rewrite (get_prop_total _ _ _ "quantity" Hpid) in Hq. injection Hq as <-.
    rewrite (get_prop_total _ _ _ "title" Hpid) in Ht.
    apply template_subs in Hmsg.
    apply Forall_cons in Hmsg as [_ Hmsg]. apply Forall_cons in Hmsg as [_ Hmsg].
    apply Forall_cons in Hmsg as [_ Hmsg]. apply Forall_cons in Hmsg as [_ Hmsg].
    apply Forall_cons in Hmsg as [_ Hmsg]. apply Forall_cons in Hmsg as [[s Hs] _].
    rewrite run_bind. unfold lift at 1. rewrite (loop_bound_units _ _ _ Hs), run_ret.
    cbn beta iota. rewrite Hd. injection Ht as <-.
    eapply push_event_records; [by eapply get_prop_total|].
    by apply eventProduct_record.
  - apply lockstep. intros msg' w7 _. apply lockstep. intros [] w8 _.
    by rewrite !run_ret, Hd, app_nil_r.
Qed.

(** The whole loop of the metaobject handler: the lookups in item order, then
    the records of all items after the ones already there. *)
Lemma events_loop rt items acc w :
  for_of items (Metaobject.lineItemEvents rt) acc w =
  match each (lookup_event rt) items w with
  | (Returned found, w') => (Returned (acc ++ event_products rt items found), w')
  | (Thrown e, w') => (Thrown e, w')
  end.
Proof.
  revert acc w. induction items as [|x rest IH]; intros acc w; cbn [for_of each].
  - by rewrite !run_ret, app_nil_r.
  - rewrite !run_bind, lineItemEvents_lookup.
    destruct (lookup_event rt x w) as [[eventData|e] w1]; [|done].
    rewrite IH, run_bind.
    destruct (each (lookup_event rt) rest w1) as [[found|e] w2]; [|done].
    rewrite run_ret. unfold event_products. cbn [zip_with concat].
    by rewrite app_assoc.
Qed.

Lemma each_length {A} (f : val → M A) items w found w' :
  each f items w = (Returned found, w') → length found = length items.
Proof.
  revert w found w'. induction items as [|x rest IH]; intros w found w'; cbn [each].
  - rewrite run_ret. by intros [= <- _].
  - rewrite run_bind. destruct (f x w) as [[a|e] w1]; [|done].
    rewrite run_bind. destruct (each f rest w1) as [[others|e] w2] eqn:E; [|done].
    rewrite run_ret. intros [= <- _]. cbn. f_equal. by eapply IH.
Qed.

Lemma event_records_length rt lineItem eventData :
  (length (event_records rt lineItem eventData) ≤ units rt lineItem)%nat ∧
  (truthy eventData = true →
   length (event_records rt lineItem eventData) = units rt lineItem) ∧
  (truthy eventData = false → event_records rt lineItem eventData = []).
Proof.
  unfold event_records. destruct (truthy eventData); rewrite ?length_replicate; cbn.
  - by repeat split.
  - repeat split; [lia | done].
Qed.

Lemma event_products_bound rt items found :
  (length (event_products rt items found) ≤ total_units rt items)%nat.
Proof.
  unfold event_products, total_units. revert found.
  induction items as [|x rest IH]; intros [|d found]; cbn; try lia.
  rewrite length_app. specialize (IH found).
  pose proof (event_records_length rt x d) as [H _]. lia.
Qed.

Lemma is_line_item_units rt lineItem :
  is_line_item lineItem → units rt lineItem = Z.to_nat (quantity_of lineItem).
Proof.
  intros (props & p & t & q & -> & _ & _ & Hq).
  unfold units, quantity_of, member. cbn [get_prop]. by rewrite Hq.
Qed.

Lemma total_units_quantities rt items :
  Forall is_line_item items →
  total_units rt items = sum_list ((λ lineItem, Z.to_nat (quantity_of lineItem)) <$> items).
Proof.
  unfold total_units. induction 1 as [|x rest Hx _ IH]; [done|].
  cbn. by rewrite IH, (is_line_item_units rt x Hx).
Qed.

(** On a line item of the payload's shape the lookup of the metaobject
    handler returns. *)
Lemma lookup_event_returns rt lineItem :
  is_line_item lineItem → never_throws (lookup_event rt lineItem).
Proof.
  intros (props & p & t & q & -> & Hp & Ht & Hq) w. unfold lookup_event.
  unfold get, lift. cbn [get_prop]. rewrite !run_bind, Hp, Ht, Hq.
  cbn [default from_option id template ToString mbind outcome_bind]. rewrite run_bind.
  unfold console_log at 1, console_write at 1. rewrite run_bind.
  match goal with |- context [Metaobject.getEventDataFromProduct rt (JNum p) ?w0] =>
    destruct (getEventDataFromProduct_never_throws rt (JNum p) w0) as (d & w1 & ->) end.
  destruct (truthy d); [rewrite run_ret; eauto|].
  rewrite run_bind. unfold console_warn, console_write. rewrite run_bind, run_ret. eauto.
Qed.

Lemma each_returns {A} (f : val → M A) items :
  Forall (λ x, never_throws (f x)) items → never_throws (each f items).
Proof.
  induction 1 as [|x rest Hx _ IH]; intros w; cbn [each].
  - rewrite run_ret. eauto.
  - rewrite run_bind. destruct (Hx w) as (a & w1 & ->).
    rewrite run_bind. destruct (IH w1) as (others & w2 & ->). rewrite run_ret. eauto.
Qed.

(** One ticket of the Calendly handler: the minted link, recorded under the
    title of ticket [i + 1]. *)
Lemma ticket_mint rt email firstName lastName lineItem uri i acc w :
  Calendly.ticket rt email firstName lastName lineItem uri i acc w =
  match mint rt email firstName lastName lineItem uri i w with
  | (Returned link, w') => (Returned (acc ++ [ticket_record lineItem i link]), w')
  | (Thrown e, w') => (Thrown e, w')
  end.
Proof.
  unfold Calendly.ticket, mint.
  apply lockstep. intros link w1 _.
  apply lockstep. intros title w2 [Ht ->]%get_returned.
  apply lockstep. intros t w3 [Htt ->]%lift_returned.
  rewrite !run_ret. unfold ticket_record, ticket_title, member.
  by rewrite Ht, Htt.
Qed.

(** The inner loop of the Calendly handler: the links of the units in unit
    order, recorded under ticket numbers from [i + 1] on. *)
Lemma tickets_minted rt email firstName lastName lineItem uri n i acc w :
  for_range i n (Calendly.ticket rt email firstName lastName lineItem uri) acc w =
  match each_index (mint rt email firstName lastName lineItem uri) i n w with
  | (Returned links, w') =>
      (Returned (acc ++ imap (λ j, ticket_record lineItem (i + j)) links), w')
  | (Thrown e, w') => (Thrown e, w')
  end.
Proof.
  revert i acc w. induction n as [|n IH]; intros i acc w; cbn [for_range each_index].
  - by rewrite !run_ret, app_nil_r.
  - rewrite !run_bind, ticket_mint.
    destruct (mint _ _ _ _ _ _ _ _) as [[link|e] w1]; [|done].
    rewrite IH, run_bind.
    destruct (each_index _ _ _ _) as [[links|e] w2]; [|done].
    rewrite run_ret. cbn [imap]. rewrite Nat.add_0_r, <- app_assoc. cbn [app].
    do 4 f_equal. apply imap_ext. intros j x _. cbn. by rewrite Nat.add_succ_r.
Qed.

Lemma each_index_length {A} (f : nat → M A) n i w found w' :
  each_index f i n w = (Returned found, w') → length found = n.
Proof.
  revert i w found w'. induction n as [|n IH]; intros i w found w'; cbn [each_index].
  - rewrite run_ret. by intros [= <- _].
  - rewrite run_bind. destruct (f i w) as [[a|e] w1]; [|done].
    rewrite run_bind. destruct (each_index f (S i) n w1) as [[others|e] w2] eqn:E; [|done].
    rewrite run_ret. intros [= <- _]. cbn. f_equal. by eapply IH.
Qed.

(** One pass of the Calendly handler's loop: the lookups and the minting,
    then the records of the line item after the ones already there. *)
Lemma lineItemLinks_lookup rt email firstName lastName lineItem acc w :
  Calendly.lineItemLinks rt email firstName lastName lineItem acc w =
  match lookup_links rt email firstName lastName lineItem w with
  | (Returned found, w') => (Returned (acc ++ ticket_records lineItem found), w')
  | (Thrown e, w') => (Thrown e, w')
  end.
Proof.
  unfold Calendly.lineItemLinks, lookup_links.
  apply lockstep. intros productId w1 _.
  apply lockstep. intros quantity w2 _.
  apply lockstep. intros handle w3 _.
  destruct (truthy handle); [|by rewrite !run_ret, app_nil_r].
  apply lockstep. intros title w4 _.
  apply lockstep. intros msg w5 _.
  apply lockstep. intros [] w6 _.
  apply lockstep. intros uri w7 _.
  destruct (truthy uri).
  - apply lockstep. intros n w8 _.
    rewrite tickets_minted, run_bind.
    destruct (each_index _ _ _ _) as [[links|e] w9]; [|done].
    by rewrite run_ret.
  - apply lockstep. intros msg' w8 _. apply lockstep. intros [] w9 _.
    by rewrite !run_ret, app_nil_r.
Qed.

(** The whole loop of the Calendly handler. *)
Lemma links_loop rt email firstName lastName items acc w :
  for_of items (Calendly.lineItemLinks rt email firstName lastName) acc w =
  match each (lookup_links rt email firstName lastName) items w with
  | (Returned found, w') => (Returned (acc ++ scheduling_links items found), w')
  | (Thrown e, w') => (Thrown e, w')
  end.
Proof.
  revert acc w. induction items as [|x rest IH]; intros acc w; cbn [for_of each].
  - by rewrite !run_ret, app_nil_r.
  - rewrite !run_bind, lineItemLinks_lookup.
    destruct (lookup_links _ _ _ _ x w) as [[hit|e] w1]; [|done].
    rewrite IH, run_bind.
    destruct (each _ rest w1) as [[found|e] w2]; [|done].
    rewrite run_ret. unfold scheduling_links. cbn [zip_with concat].
    by rewrite app_assoc.
Qed.

Lemma bind_returned {A B} (m : M A) (f : A → M B) w b w' :
  (m ≫= f) w = (Returned b, w') →
  ∃ a w1, m w = (Returned a, w1) ∧ f a w1 = (Returned b, w').
Proof.
  rewrite run_bind. destruct (m w) as [[a|e] w1]; [eauto | done].
Qed.

Lemma lookup_links_units rt email firstName lastName lineItem w found w' :
  lookup_links rt email firstName lastName lineItem w = (Returned found, w') →
  one_link_per_unit rt lineItem found.
Proof.
  unfold lookup_links. intros H links ->.
  apply bind_returned in H as (productId & w1 & _ & H).
  apply bind_returned in H as (quantity & w2 & [Hq ->]%get_returned & H).
  apply bind_returned in H as (handle & w3 & _ & H).
  destruct (truthy handle); [|by rewrite run_ret in H].
  apply bind_returned in H as (title & w4 & _ & H).
  apply bind_returned in H as (msg & w5 & _ & H).
  apply bind_returned in H as ([] & w6 & _ & H).
  apply bind_returned in H as (uri & w7 & _ & H).
  destruct (truthy uri).
  - apply bind_returned in H as (n & w8 & [Hn ->]%lift_returned & H).
    apply bind_returned in H as (minted & w9 & Hm & H).
    rewrite run_ret in H. injection H as -> ->.
    apply each_index_length in Hm. unfold units, member. by rewrite Hq, Hn.
  - apply bind_returned in H as (msg' & w8 & _ & H).
    apply bind_returned in H as ([] & w9 & _ & H).
    by rewrite run_ret in H.
Qed.

Lemma each_lookup_links_units rt email firstName lastName items w found w' :
  each (lookup_links rt email firstName lastName) items w = (Returned found, w') →
  Forall2 (one_link_per_unit rt) items found.
Proof.
  revert w found w'. induction items as [|x rest IH]; intros w found w'; cbn [each].
  - rewrite run_ret. intros [= <- _]. constructor.
  - intros H. apply bind_returned in H as (hit & w1 & Hhit & H).
    apply bind_returned in H as (others & w2 & Hothers & H).
    rewrite run_ret in H. injection H as <- <-. constructor.
    + by eapply lookup_links_units.
    + by eapply IH.
Qed.

Lemma scheduling_links_bound rt items found :
  Forall2 (one_link_per_unit rt) items found →
  (length (scheduling_links items found) ≤ total_units rt items)%nat.
Proof.
  unfold scheduling_links, total_units. induction 1 as [|x hit rest found Hx _ IH]; cbn.
  - lia.
  - rewrite length_app. destruct hit as [links|]; cbn.
    + rewrite length_imap, (Hx links eq_refl). lia.
    + lia.
Qed.

(** C5.  The enrichment output is the concatenation, in the order of the
    line items, of each item's records: for a hit one record per purchased
    unit in unit order (in the Calendly handler titled by ticket number, from
    1), for a miss none.  So there are at most as many records as purchased
    units in total, and a hit of two units followed by a miss of one gives
    the two records of the hit.  The pass throws exactly when a lookup
    throws, which on line items of the payload's shape the lookups of the
    metaobject handler never do. *)
Theorem enrichment_output (rt : runtime) (order : val) (items : list val) (w : world)
    (email firstName lastName : val) :
  get_prop order "line_items" = Returned (JArr items) →
  match each (lookup_event rt) items w with
  | (Returned found, w') =>
      Metaobject.collectEventProducts rt order w
      = (Returned (event_products rt items found), w') ∧
      length found = length items ∧
      (length (event_products rt items found) ≤ total_units rt items)%nat
  | (Thrown e, w') => Metaobject.collectEventProducts rt order w = (Thrown e, w')
  end ∧
  match each (lookup_links rt email firstName lastName) items w with
  | (Returned found, w') =>
      Calendly.collectSchedulingLinks rt email firstName lastName order w
      = (Returned (scheduling_links items found), w') ∧
      Forall2 (one_link_per_unit rt) items found ∧
      (length (scheduling_links items found) ≤ total_units rt items)%nat
  | (Thrown e, w') =>
      Calendly.collectSchedulingLinks rt email firstName lastName order w = (Thrown e, w')
  end ∧
  (Forall is_line_item items →
   (∃ found w', each (lookup_event rt) items w = (Returned found, w')) ∧
   Forall (λ lineItem, units rt lineItem = Z.to_nat (quantity_of lineItem)) items ∧
   total_units rt items = sum_list ((λ lineItem, Z.to_nat (quantity_of lineItem)) <$> items)) ∧
  (∀ a b hit miss,
     units rt a = 2%nat → truthy hit = true → truthy miss = false →
     event_products rt [a; b] [hit; miss] = [event_record hit a; event_record hit a]) ∧
  (∀ a b link1 link2,
     scheduling_links [a; b] [Some [link1; link2]; None]
     = [ticket_record a 0 link1; ticket_record a 1 link2]) ∧
  (∀ props title i,
     assoc "title" props = Some (JStr title) →
     ticket_title (JObj props) i
     = title +:+ " (Ticket " +:+ pretty (Z.of_nat i + 1) +:+ ")").
Proof.
  intros Hitems.
  assert (HM : Metaobject.collectEventProducts rt order w
               = for_of items (Metaobject.lineItemEvents rt) [] w).
  { unfold Metaobject.collectEventProducts.
    rewrite run_bind. unfold get at 1, lift at 1. rewrite Hitems.
    rewrite run_bind. unfold lift at 1. reflexivity. }
  assert (HC : Calendly.collectSchedulingLinks rt email firstName lastName order w
               = for_of items (Calendly.lineItemLinks rt email firstName lastName) [] w).
  { unfold Calendly.collectSchedulingLinks.
    rewrite run_bind. unfold get at 1, lift at 1. rewrite Hitems.
    rewrite run_bind. unfold lift at 1. reflexivity. }
  rewrite HM, HC, events_loop, links_loop.
  split; [|split; [|split; [|split; [|split]]]].
  - destruct (each (lookup_event rt) items w) as [[found|e] w'] eqn:E; [|done].
    split; [done|]. split; [by eapply each_length | apply event_products_bound].
  - destruct (each (lookup_links rt email firstName lastName) items w)
      as [[found|e] w'] eqn:E; [|done].
    pose proof (each_lookup_links_units _ _ _ _ _ _ _ _ E) as Hu.
    split; [done|]. split; [done | by apply scheduling_links_bound].
  - intros Hwf. split; [|split].
    + apply each_returns. eapply Forall_impl; [exact Hwf|].
      intros x Hx. by apply lookup_event_returns.
    + eapply Forall_impl; [exact Hwf|]. intros x Hx. by apply is_line_item_units.
    + by apply total_units_quantities.
  - intros a b hit miss Ha Hhit Hmiss. unfold event_products, event_records.
    cbn [zip_with concat]. by rewrite Ha, Hhit, Hmiss.
  - reflexivity.
  - intros props title i Ht. unfold ticket_title, member. cbn [get_prop].
    rewrite Ht. reflexivity.
Qed.

Lemma enrichment_output_witness :
  let workshop := Shop.item 7 "Workshop" 2 in
  let event := JObj [("title", JStr "Workshop"); ("address", JStr "1 Main St")] in
  let link := JStr "https://calendly.com/d/abc" in
  (∃ w', Metaobject.collectEventProducts Shop.healthy Shop.order_1001 Shop.fresh
         = (Returned [event_record event workshop; event_record event workshop], w')) ∧
  (∃ w', Calendly.collectSchedulingLinks Shop.healthy
           (JStr "ada@example.com") (JStr "") (JStr "") Shop.order_1001 Shop.fresh
         = (Returned [ticket_record workshop 0 link; ticket_record workshop 1 link], w')).
Proof.
  cbn zeta.
  destruct (enrichment_output Shop.healthy Shop.order_1001 _ Shop.fresh
              (JStr "ada@example.com") (JStr "") (JStr "") eq_refl) as (HM & HC & _).
  split.
  - remember (each (lookup_event Shop.healthy) _ Shop.fresh) as r eqn:E in HM.
    vm_compute in E. subst r. destruct HM as [-> _]. eexists. vm_compute. reflexivity.
  - remember (each (lookup_links Shop.healthy _ _ _) _ Shop.fresh) as r eqn:E in HC.
    vm_compute in E. subst r. destruct HC as [-> _]. eexists. vm_compute. reflexivity.
Defined.

(** * The helpers on their own

    What each helper returns, sends and logs, answer by answer. *)

(** ** How much a computation sends *)

Lemma sends_at_most_quiet {A} n P (m : M A) : quiet m → sends_at_most n P m.
Proof. intros Hq w. exists []. rewrite Hq, app_nil_r. repeat split; [cbn; lia | done]. Qed.

Lemma sends_at_most_ret {A} n P (a : A) : sends_at_most n P (mret a).
Proof. by apply sends_at_most_quiet. Qed.

Lemma sends_at_most_fetch n (P : request → Prop) rt req :
  P req → sends_at_most (S n) P (fetch rt req).
Proof.
  intros HP w. exists [req]. unfold fetch.
  destruct (axios rt (calls w) req); cbn; repeat split; auto; lia.
Qed.

Lemma sends_at_most_bind {A B} n k P (m : M A) (f : A → M B) :
  sends_at_most n P m → (∀ a, sends_at_most k P (f a)) →
  sends_at_most (n + k) P (m ≫= f).
Proof.
  intros Hm Hf w. rewrite run_bind. destruct (Hm w) as (n1 & E1 & L1 & F1).
  destruct (m w) as [[a|e] w1]; cbn in *.
  - destruct (Hf a w1) as (n2 & E2 & L2 & F2). exists (n1 ++ n2).
    rewrite E2, E1, app_assoc, length_app. repeat split; [lia | by apply Forall_app].
  - exists n1. repeat split; [done | lia | done].
Qed.

Lemma sends_at_most_try_catch {A} n k P (m : M A) (h : exn → M A) :
  sends_at_most n P m → (∀ e, sends_at_most k P (h e)) →
  sends_at_most (n + k) P (try_catch m h).
Proof.
  intros Hm Hh w. rewrite run_try_catch. destruct (Hm w) as (n1 & E1 & L1 & F1).
  destruct (m w) as [[a|e] w1]; cbn in *.
  - exists n1. repeat split; [done | lia | done].
  - destruct (Hh e w1) as (n2 & E2 & L2 & F2). exists (n1 ++ n2).
    rewrite E2, E1, app_assoc, length_app. repeat split; [lia | by apply Forall_app].
Qed.

(** Proves that a computation without a request sends nothing. *)
Ltac quiet_all := apply sends_nothing_quiet; sends_all; fail.

(** Counts the requests along the binds: a step that sends nothing, or a
    request and what follows it. *)
Ltac count_step :=
  first
    [ apply sends_at_most_ret
    | apply sends_at_most_quiet; quiet_all
    | apply sends_at_most_fetch; solve [done | by eexists]
    | apply (sends_at_most_bind 0); [apply sends_at_most_quiet; quiet_all | intros]
    | apply (sends_at_most_bind 1 _ _ (fetch _ _));
        [apply (sends_at_most_fetch 0); solve [done | by eexists] | intros]
    | match goal with
      | |- sends_at_most _ _ (if ?b then _ else _) => destruct b
      | |- sends_at_most _ _ (match ?x with _ => _ end) => destruct x
      end ].

(** ** The catalog lookups *)

(** X1.  The catalog lookup of either handler, when the Admin API answers
    without a metaobject.  An answer that carries GraphQL errors gives [null]
    with the errors logged; an answer whose product has no [custom.event]
    metafield, or a metafield without a reference, gives [null] with a log line
    that names the product; an answer whose product is [null] makes the read of
    its metafield throw, which the lookup catches: [null] again, with the
    message of the error logged.  In each case the one query is all that was
    sent. *)
Theorem catalog_lookup_misses (rt : runtime) (productId g data : val) (w : world) :
  gid "Product" productId = Returned g →
  (axios rt (calls w) (shopify_graphql GetProductMetafield (JObj [("productId", g)]))
   = Resolved data →
   let w1 := sent (shopify_graphql GetProductMetafield (JObj [("productId", g)])) w in
   (truthy (member data "errors") = true →
    Calendly.getCalendlyEventHandle rt productId w
    = (Returned JNull, logged error "GraphQL errors:" [member data "errors"] w1)) ∧
   (truthy (member data "errors") = false →
    truthy (at_path data ["data"; "product"]) = true →
    truthy (guarded (at_path data ["data"; "product"; "metafield"]) "reference") = false →
    ∀ msg,
      template [lit "No 'custom.event' metafield found for product "; sub productId]
      = Returned msg →
      Calendly.getCalendlyEventHandle rt productId w
      = (Returned JNull, logged log msg [] w1)) ∧
   (truthy (member data "errors") = false →
    truthy (member data "data") = true →
    at_path data ["data"; "product"] = JNull →
    Calendly.getCalendlyEventHandle rt productId w
    = (Returned JNull,
       logged error "Error fetching Calendly event handle from metaobject:"
         [JStr "Cannot read properties of null"] w1))) ∧
  (axios rt (calls w) (shopify_graphql GetProductEvent (JObj [("productId", g)]))
   = Resolved data →
   let w1 := sent (shopify_graphql GetProductEvent (JObj [("productId", g)])) w in
   (truthy (member data "errors") = true →
    Metaobject.getEventDataFromProduct rt productId w
    = (Returned JNull, logged error "GraphQL errors:" [member data "errors"] w1)) ∧
   (truthy (member data "errors") = false →
    truthy (at_path data ["data"; "product"]) = true →
    truthy (guarded (at_path data ["data"; "product"; "metafield"]) "reference") = false →
    ∀ msg,
      template [lit "No 'custom.event' metafield found for product "; sub productId]
      = Returned msg →
      Metaobject.getEventDataFromProduct rt productId w
      = (Returned JNull, logged log msg [] w1)) ∧
   (truthy (member data "errors") = false →
    truthy (member data "data") = true →
    at_path data ["data"; "product"] = JNull →
    Metaobject.getEventDataFromProduct rt productId w
    = (Returned JNull,
       logged error "Error fetching event data from product metaobject:"
         [JStr "Cannot read properties of null"] w1))).
Proof.
  intros Hg. split; intros Hr; cbn zeta; (split; [|split]).
  - intros He. unfold Calendly.getCalendlyEventHandle.
    rewrite swallowed, run_bind. unfold lift at 1. rewrite Hg. cbn zeta.
    rewrite run_bind. unfold fetch at 1. rewrite Hr.
    read (truthy_get_prop _ "errors" (truthy_member _ _ He)). by rewrite He.
  - intros He Hp Hm msg Hmsg. unfold Calendly.getCalendlyEventHandle.
    rewrite swallowed, run_bind. unfold lift at 1. rewrite Hg. cbn zeta.
    rewrite run_bind. unfold fetch at 1. rewrite Hr.
    apply truthy_at_path in Hp as [H1 Hp]. apply truthy_at_path in Hp as [H2 Hp].
    cbn [at_path foldl] in *.
    read (get_prop_total _ _ _ "errors" H1). rewrite He.
    read H1. read H2. read (truthy_get_prop _ "metafield" Hp).
    rewrite run_bind, and_then_guarded, Hm. cbn [negb].
    rewrite run_bind. unfold lift at 1. by rewrite Hmsg.
  - intros He Hd Hp. unfold Calendly.getCalendlyEventHandle.
    rewrite swallowed, run_bind. unfold lift at 1. rewrite Hg. cbn zeta.
    rewrite run_bind. unfold fetch at 1. rewrite Hr.
    cbn [at_path foldl] in *.
    pose proof (truthy_get_prop _ "data" (truthy_member _ _ Hd)) as H1.
    read (get_prop_total _ _ _ "errors" H1). rewrite He.
    read H1. read (truthy_get_prop _ "product" Hd). by rewrite Hp.
  - intros He. unfold Metaobject.getEventDataFromProduct.
    rewrite swallowed, run_bind. unfold lift at 1. rewrite Hg. cbn zeta.
    rewrite run_bind. unfold fetch at 1. rewrite Hr.
    read (truthy_get_prop _ "errors" (truthy_member _ _ He)). by rewrite He.
  - intros He Hp Hm msg Hmsg. unfold Metaobject.getEventDataFromProduct.
    rewrite swallowed, run_bind. unfold lift at 1. rewrite Hg. cbn zeta.
    rewrite run_bind. unfold fetch at 1. rewrite Hr.
    apply truthy_at_path in Hp as [H1 Hp]. apply truthy_at_path in Hp as [H2 Hp].
    cbn [at_path foldl] in *.
    read (get_prop_total _ _ _ "errors" H1). rewrite He.
    read H1. read H2. read (truthy_get_prop _ "metafield" Hp).
    rewrite run_bind, and_then_guarded, Hm. cbn [negb].
    rewrite run_bind. unfold lift at 1. by rewrite Hmsg.
  - intros He Hd Hp. unfold Metaobject.getEventDataFromProduct.
    rewrite swallowed, run_bind. unfold lift at 1. rewrite Hg. cbn zeta.
    rewrite run_bind. unfold fetch at 1. rewrite Hr.
    cbn [at_path foldl] in *.
    pose proof (truthy_get_prop _ "data" (truthy_member _ _ Hd)) as H1.
    read (get_prop_total _ _ _ "errors" H1). rewrite He.
    read H1. read (truthy_get_prop _ "product" Hd). by rewrite Hp.
Qed.

Lemma catalog_lookup_misses_witness :
  Calendly.getCalendlyEventHandle Shop.healthy (JNum 8) Shop.fresh
  = (Returned JNull,
     World [shopify_graphql GetProductMetafield
              (JObj [("productId", JStr "gid://shopify/Product/8")])]
           [LogEntry log "No 'custom.event' metafield found for product 8" []]) ∧
  Metaobject.getEventDataFromProduct Shop.healthy (JNum 8) Shop.fresh
  = (Returned JNull,
     World [shopify_graphql GetProductEvent
              (JObj [("productId", JStr "gid://shopify/Product/8")])]
           [LogEntry log "No 'custom.event' metafield found for product 8" []]).
Proof.
  destruct (catalog_lookup_misses Shop.healthy (JNum 8) (JStr "gid://shopify/Product/8")
              Shop.no_metafield Shop.fresh eq_refl) as [HC HM].
  split.
  - destruct (HC eq_refl) as (_ & H & _).
    exact (H eq_refl eq_refl eq_refl _ eq_refl).
  - destruct (HM eq_refl) as (_ & H & _).
    exact (H eq_refl eq_refl eq_refl _ eq_refl).
Defined.

(** X2.  The catalog lookup of the Calendly handler, when the Admin API
    answers with the fields of a metaobject: it returns the value of the first
    field whose key is [calendly_event_url_handle], [null] when no field has
    that key, having sent the one query and logged nothing. *)
Theorem handle_of_metaobject (rt : runtime) (productId g data : val)
    (fields : list val) (w : world) :
  gid "Product" productId = Returned g →
  axios rt (calls w) (shopify_graphql GetProductMetafield (JObj [("productId", g)]))
  = Resolved data →
  truthy (member data "errors") = false →
  at_path data ["data"; "product"; "metafield"; "reference"; "fields"] = JArr fields →
  Forall is_object fields →
  Calendly.getCalendlyEventHandle rt productId w
  = (Returned (field_value "calendly_event_url_handle" fields),
     sent (shopify_graphql GetProductMetafield (JObj [("productId", g)])) w).
Proof.
  intros Hg Hr He Hf Hobj. unfold Calendly.getCalendlyEventHandle.
  rewrite swallowed, run_bind. unfold lift at 1. rewrite Hg. cbn zeta.
  rewrite run_bind. unfold fetch at 1. rewrite Hr.
  destruct (metaobject_reads data fields Hf) as (H0 & H1 & H2 & H3 & Hm & Href & H4 & H5).
  cbn [at_path foldl] in *.
  read H0. rewrite He. read H1. read H2. read H3.
  rewrite run_bind, and_then_guarded. unfold guarded. rewrite Hm, Href. cbn [negb].
  read H4. read H5.
  rewrite run_bind. unfold lift at 1. cbn [Array_find].
  rewrite (find_by_key "key" _ fields Hobj).
  unfold field_value.
  destruct (list_find _ fields) as [[i field]|] eqn:E; [|reflexivity].
  apply list_find_Some in E as (Hi & _ & _).
  by apply (Forall_lookup_1 _ _ _ _ Hobj) in Hi as [props ->].
Qed.

Lemma handle_of_metaobject_witness :
  Calendly.getCalendlyEventHandle Shop.healthy (JNum 7) Shop.fresh
  = (Returned (JStr "workshop"),
     World [shopify_graphql GetProductMetafield
              (JObj [("productId", JStr "gid://shopify/Product/7")])] []).
Proof.
  apply (handle_of_metaobject Shop.healthy (JNum 7) (JStr "gid://shopify/Product/7")
           (Shop.metaobject [("calendly_event_url_handle", "workshop")])
           [JObj [("key", JStr "calendly_event_url_handle"); ("value", JStr "workshop")]]
           Shop.fresh); try reflexivity.
  repeat constructor. by eexists.
Defined.

(** ** The event-type lookup *)

(** X3.  The event-type lookup, when both calls are answered: it asks for the
    caller's identity, then for the event types of that identity (the URI of
    the first answer is the [user] parameter of the second call), and returns
    the URI of the first event type whose slug is exactly the handle, [null]
    when there is none.  Nothing is logged. *)
Theorem event_type_of_handle (rt : runtime) (eventHandle user events : val)
    (collection : list val) (w : world) :
  axios rt (calls w) calendly_users_me = Resolved user →
  truthy (member user "resource") = true →
  let query := calendly_event_types (JObj [("user", at_path user ["resource"; "uri"])]) in
  axios rt (calls w ++ [calendly_users_me]) query = Resolved events →
  member events "collection" = JArr collection →
  Forall is_object collection →
  Calendly.getCalendlyEventTypeUri rt eventHandle w
  = (Returned (event_type_uri eventHandle collection), sent query (sent calendly_users_me w)).
Proof.
  intros Hu Hres query He Hc Hobj. unfold Calendly.getCalendlyEventTypeUri.
  rewrite swallowed, run_bind. unfold fetch at 1. rewrite Hu.
  read (truthy_get_prop _ "resource" (truthy_member _ _ Hres)).
  read (truthy_get_prop _ "uri" Hres).
  rewrite run_bind. unfold fetch at 1. cbn [calls console]. subst query. cbn [at_path foldl] in *.
  rewrite He.
  assert (Hev : truthy events = true).
  { apply (truthy_member _ "collection"). by rewrite Hc. }
  read (truthy_get_prop _ "collection" Hev). rewrite Hc.
  rewrite run_bind. unfold lift at 1. cbn [Array_find].
  rewrite (find_by_key "slug" _ collection Hobj).
  unfold event_type_uri.
  destruct (list_find _ collection) as [[i event]|] eqn:E; [|reflexivity].
  apply list_find_Some in E as (Hi & _ & _).
  by apply (Forall_lookup_1 _ _ _ _ Hobj) in Hi as [props ->].
Qed.

Lemma event_type_of_handle_witness :
  Calendly.getCalendlyEventTypeUri Shop.healthy (JStr "workshop") Shop.fresh
  = (Returned (JStr "https://api.calendly.com/event_types/E1"),
     World [calendly_users_me;
            calendly_event_types (JObj [("user", JStr "https://api.calendly.com/users/U1")])]
           []) ∧
  Calendly.getCalendlyEventTypeUri Shop.healthy (JStr "Workshop") Shop.fresh
  = (Returned JNull,
     World [calendly_users_me;
            calendly_event_types (JObj [("user", JStr "https://api.calendly.com/users/U1")])]
           []).
Proof.
  pose (user := JObj [("resource", JObj [("uri", JStr "https://api.calendly.com/users/U1")])]).
  pose (event := JObj [("slug", JStr "workshop");
                       ("uri", JStr "https://api.calendly.com/event_types/E1")]).
  assert (Hobj : Forall is_object [event]) by (repeat constructor; by eexists).
  split.
  - exact (event_type_of_handle Shop.healthy (JStr "workshop") user
             (JObj [("collection", JArr [event])]) [event] Shop.fresh
             eq_refl eq_refl eq_refl eq_refl Hobj).
  - exact (event_type_of_handle Shop.healthy (JStr "Workshop") user
             (JObj [("collection", JArr [event])]) [event] Shop.fresh
             eq_refl eq_refl eq_refl eq_refl Hobj).
Defined.

(** X4.  The event-type lookup, when an answer is not what it expects.  An
    identity without a [resource], a refused list of event types, and a list
    answer without an array [collection] are all caught: the lookup returns
    [null] with one error line, and the list is not asked for when the
    identity could not be read. *)
Theorem event_type_lookup_misses (rt : runtime) (eventHandle user : val) (w : world) :
  axios rt (calls w) calendly_users_me = Resolved user →
  let w1 := sent calendly_users_me w in
  (truthy user = true →
   member user "resource" = JUndefined ∨ member user "resource" = JNull →
   ∃ detail,
     Calendly.getCalendlyEventTypeUri rt eventHandle w
     = (Returned JNull,
        logged error "Error retrieving Calendly event type URI:" [detail] w1)) ∧
  (truthy (member user "resource") = true →
   let query := calendly_event_types (JObj [("user", at_path user ["resource"; "uri"])]) in
   (∀ m r,
      axios rt (calls w1) query = Rejected m r →
      Calendly.getCalendlyEventTypeUri rt eventHandle w
      = (Returned JNull,
         logged error "Error retrieving Calendly event type URI:"
           [error_detail (AxiosError m r)] (sent query w1))) ∧
   (∀ events collection,
      axios rt (calls w1) query = Resolved events →
      truthy events = true →
      member events "collection" = collection →
      (∀ items, collection ≠ JArr items) →
      ∃ detail,
        Calendly.getCalendlyEventTypeUri rt eventHandle w
        = (Returned JNull,
           logged error "Error retrieving Calendly event type URI:" [detail]
             (sent query w1)))).
Proof.
  intros Hu. cbn zeta. split.
  - intros Ht Hres. unfold Calendly.getCalendlyEventTypeUri.
    rewrite swallowed, run_bind. unfold fetch at 1. rewrite Hu.
    read (truthy_get_prop _ "resource" Ht).
    rewrite run_bind. unfold get at 1, lift at 1.
    destruct Hres as [-> | ->]; cbn; eauto.
  - intros Hres. split.
    + intros m r Hr. unfold Calendly.getCalendlyEventTypeUri.
      rewrite swallowed, run_bind. unfold fetch at 1. rewrite Hu.
      read (truthy_get_prop _ "resource" (truthy_member _ _ Hres)).
      read (truthy_get_prop _ "uri" Hres).
      rewrite run_bind. unfold fetch at 1. cbn [calls console sent at_path foldl] in *.
      by rewrite Hr.
    + intros events collection Hr Hev Hc Hnot. unfold Calendly.getCalendlyEventTypeUri.
      rewrite swallowed, run_bind. unfold fetch at 1. rewrite Hu.
      read (truthy_get_prop _ "resource" (truthy_member _ _ Hres)).
      read (truthy_get_prop _ "uri" Hres).
      rewrite run_bind. unfold fetch at 1. cbn [calls console sent at_path foldl] in *.
      rewrite Hr. read (truthy_get_prop _ "collection" Hev). rewrite Hc.
      rewrite run_bind. unfold lift at 1.
      destruct collection as [| |b|n|s|items|props]; cbn; eauto.
      by destruct (Hnot items).
Qed.

Lemma event_type_lookup_misses_witness :
  let services history req :=
    match req with
    | calendly_event_types _ =>
        Rejected "Request failed with status code 401"
          (Some (JObj [("title", JStr "Unauthenticated")]))
    | _ => axios Shop.healthy history req
    end in
  let rt := with_parser_and_services Shop.healthy (parse_text Shop.healthy) services in
  Calendly.getCalendlyEventTypeUri rt (JStr "workshop") Shop.fresh
  = (Returned JNull,
     World [calendly_users_me;
            calendly_event_types (JObj [("user", JStr "https://api.calendly.com/users/U1")])]
       [LogEntry error "Error retrieving Calendly event type URI:"
          [JObj [("title", JStr "Unauthenticated")]]]).
Proof.
  cbn zeta.
  edestruct (event_type_lookup_misses
               (with_parser_and_services Shop.healthy (parse_text Shop.healthy)
                  (λ history req,
                     match req with
                     | calendly_event_types _ =>
                         Rejected "Request failed with status code 401"
                           (Some (JObj [("title", JStr "Unauthenticated")]))
                     | _ => axios Shop.healthy history req
                     end))
               (JStr "workshop") _ Shop.fresh eq_refl) as [_ H].
  destruct H as [H _]; [reflexivity|].
  exact (H _ _ eq_refl).
Defined.

(** ** The creation of a scheduling link *)

(** The helper sends its one request, however it ends. *)
Lemma scheduling_link_sent rt email firstName lastName eventTypeUri w :
  calls (Calendly.createCalendlySchedulingLink rt email firstName lastName eventTypeUri w).2
  = calls w ++ [calendly_scheduling_links
                  (Calendly.schedulingLinkRequest email firstName lastName eventTypeUri)].
Proof.
  unfold Calendly.createCalendlySchedulingLink.
  rewrite rethrown, run_bind. unfold fetch at 1.
  destruct (axios rt (calls w) _) as [data|m r]; [|done].
  rewrite run_bind. unfold get at 1, lift at 1.
  destruct (get_prop data "resource") as [resource|e]; [|done].
  rewrite run_bind. unfold get at 1, lift at 1.
  by destruct (get_prop resource "booking_url") as [url|e].
Qed.

(** X5.  The creation of a scheduling link always sends exactly one request:
    a single-use link ([max_event_count] 1) owned by the event type, for the
    invitee it was given.  When it returns, the link is the [booking_url] of
    the answer and is logged; when it throws, the error is the helper's own,
    whatever went wrong, and the cause is on the console. *)
Theorem scheduling_link_creation (rt : runtime)
    (email firstName lastName eventTypeUri : val) (w : world) :
  let document := Calendly.schedulingLinkRequest email firstName lastName eventTypeUri in
  let run := Calendly.createCalendlySchedulingLink rt email firstName lastName eventTypeUri w in
  calls run.2 = calls w ++ [calendly_scheduling_links document] ∧
  at_path document ["max_event_count"] = JNum 1 ∧
  at_path document ["owner"] = eventTypeUri ∧
  at_path document ["owner_type"] = JStr "EventType" ∧
  at_path document ["invitee"; "email"] = email ∧
  at_path document ["invitee"; "first_name"] = firstName ∧
  at_path document ["invitee"; "last_name"] = lastName ∧
  match run.1 with
  | Returned schedulingLink =>
      ∃ data,
        axios rt (calls w) (calendly_scheduling_links document) = Resolved data ∧
        schedulingLink = at_path data ["resource"; "booking_url"] ∧
        run.2 = logged log "Created Calendly scheduling link:" [schedulingLink]
                  (sent (calendly_scheduling_links document) w)
  | Thrown e =>
      e = Error "Failed to create Calendly scheduling link" ∧
      ∃ detail,
        run.2 = logged error "Error creating scheduling link via Calendly:" [detail]
                  (sent (calendly_scheduling_links document) w)
  end.
Proof.
  cbn zeta. repeat (split; [|try reflexivity]); try reflexivity.
  - apply scheduling_link_sent.
  - destruct (Calendly.createCalendlySchedulingLink _ _ _ _ _ _) as [[link|e] w'] eqn:E;
      unfold Calendly.createCalendlySchedulingLink in E;
      rewrite rethrown, run_bind in E; unfold fetch at 1 in E; cbn [fst snd].
    + destruct (axios rt (calls w) _) as [data|m r]; [|done].
      rewrite run_bind in E. unfold get at 1, lift at 1 in E.
      destruct (get_prop data "resource") as [resource|e] eqn:H1; [|done].
      rewrite run_bind in E. unfold get at 1, lift at 1 in E.
      destruct (get_prop resource "booking_url") as [url|e] eqn:H2; [|done].
      cbn in E. injection E as <- <-. exists data. split; [done|]. split; [|done].
      cbn [at_path foldl]. unfold member. by rewrite H1, H2.
    + destruct (axios rt (calls w) _) as [data|m r].
      * rewrite run_bind in E. unfold get at 1, lift at 1 in E.
        destruct (get_prop data "resource") as [resource|e'] eqn:H1.
        -- rewrite run_bind in E. unfold get at 1, lift at 1 in E.
           destruct (get_prop resource "booking_url") as [url|e'] eqn:H2; [done|].
           injection E as <- <-. eauto.
        -- injection E as <- <-. eauto.
      * injection E as <- <-. eauto.
Qed.

(** ** The trackers *)

(** X6.  The tracker of the Calendly handler.  Without an e-mail it sends
    nothing, and (when the order time converts) warns and returns.  With an
    e-mail it logs the payload and posts it once: the customer properties are
    the identity fields that have a value, the time is the order time in whole
    seconds ([null] for an invalid date); an accepted event is logged, a
    refused one is logged and thrown on as the tracker's own error. *)
Theorem Calendly_tracked_event (rt : runtime) (email firstName lastName : val)
    (schedulingLinks : list val) (orderId orderTime : val) (w : world) :
  let track :=
    Calendly.trackKlaviyoEvent rt email firstName lastName schedulingLinks orderId orderTime in
  (truthy email = false → quiet track) ∧
  (∀ ms, Date_getTime rt orderTime = Returned ms →
     (truthy email = false → track w = (Returned (), tracking_skipped w)) ∧
     (truthy email = true →
        let payload :=
          Calendly.klaviyoPayload (customer_properties email firstName lastName)
            schedulingLinks orderId (Calendly.epochSeconds ms) in
        let w1 := sent (klaviyo_events payload) (logged log "Klaviyo event payload:" [payload] w) in
        (∀ data, axios rt (calls w) (klaviyo_events payload) = Resolved data →
           track w
           = (Returned (), logged log "Tracked Klaviyo event: Order Contains Event." [] w1)) ∧
        (∀ m r, axios rt (calls w) (klaviyo_events payload) = Rejected m r →
           track w
           = (Thrown (Error "Failed to track Klaviyo event"),
              logged error "Error tracking Klaviyo event:" [error_detail (AxiosError m r)] w1)))) ∧
  (∀ t, Calendly.epochSeconds (Some t) = JNum (t / 1000)) ∧
  Calendly.epochSeconds None = JNull.
Proof.
  cbn zeta. split; [|split; [|done]].
  - intros He. apply sends_nothing_quiet. unfold Calendly.trackKlaviyoEvent.
    rewrite He. cbn [negb]. sends_all.
  - intros ms Hms. split.
    + intros He. unfold Calendly.trackKlaviyoEvent.
      rewrite rethrown, run_bind. unfold lift at 1. rewrite Hms, He. reflexivity.
    + intros He.
      assert (Hprops :
        (let customerProperties := [] in
         let customerProperties :=
           if truthy email then set_prop "$email" email customerProperties
           else customerProperties in
         let customerProperties :=
           if truthy firstName then set_prop "$first_name" firstName customerProperties
           else customerProperties in
         if truthy lastName then set_prop "$last_name" lastName customerProperties
         else customerProperties)
        = customer_properties email firstName lastName).
      { unfold customer_properties.
        by destruct (truthy email), (truthy firstName), (truthy lastName). }
      cbn zeta in Hprops.
      split.
      * intros data Hr. unfold Calendly.trackKlaviyoEvent.
        rewrite rethrown, run_bind. unfold lift at 1. rewrite Hms. cbn zeta.
        rewrite Hprops, He. cbn [negb].
        rewrite run_bind. unfold console_log at 1, console_write at 1.
        rewrite run_bind. unfold fetch at 1. cbn [calls]. rewrite Hr. reflexivity.
      * intros m r Hr. unfold Calendly.trackKlaviyoEvent.
        rewrite rethrown, run_bind. unfold lift at 1. rewrite Hms. cbn zeta.
        rewrite Hprops, He. cbn [negb].
        rewrite run_bind. unfold console_log at 1, console_write at 1.
        rewrite run_bind. unfold fetch at 1. cbn [calls]. rewrite Hr. reflexivity.
Qed.

Lemma Calendly_tracked_event_witness :
  let links := [JObj [("title", JStr "Workshop (Ticket 1)");
                      ("link", JStr "https://calendly.com/d/abc")]] in
  let payload :=
    Calendly.klaviyoPayload [("$email", JStr "ada@example.com")] links (JNum 1001)
      (JNum 1700000000) in
  Calendly.trackKlaviyoEvent Shop.healthy (JStr "ada@example.com") (JStr "") (JStr "")
    links (JNum 1001) (JStr "2023-11-14T22:13:20Z") Shop.fresh
  = (Returned (),
     World [klaviyo_events payload]
       [LogEntry log "Klaviyo event payload:" [payload];
        LogEntry log "Tracked Klaviyo event: Order Contains Event." []]) ∧
  Calendly.trackKlaviyoEvent Shop.healthy (JStr "") (JStr "Ada") (JStr "")
    links (JNum 1001) (JStr "2023-11-14T22:13:20Z") Shop.fresh
  = (Returned (), tracking_skipped Shop.fresh).
Proof.
  cbn zeta. split.
  - destruct (Calendly_tracked_event Shop.healthy (JStr "ada@example.com") (JStr "") (JStr "")
                [JObj [("title", JStr "Workshop (Ticket 1)");
                       ("link", JStr "https://calendly.com/d/abc")]]
                (JNum 1001) (JStr "2023-11-14T22:13:20Z") Shop.fresh) as (_ & H & _).
    destruct (H _ eq_refl) as [_ H'].
    destruct (H' eq_refl) as [Hok _].
    exact (Hok (JObj []) eq_refl).
  - destruct (Calendly_tracked_event Shop.healthy (JStr "") (JStr "Ada") (JStr "")
                [JObj [("title", JStr "Workshop (Ticket 1)");
                       ("link", JStr "https://calendly.com/d/abc")]]
                (JNum 1001) (JStr "2023-11-14T22:13:20Z") Shop.fresh) as (_ & H & _).
    destruct (H _ eq_refl) as [H' _].
    exact (H' eq_refl).
Defined.

(** X7.  The tracker of the metaobject handler.  With a valid order time it
    logs the payload and posts it once: the metric is [Event Product
    Purchased], the properties are the event products and the order id, the
    time is the ISO string of the order time.  With an invalid order time
    the conversion throws, so the tracker fails before it has logged or sent
    anything. *)
Theorem Metaobject_tracked_event (rt : runtime) (nonPiiId : string)
    (eventProducts : list val) (orderId orderTime : val) (w : world) :
  let track := Metaobject.trackKlaviyoEvent rt nonPiiId eventProducts orderId orderTime in
  (∀ t, Date_getTime rt orderTime = Returned (Some t) →
     let payload :=
       Metaobject.klaviyoPayload eventProducts orderId (Date_toISOString rt t) in
     let w1 :=
       sent (klaviyo_events payload) (logged log "Sending payload to Klaviyo:" [payload] w) in
     at_path payload ["data"; "attributes"; "metric"; "data"; "attributes"; "name"]
     = JStr "Event Product Purchased" ∧
     at_path payload ["data"; "attributes"; "properties"; "event_products"]
     = JArr eventProducts ∧
     at_path payload ["data"; "attributes"; "properties"; "order_id"] = orderId ∧
     at_path payload ["data"; "attributes"; "time"] = JStr (Date_toISOString rt t) ∧
     (∀ data, axios rt (calls w) (klaviyo_events payload) = Resolved data →
        track w
        = (Returned (),
           logged log "Tracked Klaviyo event for event products purchased." [] w1)) ∧
     (∀ m r, axios rt (calls w) (klaviyo_events payload) = Rejected m r →
        track w
        = (Thrown (Error "Failed to track Klaviyo event"),
           logged error "Error tracking Klaviyo event:" [error_detail (AxiosError m r)] w1))) ∧
  (Date_getTime rt orderTime = Returned None →
     track w
     = (Thrown (Error "Failed to track Klaviyo event"),
        logged error "Error tracking Klaviyo event:" [JStr "Invalid time value"] w)).
Proof.
  cbn zeta. split.
  - intros t Ht. repeat (split; [reflexivity|]). split.
    + intros data Hr. unfold Metaobject.trackKlaviyoEvent.
      rewrite rethrown, run_bind. unfold lift at 1. rewrite Ht.
      rewrite run_bind, run_ret. cbn zeta.
      rewrite run_bind. unfold console_log at 1, console_write at 1.
      rewrite run_bind. unfold fetch at 1. cbn [calls]. rewrite Hr. reflexivity.
    + intros m r Hr. unfold Metaobject.trackKlaviyoEvent.
      rewrite rethrown, run_bind. unfold lift at 1. rewrite Ht.
      rewrite run_bind, run_ret. cbn zeta.
      rewrite run_bind. unfold console_log at 1, console_write at 1.
      rewrite run_bind. unfold fetch at 1. cbn [calls]. rewrite Hr. reflexivity.
  - intros Ht. unfold Metaobject.trackKlaviyoEvent.
    rewrite rethrown, run_bind. unfold lift at 1. rewrite Ht. reflexivity.
Qed.

Lemma Metaobject_tracked_event_witness :
  let payload :=
    Metaobject.klaviyoPayload [event_record (JObj [("title", JStr "Workshop")])
                                 (Shop.item 7 "Workshop" 1)]
      (JNum 1001) "2023-11-14T22:13:20.123Z" in
  Metaobject.trackKlaviyoEvent Shop.healthy "order_1001"
    [event_record (JObj [("title", JStr "Workshop")]) (Shop.item 7 "Workshop" 1)]
    (JNum 1001) (JStr "2023-11-14T22:13:20Z") Shop.fresh
  = (Returned (),
     World [klaviyo_events payload]
       [LogEntry log "Sending payload to Klaviyo:" [payload];
        LogEntry log "Tracked Klaviyo event for event products purchased." []]) ∧
  Metaobject.trackKlaviyoEvent Shop.healthy "order_1001"
    [event_record (JObj [("title", JStr "Workshop")]) (Shop.item 7 "Workshop" 1)]
    (JNum 1001) JUndefined Shop.fresh
  = (Thrown (Error "Failed to track Klaviyo event"),
     World [] [LogEntry error "Error tracking Klaviyo event:" [JStr "Invalid time value"]]).
Proof.
  cbn zeta. split.
  - destruct (Metaobject_tracked_event Shop.healthy "order_1001"
                [event_record (JObj [("title", JStr "Workshop")]) (Shop.item 7 "Workshop" 1)]
                (JNum 1001) (JStr "2023-11-14T22:13:20Z") Shop.fresh) as [H _].
    destruct (H _ eq_refl) as (_ & _ & _ & _ & Hok & _).
    exact (Hok (JObj []) eq_refl).
  - destruct (Metaobject_tracked_event Shop.healthy "order_1001"
                [event_record (JObj [("title", JStr "Workshop")]) (Shop.item 7 "Workshop" 1)]
                (JNum 1001) JUndefined Shop.fresh) as [_ H].
    exact (H eq_refl).
Defined.

(** ** The annotators *)

(** What the annotators do with an answer that has no GraphQL errors and an
    empty array of user errors. *)
Lemma mutation_accepted rt data (done : string) w :
  truthy (member data "errors") = false →
  at_path data ["data"; "orderUpdate"; "userErrors"] = JArr [] →
  (errors ← get data "errors";
   if truthy errors then
     console_error "GraphQL errors:" [errors];;
     throw (Error "Failed to add note to Shopify order")
   else
     data_data ← get data "data";
     orderUpdate ← get data_data "orderUpdate";
     userErrors ← get orderUpdate "userErrors";
     len ← get userErrors "length";
     positive ← lift (greater_than_zero rt len);
     if positive : bool then
       console_error "User errors:" [userErrors];;
       throw (Error "Failed to add note to Shopify order")
     else
       console_log done []) w
  = (Returned (), logged log done [] w).
Proof.
  intros He Hu.
  assert (Ht : truthy (at_path data ["data"; "orderUpdate"; "userErrors"]) = true)
    by (by rewrite Hu).
  apply truthy_at_path in Ht as [H1 Ht]. apply truthy_at_path in Ht as [H2 Ht].
  apply truthy_at_path in Ht as [H3 _]. cbn [at_path foldl] in *.
  read (get_prop_total _ _ _ "errors" H1). rewrite He.
  read H1. read H2. read H3. rewrite Hu.
  rewrite run_bind. unfold get at 1, lift at 1. cbn [get_prop String.eqb].
  reflexivity.
Qed.

(** And with an answer that has no GraphQL errors and no array of user
    errors either. *)
Lemma mutation_malformed rt data (done : string) w :
  truthy (member data "errors") = false →
  at_path data ["data"; "orderUpdate"; "userErrors"] = JUndefined ∨
  at_path data ["data"; "orderUpdate"; "userErrors"] = JNull →
  ∃ e,
    (errors ← get data "errors";
     if truthy errors then
       console_error "GraphQL errors:" [errors];;
       throw (Error "Failed to add note to Shopify order")
     else
       data_data ← get data "data";
       orderUpdate ← get data_data "orderUpdate";
       userErrors ← get orderUpdate "userErrors";
       len ← get userErrors "length";
       positive ← lift (greater_than_zero rt len);
       if positive : bool then
         console_error "User errors:" [userErrors];;
         throw (Error "Failed to add note to Shopify order")
       else
         console_log done []) w
    = (Thrown e, w).
Proof.
  intros He Hu. cbn [at_path foldl] in *.
  rewrite run_bind. unfold get at 1, lift at 1.
  destruct (get_prop data "errors") as [errors|e] eqn:H0; [|eauto].
  assert (errors = member data "errors") as -> by (unfold member; by rewrite H0).
  rewrite He.
  rewrite run_bind. unfold get at 1, lift at 1.
  rewrite (get_prop_total _ _ _ "data" H0).
  rewrite run_bind. unfold get at 1, lift at 1.
  destruct (get_prop (member data "data") "orderUpdate") as [ou|e] eqn:H1; [|eauto].
  assert (ou = member (member data "data") "orderUpdate") as ->
    by (unfold member at 1; by rewrite H1).
  rewrite run_bind. unfold get at 1, lift at 1.
  destruct (get_prop (member (member data "data") "orderUpdate") "userErrors")
    as [ue|e] eqn:H2; [|eauto].
  assert (ue = member (member (member data "data") "orderUpdate") "userErrors") as ->
    by (unfold member at 1; by rewrite H2).
  rewrite run_bind. unfold get at 1, lift at 1.
  destruct Hu as [-> | ->]; cbn [get_prop]; eauto.
Qed.

(** X9.  The annotator of the Calendly handler sends one mutation, for the
    order with the global id of [orderId]; the note is the heading [Scheduling
    Links:] and one line [title: link] per link, in order, and depends on
    nothing else.  An answer without errors and with an empty array of user
    errors is a success; an answer without errors and without an array of user
    errors is a failure, thrown as the annotator's own error. *)
Theorem Calendly_note_written (rt : runtime) (orderId : val) (id : string)
    (links : list (string * val)) (w : world) :
  ToString orderId = Returned id →
  Forall (λ entry, printable entry.2) links →
  let request := order_note_mutation id (scheduling_note links) in
  let annotate := Calendly.addNoteToShopifyOrder rt orderId (link_record <$> links) in
  calls (annotate w).2 = calls w ++ [request] ∧
  (∀ data,
     axios rt (calls w) request = Resolved data →
     truthy (member data "errors") = false →
     (at_path data ["data"; "orderUpdate"; "userErrors"] = JArr [] →
      annotate w
      = (Returned (),
         logged log "Added multiple scheduling links to Shopify order notes." []
           (sent request w))) ∧
     (at_path data ["data"; "orderUpdate"; "userErrors"] = JUndefined ∨
      at_path data ["data"; "orderUpdate"; "userErrors"] = JNull →
      ∃ detail,
        annotate w
        = (Thrown (Error "Failed to add note to Shopify order"),
           logged error "Error adding note to Shopify order:" [detail] (sent request w)))).
Proof.
  intros Hid Hlinks. cbn zeta.
  assert (Hlines :
    traverse Calendly.noteLine (link_record <$> links)
    = Returned ((λ entry, entry.1 +:+ ": " +:+ shown entry.2) <$> links)).
  { induction Hlinks as [|entry rest He _ IH]; [done|].
    rewrite !fmap_cons. cbn [traverse].
    by rewrite (noteLine_link_record _ He), IH. }
  assert (Hrun : ∀ K : val → M (),
    (lines ← lift (traverse Calendly.noteLine (link_record <$> links));
     let notes := String.concat LF lines in
     orderGid ← lift (gid "Order" orderId);
     let variables :=
       JObj [("input", JObj [("id", orderGid);
                             ("note", JStr ("Scheduling Links:" +:+ LF +:+ notes))])] in
     data ← fetch rt (shopify_graphql UpdateOrder variables);
     K data) w
    = (data ← fetch rt (order_note_mutation id (scheduling_note links)); K data) w).
  { intros K. rewrite run_bind. unfold lift at 1. rewrite Hlines. cbn zeta.
    rewrite run_bind. unfold lift at 1. by rewrite (gid_printed _ _ _ Hid). }
  unfold Calendly.addNoteToShopifyOrder. split.
  - rewrite rethrown, Hrun, run_bind. unfold fetch at 1.
    destruct (axios rt (calls w) _) as [data|m r]; [|done].
    match goal with |- context [match ?m ?w0 with _ => _ end] =>
      pose proof (sends_nothing_quiet m) as Hq; destruct (m w0) as [[[]|e] w1] eqn:E end.
    all: cbn [snd calls logged].
    all: assert (calls w1 = calls w ++ [order_note_mutation id (scheduling_note links)]) as ->;
      [|done].
    all: match type of E with ?m ?w0 = _ =>
      assert (Hs : quiet m) by (apply Hq; sends_all) end.
    all: specialize (Hs (World (calls w ++ [order_note_mutation id (scheduling_note links)])
                           (console w))).
    all: by rewrite E in Hs.
  - intros data Hr He. split.
    + intros Hu. rewrite rethrown, Hrun, run_bind. unfold fetch at 1. rewrite Hr.
      by rewrite (mutation_accepted rt data _ _ He Hu).
    + intros Hu. rewrite rethrown, Hrun, run_bind. unfold fetch at 1. rewrite Hr.
      destruct (mutation_malformed rt data
                  "Added multiple scheduling links to Shopify order notes."
                  (World (calls w ++ [order_note_mutation id (scheduling_note links)])
                     (console w)) He Hu) as [e ->].
      eauto.
Qed.

Lemma Calendly_note_written_witness :
  let links := [("Workshop (Ticket 1)", JStr "https://calendly.com/d/abc");
                ("Workshop (Ticket 2)", JUndefined)] in
  let note := "Scheduling Links:" +:+ LF +:+
              "Workshop (Ticket 1): https://calendly.com/d/abc" +:+ LF +:+
              "Workshop (Ticket 2): undefined" in
  Calendly.addNoteToShopifyOrder Shop.healthy (JNum 1002) (link_record <$> links) Shop.fresh
  = (Returned (),
     World [order_note_mutation "1002" note]
       [LogEntry log "Added multiple scheduling links to Shopify order notes." []]) ∧
  ∃ detail,
    Calendly.addNoteToShopifyOrder
      (Shop.runtime_with Shop.link_minted
         (Resolved (JObj [("data", JObj [("orderUpdate", JNull)])])))
      (JNum 1002) (link_record <$> links) Shop.fresh
    = (Thrown (Error "Failed to add note to Shopify order"),
       World [order_note_mutation "1002" note]
         [LogEntry error "Error adding note to Shopify order:" [detail]]).
Proof.
  cbn zeta.
  assert (Hp : Forall (λ entry : string * val, printable entry.2)
                 [("Workshop (Ticket 1)", JStr "https://calendly.com/d/abc");
                  ("Workshop (Ticket 2)", JUndefined)])
    by (repeat constructor; by eexists).
  split.
  - destruct (Calendly_note_written Shop.healthy (JNum 1002) "1002" _ Shop.fresh
                eq_refl Hp) as [_ H].
    destruct (H _ eq_refl eq_refl) as [Hok _]. exact (Hok eq_refl).
  - destruct (Calendly_note_written
                (Shop.runtime_with Shop.link_minted
                   (Resolved (JObj [("data", JObj [("orderUpdate", JNull)])])))
                (JNum 1002) "1002" _ Shop.fresh eq_refl Hp) as [_ H].
    destruct (H _ eq_refl eq_refl) as [_ Hbad]. exact (Hbad (or_introl eq_refl)).
Defined.

(** X10.  The annotator of the metaobject handler logs the note and sends one
    mutation; the note is the heading [Event Details:], a blank line, and one
    stanza of seven lines per event product, numbered from 1 and separated by
    blank lines, a field the product does not have printed as [undefined].
    Success and failure are decided as in the Calendly handler. *)
Theorem Metaobject_note_written (rt : runtime) (orderId : val) (id : string)
    (eventProducts : list val) (w : world) :
  ToString orderId = Returned id →
  Forall printable_event eventProducts →
  let request := order_note_mutation id (event_note eventProducts) in
  let annotate := Metaobject.addNoteToShopifyOrder rt orderId eventProducts in
  let w1 :=
    sent request
      (logged log ("Adding note to Shopify order " +:+ id +:+ ":" +:+ LF +:+
                   event_stanzas eventProducts) [] w) in
  calls (annotate w).2 = calls w ++ [request] ∧
  (∀ data,
     axios rt (calls w) request = Resolved data →
     truthy (member data "errors") = false →
     (at_path data ["data"; "orderUpdate"; "userErrors"] = JArr [] →
      annotate w
      = (Returned (), logged log "Added event details to Shopify order notes." [] w1)) ∧
     (at_path data ["data"; "orderUpdate"; "userErrors"] = JUndefined ∨
      at_path data ["data"; "orderUpdate"; "userErrors"] = JNull →
      ∃ detail,
        annotate w
        = (Thrown (Error "Failed to add note to Shopify order"),
           logged error "Error adding note to Shopify order:" [detail] w1))).
Proof.
  intros Hid Hp. cbn zeta.
  assert (Hrun : ∀ K : val → M (),
    (stanzas ← lift (traverse Metaobject.stanza
                       (zip (seq 0 (length eventProducts)) eventProducts));
     let notes := String.concat (LF +:+ LF) stanzas in
     msg ← lift (template [lit "Adding note to Shopify order "; sub orderId;
                           lit ":"; lit LF; lit notes]);
     console_log msg [];;
     orderGid ← lift (gid "Order" orderId);
     let variables :=
       JObj [("input", JObj [("id", orderGid);
                             ("note", JStr ("Event Details:" +:+ LF +:+ LF +:+ notes))])] in
     data ← fetch rt (shopify_graphql UpdateOrder variables);
     K data) w
    = (data ← fetch rt (order_note_mutation id (event_note eventProducts)); K data)
        (logged log ("Adding note to Shopify order " +:+ id +:+ ":" +:+ LF +:+
                     event_stanzas eventProducts) [] w)).
  { intros K. rewrite run_bind. unfold lift at 1.
    rewrite (stanzas_printable _ 0%nat Hp). cbn zeta.
    rewrite run_bind. unfold lift at 1. cbn [template]. rewrite Hid.
    cbn [mbind outcome_bind]. rewrite append_empty_r.
    rewrite run_bind. unfold console_log at 1, console_write at 1.
    rewrite run_bind. unfold lift at 1. by rewrite (gid_printed _ _ _ Hid). }
  unfold Metaobject.addNoteToShopifyOrder. split.
  - rewrite rethrown, Hrun, run_bind. unfold fetch at 1.
    destruct (axios rt _ _) as [data|m r]; [|done].
    match goal with |- context [match ?m ?w0 with _ => _ end] =>
      pose proof (sends_nothing_quiet m) as Hq; destruct (m w0) as [[[]|e] w1] eqn:E end.
    all: cbn [snd calls logged].
    all: assert (calls w1 = calls w ++ [order_note_mutation id (event_note eventProducts)])
      as ->; [|done].
    all: match type of E with ?m ?w0 = _ =>
      assert (Hs : quiet m) by (apply Hq; sends_all);
      specialize (Hs w0) end.
    all: by rewrite E in Hs.
  - intros data Hr He. split.
    + intros Hu. rewrite rethrown, Hrun, run_bind. unfold fetch at 1.
      cbn [calls logged]. rewrite Hr.
      by rewrite (mutation_accepted rt data _ _ He Hu).
    + intros Hu. rewrite rethrown, Hrun, run_bind. unfold fetch at 1.
      cbn [calls logged]. rewrite Hr.
      match goal with |- context [match ?m ?w0 with _ => _ end] =>
        destruct (mutation_malformed rt data
                    "Added event details to Shopify order notes." w0 He Hu) as [e ->] end.
      eauto.
Qed.

Lemma Metaobject_note_written_witness :
  let ep := event_record (JObj [("title", JStr "Workshop"); ("address", JStr "1 Main St")])
              (Shop.item 7 "Workshop" 2) in
  let stanza n :=
    "Event " +:+ n +:+ ": Workshop" +:+ LF +:+
    "Address: 1 Main St" +:+ LF +:+
    "Start: undefined" +:+ LF +:+
    "End: undefined" +:+ LF +:+
    "Refund Policy: undefined" +:+ LF +:+
    "Map Embed: undefined" +:+ LF +:+
    "Calendar Embed: undefined" in
  let stanzas := stanza "1" +:+ LF +:+ LF +:+ stanza "2" in
  Metaobject.addNoteToShopifyOrder Shop.healthy (JNum 1001) [ep; ep] Shop.fresh
  = (Returned (),
     World [order_note_mutation "1001" ("Event Details:" +:+ LF +:+ LF +:+ stanzas)]
       [LogEntry log ("Adding note to Shopify order 1001:" +:+ LF +:+ stanzas) [];
        LogEntry log "Added event details to Shopify order notes." []]).
Proof.
  cbn zeta.
  pose (ep := event_record (JObj [("title", JStr "Workshop"); ("address", JStr "1 Main St")])
                (Shop.item 7 "Workshop" 2)).
  assert (Hp : Forall printable_event [ep; ep]).
  { repeat constructor; by eexists. }
  destruct (Metaobject_note_written Shop.healthy (JNum 1001) "1001" [ep; ep] Shop.fresh
              eq_refl Hp) as [_ H].
  destruct (H _ eq_refl eq_refl) as [Hok _]. exact (Hok eq_refl).
Defined.

(** ** The event data of a product *)

Lemma assoc_set_prop_eq k v props : assoc k (set_prop k v props) = Some v.
Proof.
  induction props as [|[k' v'] props IH]; cbn.
  - by rewrite String.eqb_refl.
  - destruct (String.eqb k k') eqn:E; cbn; rewrite ?String.eqb_refl, ?E; done.
Qed.

Lemma assoc_set_prop_ne k k' v props :
  k ≠ k' → assoc k' (set_prop k v props) = assoc k' props.
Proof.
  intros Hne. induction props as [|[k0 v0] props IH]; cbn.
  - assert (String.eqb k' k = false) as -> by (apply String.eqb_neq; congruence).
    done.
  - destruct (String.eqb k k0) eqn:E; cbn.
    + apply String.eqb_eq in E as <-.
      assert (String.eqb k' k = false) as -> by (apply String.eqb_neq; congruence).
      done.
    + by rewrite IH.
Qed.

Lemma set_prop_keys k v props x :
  x ∈ (set_prop k v props).*1 → x = k ∨ x ∈ props.*1.
Proof.
  induction props as [|[k' v'] props IH]; cbn.
  - intros [->|[]%elem_of_nil]%elem_of_cons. by left.
  - destruct (String.eqb k k') eqn:E; cbn.
    + intros [->|Hin]%elem_of_cons; [by left|]. right. by apply list_elem_of_further.
    + intros [->|Hin]%elem_of_cons; [right; by apply list_elem_of_here|].
      destruct (IH Hin) as [->|Hin']; [by left|]. right. by apply list_elem_of_further.
Qed.

Lemma set_prop_NoDup k v props : NoDup props.*1 → NoDup (set_prop k v props).*1.
Proof.
  induction props as [|[k' v'] props IH]; cbn; intros Hnd.
  - repeat constructor. by intros ?%elem_of_nil.
  - apply NoDup_cons in Hnd as [Hk' Hnd].
    destruct (String.eqb k k') eqn:E; cbn.
    + apply String.eqb_eq in E as ->. by constructor.
    + constructor; [|by apply IH].
      intros [->|Hin]%set_prop_keys; [|done].
      by rewrite String.eqb_refl in E.
Qed.

(** The seven keys and the seven names correspond one to one. *)
Lemma eventKeys_one_to_one k n k' n' :
  (k, n) ∈ Metaobject.eventKeys → (k', n') ∈ Metaobject.eventKeys →
  (k = k' ↔ n = n').
Proof.
  unfold Metaobject.eventKeys. intros H H'.
  repeat (apply elem_of_cons in H as [H|H]; [injection H as -> ->|]);
    [..|by apply elem_of_nil in H];
    (repeat (apply elem_of_cons in H' as [H'|H']; [injection H' as -> ->|]);
     [..|by apply elem_of_nil in H']); by split.
Qed.

(** One field of a metaobject: an accumulator with distinct names keeps
    them distinct, gains at most one of the seven names, and has the value of
    the field under the name of its key. *)
Lemma eventField_step props acc :
  ∃ acc',
    Metaobject.eventField (JObj props) acc = Returned acc' ∧
    (NoDup acc.*1 → NoDup acc'.*1) ∧
    (∀ x, x ∈ acc'.*1 → x ∈ acc.*1 ∨ x ∈ Metaobject.eventKeys.*2) ∧
    (∀ key name, (key, name) ∈ Metaobject.eventKeys →
       default JUndefined (assoc name acc')
       = if strict_equal (member (JObj props) "key") (JStr key)
         then member (JObj props) "value"
         else default JUndefined (assoc name acc)).
Proof.
  unfold Metaobject.eventField.
  change (get_prop (JObj props) "key") with (Returned (member (JObj props) "key")).
  change (get_prop (JObj props) "value") with (Returned (member (JObj props) "value")).
  cbn [mbind outcome_bind].
  set (value := member (JObj props) "value").
  destruct (member (JObj props) "key") as [| |b|n|s|items|fields].
  1-4,6-7: (exists acc; split; [reflexivity|]; split; [done|]; split; [by left|];
            intros key name _; reflexivity).
  unfold strict_equal.
  destruct (list_find _ Metaobject.eventKeys) as [[i [k n]]|] eqn:E.
  - apply list_find_Some in E as (Hi & Hk & _). cbn [fst] in Hk.
    apply String.eqb_eq in Hk as <-. apply list_elem_of_lookup_2 in Hi.
    exists (set_prop n value acc). split; [reflexivity|].
    split; [apply set_prop_NoDup|]. split.
    + intros x [->|Hx]%set_prop_keys; [right|by left].
      apply list_elem_of_fmap. by exists (s, n).
    + intros key name Hin. destruct (String.eqb s key) eqn:Ek.
      * apply String.eqb_eq in Ek as <-.
        pose proof (proj1 (eventKeys_one_to_one _ _ _ _ Hi Hin) eq_refl) as <-.
        by rewrite assoc_set_prop_eq.
      * rewrite assoc_set_prop_ne; [done|]. intros <-.
        pose proof (proj2 (eventKeys_one_to_one _ _ _ _ Hi Hin) eq_refl) as <-.
        by rewrite String.eqb_refl in Ek.
  - exists acc. split; [reflexivity|]. split; [done|]. split; [by left|].
    intros key name Hin. destruct (String.eqb s key) eqn:Ek; [|done].
    apply String.eqb_eq in Ek as <-.
    apply list_find_None in E. rewrite Forall_forall in E.
    specialize (E _ Hin). cbn in E. by rewrite String.eqb_refl in E.
Qed.

Lemma last_field_value_snoc key pre field :
  last_field_value key (pre ++ [field])
  = if strict_equal (member field "key") (JStr key) then member field "value"
    else last_field_value key pre.
Proof.
  unfold last_field_value. rewrite reverse_snoc. cbn [list_find].
  destruct (strict_equal (member field "key") (JStr key)) eqn:E.
  - rewrite decide_True; done.
  - rewrite decide_False by congruence.
    by destruct (list_find _ (reverse pre)) as [[i x]|].
Qed.

(** The loop over the fields of a metaobject: it reads nothing but the
    fields, keeps the names it writes distinct and among the seven, and under
    each name leaves the value of the last field with the name's key. *)
Lemma eventData_loop fields :
  Forall is_object fields → ∀ pre acc w,
  ∃ acc',
    for_of fields (λ field eventData, lift (Metaobject.eventField field eventData)) acc w
    = (Returned acc', w) ∧
    (NoDup acc.*1 → NoDup acc'.*1) ∧
    (∀ x, x ∈ acc'.*1 → x ∈ acc.*1 ∨ x ∈ Metaobject.eventKeys.*2) ∧
    (∀ key name, (key, name) ∈ Metaobject.eventKeys →
       default JUndefined (assoc name acc) = last_field_value key pre →
       default JUndefined (assoc name acc') = last_field_value key (pre ++ fields)).
Proof.
  induction 1 as [|field rest [props ->] _ IH]; intros pre acc w.
  - exists acc. rewrite app_nil_r. repeat split; auto.
  - destruct (eventField_step props acc) as (acc1 & Hstep & Hnd & Hkeys & Hval).
    destruct (IH (pre ++ [JObj props]) acc1 w) as (acc' & Hloop & Hnd' & Hkeys' & Hval').
    exists acc'. cbn [for_of]. rewrite run_bind. unfold lift at 1. rewrite Hstep.
    split; [exact Hloop|]. split; [auto|]. split.
    + intros x Hx. destruct (Hkeys' x Hx) as [Hx1|]; auto.
    + intros key name Hin Hpre.
      replace (pre ++ JObj props :: rest) with ((pre ++ [JObj props]) ++ rest)
        by (by rewrite <- app_assoc).
      apply Hval'; [done|].
      by rewrite last_field_value_snoc, (Hval key name Hin), Hpre.
Qed.

Lemma eventField_keys field acc acc' :
  Metaobject.eventField field acc = Returned acc' →
  (NoDup acc.*1 → NoDup acc'.*1) ∧
  (∀ x, x ∈ acc'.*1 → x ∈ acc.*1 ∨ x ∈ Metaobject.eventKeys.*2).
Proof.
  destruct field as [| |b|n|s|items|props]; try done.
  1-4: (intros [= <-]; split; [done | by left]).
  destruct (eventField_step props acc) as (acc1 & -> & Hnd & Hkeys & _).
  by intros [= <-].
Qed.

Lemma eventData_loop_keys fields acc w acc' w' :
  for_of fields (λ field eventData, lift (Metaobject.eventField field eventData)) acc w
  = (Returned acc', w') →
  (NoDup acc.*1 → NoDup acc'.*1) ∧
  (∀ x, x ∈ acc'.*1 → x ∈ acc.*1 ∨ x ∈ Metaobject.eventKeys.*2).
Proof.
  revert acc w. induction fields as [|field rest IH]; intros acc w; cbn [for_of].
  - rewrite run_ret. intros [= <- _]. split; [done | by left].
  - intros (acc1 & w1 & [Hstep _]%lift_returned & Hrest)%bind_returned.
    destruct (eventField_keys _ _ _ Hstep) as [Hnd Hkeys].
    destruct (IH _ _ Hrest) as [Hnd' Hkeys'].
    split; [auto|]. intros x Hx. destruct (Hkeys' x Hx); auto.
Qed.

(** X11.  Whatever the Admin API answers, the event data of a product is
    [null] or an object whose property names are distinct and among the seven
    the handler keeps; the lookup never throws. *)
Theorem event_data_shape (rt : runtime) (productId : val) (w : world) :
  match (Metaobject.getEventDataFromProduct rt productId w).1 with
  | Returned (JObj eventData) =>
      NoDup eventData.*1 ∧ ∀ name, name ∈ eventData.*1 → name ∈ Metaobject.eventKeys.*2
  | Returned eventData => eventData = JNull
  | Thrown _ => False
  end.
Proof.
  unfold Metaobject.getEventDataFromProduct. rewrite swallowed.
  match goal with |- context [match ?m w with _ => _ end] =>
    destruct (m w) as [[a|e] w1] eqn:H end; [|done].
  cbn [fst].
  apply bind_returned in H as (g & w2 & _ & H). cbn zeta in H.
  apply bind_returned in H as (data & w3 & _ & H).
  apply bind_returned in H as (errors & w4 & _ & H).
  destruct (truthy errors).
  { apply bind_returned in H as ([] & w5 & _ & H). rewrite run_ret in H. by injection H as <-. }
  apply bind_returned in H as (dd & w5 & _ & H).
  apply bind_returned in H as (product & w6 & _ & H).
  apply bind_returned in H as (metafield & w7 & _ & H).
  apply bind_returned in H as (reference & w8 & _ & H).
  destruct (negb (truthy reference)).
  { apply bind_returned in H as (msg & w9 & _ & H).
    apply bind_returned in H as ([] & w10 & _ & H). rewrite run_ret in H. by injection H as <-. }
  apply bind_returned in H as (ref & w9 & _ & H).
  apply bind_returned in H as (fields & w10 & _ & H).
  apply bind_returned in H as (items & w11 & _ & H).
  apply bind_returned in H as (eventData & w12 & Hloop & H).
  rewrite run_ret in H. injection H as <- _.
  destruct (eventData_loop_keys _ _ _ _ _ Hloop) as [Hnd Hkeys].
  split; [apply Hnd; constructor|].
  intros name Hname. destruct (Hkeys name Hname) as [[]%elem_of_nil|]; done.
Qed.

(** The event data read from an answer that has the fields of a metaobject. *)
Lemma getEventDataFromProduct_fields (rt : runtime) (productId g data : val)
    (fields : list val) (w : world) :
  gid "Product" productId = Returned g →
  axios rt (calls w) (shopify_graphql GetProductEvent (JObj [("productId", g)]))
  = Resolved data →
  truthy (member data "errors") = false →
  at_path data ["data"; "product"; "metafield"; "reference"; "fields"] = JArr fields →
  Forall is_object fields →
  ∃ eventData,
    Metaobject.getEventDataFromProduct rt productId w
    = (Returned (JObj eventData),
       sent (shopify_graphql GetProductEvent (JObj [("productId", g)])) w) ∧
    (∀ key name, (key, name) ∈ Metaobject.eventKeys →
       member (JObj eventData) name = last_field_value key fields).
Proof.
  intros Hg Hr He Hf Hobj.
  destruct (eventData_loop fields Hobj [] []
              (sent (shopify_graphql GetProductEvent (JObj [("productId", g)])) w))
    as (eventData & Hloop & _ & _ & Hval).
  assert (Hlast : ∀ key name, (key, name) ∈ Metaobject.eventKeys →
            member (JObj eventData) name = last_field_value key fields).
  { intros key name Hin. unfold member. cbn [get_prop]. by apply Hval. }
  exists eventData. split; [|exact Hlast].
  unfold Metaobject.getEventDataFromProduct.
  rewrite swallowed, run_bind. unfold lift at 1. rewrite Hg. cbn zeta.
  rewrite run_bind. unfold fetch at 1. rewrite Hr.
  destruct (metaobject_reads data fields Hf) as (H0 & H1 & H2 & H3 & Hm & Href & H4 & H5).
  cbn [at_path foldl] in *.
  read H0. rewrite He. read H1. read H2. read H3.
  rewrite run_bind, and_then_guarded. unfold guarded. rewrite Hm, Href. cbn [negb].
  read H4. read H5.
  rewrite run_bind. unfold lift at 1. cbn [iterate].
  unfold sent in Hloop. by rewrite run_bind, Hloop.
Qed.

(** The record of a purchased unit, from event data that has the values of
    the fields. *)
Lemma event_record_of_fields eventData fields lineItem :
  (∀ key name, (key, name) ∈ Metaobject.eventKeys →
     member eventData name = last_field_value key fields) →
  event_record eventData lineItem
  = JObj [("title", last_field_value "event.title" fields);
          ("map_embed", last_field_value "event.map_embed" fields);
          ("address", last_field_value "event.address" fields);
          ("start_date_time", last_field_value "event.start_date_time" fields);
          ("end_date_time", last_field_value "event.end_date_time" fields);
          ("refund_policy", last_field_value "event.refund_policy" fields);
          ("calendar_embed", last_field_value "event.calendar_embed" fields);
          ("line_item_title", member lineItem "title")].
Proof.
  intros Hlast. unfold event_record.
  rewrite (Hlast "event.title" "title"), (Hlast "event.map_embed" "map_embed"),
    (Hlast "event.address" "address"),
    (Hlast "event.start_date_time" "start_date_time"),
    (Hlast "event.end_date_time" "end_date_time"),
    (Hlast "event.refund_policy" "refund_policy"),
    (Hlast "event.calendar_embed" "calendar_embed"); [reflexivity|..];
    unfold Metaobject.eventKeys;
    repeat first [apply list_elem_of_here | apply list_elem_of_further].
Qed.

(** X12.  The event data of a product whose answer has the fields of a
    metaobject: under each of the seven names it has the value of the last
    field with the name's key ([undefined] when there is none), so the record
    pushed for a line item is made of these seven values and the title of
    the line item.  The one query is all that was sent. *)
Theorem event_data_of_metaobject (rt : runtime) (productId g data : val)
    (fields : list val) (w : world) :
  gid "Product" productId = Returned g →
  axios rt (calls w) (shopify_graphql GetProductEvent (JObj [("productId", g)]))
  = Resolved data →
  truthy (member data "errors") = false →
  at_path data ["data"; "product"; "metafield"; "reference"; "fields"] = JArr fields →
  Forall is_object fields →
  ∃ eventData,
    Metaobject.getEventDataFromProduct rt productId w
    = (Returned (JObj eventData),
       sent (shopify_graphql GetProductEvent (JObj [("productId", g)])) w) ∧
    (∀ key name, (key, name) ∈ Metaobject.eventKeys →
       member (JObj eventData) name = last_field_value key fields) ∧
    (∀ lineItem,
       event_record (JObj eventData) lineItem
       = JObj [("title", last_field_value "event.title" fields);
               ("map_embed", last_field_value "event.map_embed" fields);
               ("address", last_field_value "event.address" fields);
               ("start_date_time", last_field_value "event.start_date_time" fields);
               ("end_date_time", last_field_value "event.end_date_time" fields);
               ("refund_policy", last_field_value "event.refund_policy" fields);
               ("calendar_embed", last_field_value "event.calendar_embed" fields);
               ("line_item_title", member lineItem "title")]).
Proof.
  intros Hg Hr He Hf Hobj.
  destruct (getEventDataFromProduct_fields rt productId g data fields w Hg Hr He Hf Hobj)
    as (eventData & Hrun & Hlast).
  exists eventData. split; [exact Hrun|]. split; [exact Hlast|].
  intros lineItem. by apply event_record_of_fields.
Qed.

Lemma event_data_of_metaobject_witness :
  let answer :=
    Shop.metaobject [("event.title", "Draft"); ("calendly_event_url_handle", "workshop");
                     ("event.title", "Workshop")] in
  let rt := Shop.platform Shop.orders (λ _ _, Resolved answer) in
  ∃ eventData,
    Metaobject.getEventDataFromProduct rt (JNum 7) Shop.fresh
    = (Returned (JObj eventData),
       World [shopify_graphql GetProductEvent
                (JObj [("productId", JStr "gid://shopify/Product/7")])] []) ∧
    member (JObj eventData) "title" = JStr "Workshop" ∧
    member (JObj eventData) "address" = JUndefined.
Proof.
  cbn zeta.
  pose (fields := (λ kv : string * string, JObj [("key", JStr kv.1); ("value", JStr kv.2)])
                  <$> [("event.title", "Draft"); ("calendly_event_url_handle", "workshop");
                       ("event.title", "Workshop")]).
  assert (Hobj : Forall is_object fields) by (repeat constructor; by eexists).
  destruct (event_data_of_metaobject
              (Shop.platform Shop.orders (λ _ _, Resolved (Shop.metaobject
                 [("event.title", "Draft"); ("calendly_event_url_handle", "workshop");
                  ("event.title", "Workshop")])))
              (JNum 7) (JStr "gid://shopify/Product/7") _ fields Shop.fresh
              eq_refl eq_refl eq_refl eq_refl Hobj) as (eventData & Hrun & Hlast & _).
  exists eventData. split; [exact Hrun|]. split.
  - rewrite (Hlast "event.title" "title"); [reflexivity|].
    unfold Metaobject.eventKeys. apply list_elem_of_here.
  - rewrite (Hlast "event.address" "address"); [reflexivity|].
    unfold Metaobject.eventKeys.
    repeat first [apply list_elem_of_here | apply list_elem_of_further].
Defined.

(** X13.  A product whose metaobject has none of the seven event fields is
    an event product all the same: its event data is an empty object, which
    is truthy, so the line item adds one record per purchased unit, with
    every event field [undefined]. *)
Theorem event_product_without_fields (rt : runtime) (props : list (string * val))
    (product_id quantity : Z) (title : string) (data : val) (fields acc : list val)
    (w : world) :
  assoc "product_id" props = Some (JNum product_id) →
  assoc "title" props = Some (JStr title) →
  assoc "quantity" props = Some (JNum quantity) →
  let query :=
    shopify_graphql GetProductEvent
      (JObj [("productId", JStr ("gid://shopify/Product/" +:+ pretty product_id))]) in
  axios rt (calls w) query = Resolved data →
  truthy (member data "errors") = false →
  at_path data ["data"; "product"; "metafield"; "reference"; "fields"] = JArr fields →
  Forall is_object fields →
  (∀ key name, (key, name) ∈ Metaobject.eventKeys →
     last_field_value key fields = JUndefined) →
  Metaobject.lineItemEvents rt (JObj props) acc w
  = (Returned
       (acc ++ replicate (Z.to_nat quantity)
                 (JObj [("title", JUndefined); ("map_embed", JUndefined);
                        ("address", JUndefined); ("start_date_time", JUndefined);
                        ("end_date_time", JUndefined); ("refund_policy", JUndefined);
                        ("calendar_embed", JUndefined);
                        ("line_item_title", JStr title)])),
     sent query
       (logged log ("Processing line item: " +:+ title +:+
                    ", Product ID: " +:+ pretty product_id +:+
                    ", Quantity: " +:+ pretty quantity) [] w)).
Proof.
  intros Hp Ht Hq query Hr He Hf Hobj Hnone.
  rewrite lineItemEvents_lookup. unfold lookup_event.
  unfold get, lift. cbn [get_prop]. rewrite !run_bind, Hp, Ht, Hq.
  cbn [default from_option id template ToString mbind outcome_bind].
  rewrite run_bind.
  unfold console_log at 1, console_write at 1. rewrite run_bind.
  match goal with |- context [Metaobject.getEventDataFromProduct rt _ ?w0] =>
    destruct (getEventDataFromProduct_fields rt (JNum product_id)
                (JStr ("gid://shopify/Product/" +:+ pretty product_id)) data fields w0)
      as (eventData & -> & Hlast)
  end; try done.
  { exact (gid_printed "Product" (JNum product_id) _ eq_refl). }
  cbn [truthy]. rewrite run_ret. unfold event_records. cbn [truthy].
  rewrite (event_record_of_fields _ fields _ Hlast).
  rewrite (Hnone "event.title" "title"), (Hnone "event.map_embed" "map_embed"),
    (Hnone "event.address" "address"),
    (Hnone "event.start_date_time" "start_date_time"),
    (Hnone "event.end_date_time" "end_date_time"),
    (Hnone "event.refund_policy" "refund_policy"),
    (Hnone "event.calendar_embed" "calendar_embed");
    [|unfold Metaobject.eventKeys;
      repeat first [apply list_elem_of_here | apply list_elem_of_further]..].
  unfold units, member, loop_bound. cbn [get_prop]. rewrite Hq, Ht, ?append_empty_r. reflexivity.
Qed.

Lemma event_product_without_fields_witness :
  let answer := Shop.metaobject [("calendly_event_url_handle", "workshop")] in
  let rt := Shop.platform Shop.orders (λ _ _, Resolved answer) in
  let record :=
    JObj [("title", JUndefined); ("map_embed", JUndefined); ("address", JUndefined);
          ("start_date_time", JUndefined); ("end_date_time", JUndefined);
          ("refund_policy", JUndefined); ("calendar_embed", JUndefined);
          ("line_item_title", JStr "Workshop")] in
  Metaobject.lineItemEvents rt (Shop.item 7 "Workshop" 2) [] Shop.fresh
  = (Returned [record; record],
     World [shopify_graphql GetProductEvent
              (JObj [("productId", JStr "gid://shopify/Product/7")])]
       [LogEntry log "Processing line item: Workshop, Product ID: 7, Quantity: 2" []]).
Proof.
  cbn zeta.
  pose (fields := [JObj [("key", JStr "calendly_event_url_handle");
                         ("value", JStr "workshop")]]).
  assert (Hobj : Forall is_object fields) by (repeat constructor; by eexists).
  assert (Hnone : ∀ key name, (key, name) ∈ Metaobject.eventKeys →
            last_field_value key fields = JUndefined).
  { unfold Metaobject.eventKeys. intros key name H.
    repeat (apply elem_of_cons in H as [H|H]; [by injection H as -> ->|]).
    by apply elem_of_nil in H. }
  exact (event_product_without_fields
           (Shop.platform Shop.orders (λ _ _, Resolved (Shop.metaobject
              [("calendly_event_url_handle", "workshop")])))
           [("product_id", JNum 7); ("title", JStr "Workshop"); ("quantity", JNum 2)]
           7 2 "Workshop"
           (Shop.metaobject [("calendly_event_url_handle", "workshop")])
           fields [] Shop.fresh
           eq_refl eq_refl eq_refl eq_refl eq_refl eq_refl Hobj Hnone).
Defined.

(** The lookup sends its one query, however it ends. *)
Lemma getEventDataFromProduct_sends_one rt productId g w :
  gid "Product" productId = Returned g →
  calls (Metaobject.getEventDataFromProduct rt productId w).2
  = calls w ++ [shopify_graphql GetProductEvent (JObj [("productId", g)])].
Proof.
  intros Hg. unfold Metaobject.getEventDataFromProduct.
  rewrite swallowed, run_bind. unfold lift at 1. rewrite Hg. cbn zeta.
  rewrite run_bind. unfold fetch at 1.
  destruct (axios rt (calls w) _) as [data|m r]; [|done].
  match goal with |- context [match ?m ?w0 with _ => _ end] =>
    assert (Hq : quiet m) by quiet_all;
    specialize (Hq w0); destruct (m w0) as [[a|e] w1]
  end; cbn [snd calls logged] in *; by rewrite Hq.
Qed.

Lemma lookup_event_sends_one rt lineItem w :
  is_line_item lineItem →
  ∃ eventData w',
    lookup_event rt lineItem w = (Returned eventData, w') ∧
    calls w' = calls w ++ [event_query lineItem].
Proof.
  intros (props & p & t & q & -> & Hp & Ht & Hq). unfold lookup_event, event_query.
  unfold get, lift, member. cbn [get_prop]. rewrite !run_bind, Hp, Ht, Hq.
  cbn [default from_option id template ToString mbind outcome_bind]. rewrite run_bind.
  unfold console_log at 1, console_write at 1. rewrite run_bind.
  match goal with |- context [Metaobject.getEventDataFromProduct rt (JNum p) ?w0] =>
    pose proof (getEventDataFromProduct_sends_one rt (JNum p) _ w0
                  (gid_printed "Product" (JNum p) _ eq_refl)) as Hs;
    destruct (getEventDataFromProduct_never_throws rt (JNum p) w0) as (d & w1 & E)
  end.
  rewrite E in *. cbn [snd calls] in Hs.
  destruct (truthy d).
  - rewrite run_ret. eexists _, _. split; [reflexivity|]. exact Hs.
  - rewrite run_bind. unfold console_warn, console_write. rewrite run_bind, run_ret.
    eexists _, _. split; [reflexivity|]. exact Hs.
Qed.

Lemma each_lookup_event_sends rt items w :
  Forall is_line_item items →
  ∃ found w',
    each (lookup_event rt) items w = (Returned found, w') ∧
    calls w' = calls w ++ (event_query <$> items).
Proof.
  intros Hitems. revert w. induction Hitems as [|x rest Hx _ IH]; intros w; cbn [each].
  - rewrite run_ret. eexists _, _. split; [reflexivity|]. by rewrite app_nil_r.
  - destruct (lookup_event_sends_one rt x w Hx) as (d & w1 & E1 & C1).
    destruct (IH w1) as (found & w2 & E2 & C2).
    rewrite run_bind, E1, run_bind, E2, run_ret.
    eexists _, _. split; [reflexivity|].
    rewrite C2, C1, fmap_cons, <- app_assoc. reflexivity.
Qed.

(** X14.  On line items of the payload's shape the enrichment pass of the
    metaobject handler returns, and has sent exactly one catalog query per
    line item, in the order of the line items. *)
Theorem one_lookup_per_line_item (rt : runtime) (order : val) (items : list val)
    (w : world) :
  get_prop order "line_items" = Returned (JArr items) →
  Forall is_line_item items →
  ∃ eventProducts w',
    Metaobject.collectEventProducts rt order w = (Returned eventProducts, w') ∧
    calls w' = calls w ++ (event_query <$> items).
Proof.
  intros Hitems Hwf. unfold Metaobject.collectEventProducts.
  rewrite run_bind. unfold get at 1, lift at 1. rewrite Hitems.
  rewrite run_bind. unfold lift at 1. cbn [iterate].
  rewrite events_loop.
  destruct (each_lookup_event_sends rt items w Hwf) as (found & w' & -> & Hcalls).
  eexists _, _. split; [reflexivity | exact Hcalls].
Qed.

Lemma one_lookup_per_line_item_witness :
  ∃ eventProducts w',
    Metaobject.collectEventProducts Shop.healthy Shop.order_1001 Shop.fresh
    = (Returned eventProducts, w') ∧
    calls w'
    = [shopify_graphql GetProductEvent (JObj [("productId", JStr "gid://shopify/Product/7")]);
       shopify_graphql GetProductEvent (JObj [("productId", JStr "gid://shopify/Product/8")])].
Proof.
  apply (one_lookup_per_line_item Shop.healthy Shop.order_1001
           [Shop.item 7 "Workshop" 2; Shop.item 8 "Mug" 1] Shop.fresh eq_refl).
  repeat constructor; by eexists _, _, _, _.
Defined.

(** ** When Klaviyo refuses the event *)










(** ** How much an invocation sends *)

Lemma Calendly_tracker_at_most rt email firstName lastName links orderId orderTime :
  sends_at_most 1 (λ r, is_klaviyo r = true)
    (Calendly.trackKlaviyoEvent rt email firstName lastName links orderId orderTime).
Proof.
  unfold Calendly.trackKlaviyoEvent.
  apply (sends_at_most_try_catch 1 0); [|intros; count_step].
  repeat count_step.
Qed.

Lemma Metaobject_tracker_at_most rt nonPiiId eventProducts orderId orderTime :
  sends_at_most 1 (λ r, is_klaviyo r = true)
    (Metaobject.trackKlaviyoEvent rt nonPiiId eventProducts orderId orderTime).
Proof.
  unfold Metaobject.trackKlaviyoEvent.
  apply (sends_at_most_try_catch 1 0); [|intros; count_step].
  repeat count_step.
Qed.

Lemma Calendly_addNote_at_most rt orderId links :
  sends_at_most 1 (λ r, is_order_update r = true)
    (Calendly.addNoteToShopifyOrder rt orderId links).
Proof.
  unfold Calendly.addNoteToShopifyOrder.
  apply (sends_at_most_try_catch 1 0); [|intros; count_step].
  repeat count_step.
Qed.

Lemma Metaobject_addNote_at_most rt orderId eventProducts :
  sends_at_most 1 (λ r, is_order_update r = true)
    (Metaobject.addNoteToShopifyOrder rt orderId eventProducts).
Proof.
  unfold Metaobject.addNoteToShopifyOrder.
  apply (sends_at_most_try_catch 1 0); [|intros; count_step].
  repeat count_step.
Qed.

(** A tracking step followed by an annotation step. *)
Lemma track_then_annotate {A B} (track : M A) (annotate : A → M B) (w : world) :
  sends_at_most 1 (λ r, is_klaviyo r = true) track →
  (∀ a, sends_at_most 1 (λ r, is_order_update r = true) (annotate a)) →
  ∃ new, calls ((track ≫= annotate) w).2 = calls w ++ new ∧ writes new.
Proof.
  intros Ht Ha. rewrite run_bind. destruct (Ht w) as (n1 & E1 & L1 & F1).
  destruct (track w) as [[a|e] w1]; cbn [snd] in *.
  - destruct (Ha a w1) as (n2 & E2 & L2 & F2). exists (n1 ++ n2).
    rewrite E2, E1, app_assoc. split; [done|]. by exists n1, n2.
  - exists n1. split; [done|]. exists n1, []. rewrite app_nil_r.
    repeat split; auto; cbn; lia.
Qed.

(** X16.  The two writes of an invocation, whatever the services answer: at
    most one event goes to Klaviyo and, after it, at most one order-note
    mutation, and nothing else.  With an empty enrichment output neither is
    sent. *)
Theorem writes_in_order (rt : runtime) (order : val) (records : list val) (w : world) :
  (∀ email firstName lastName,
     (∃ new,
        calls (Calendly.trackAndAnnotate rt email firstName lastName order records w).2
        = calls w ++ new ∧ writes new) ∧
     Calendly.trackAndAnnotate rt email firstName lastName order [] w = (Returned (), w)) ∧
  (∀ nonPiiId,
     (∃ new,
        calls (Metaobject.trackAndAnnotate rt nonPiiId order records w).2
        = calls w ++ new ∧ writes new) ∧
     Metaobject.trackAndAnnotate rt nonPiiId order [] w
     = (Returned (),
        logged log
          "No event products found, skipping Klaviyo event tracking and order note update."
          [] w)).
Proof.
  assert (Hnone : writes []).
  { exists [], []. repeat split; auto; cbn; lia. }
  split.
  - intros email firstName lastName. split; [|done].
    unfold Calendly.trackAndAnnotate.
    destruct (0 <? length records)%nat; [|exists []; by rewrite app_nil_r].
    apply track_then_annotate.
    + destruct (negb (truthy email)); [count_step|].
      do 2 count_step. apply Calendly_tracker_at_most.
    + intros []. count_step. apply Calendly_addNote_at_most.
  - intros nonPiiId. split; [|done].
    unfold Metaobject.trackAndAnnotate.
    destruct (0 <? length records)%nat; [|exists []; by rewrite app_nil_r].
    assert (Hshape :
      (order_id ← get order "id";
       order_created_at ← get order "created_at";
       Metaobject.trackKlaviyoEvent rt nonPiiId records order_id order_created_at;;
       order_id ← get order "id";
       Metaobject.addNoteToShopifyOrder rt order_id records) w
      = ((order_id ← get order "id";
          order_created_at ← get order "created_at";
          Metaobject.trackKlaviyoEvent rt nonPiiId records order_id order_created_at) ≫=
         (λ _, order_id ← get order "id";
               Metaobject.addNoteToShopifyOrder rt order_id records)) w).
    { unfold mbind, M_bind, get, lift.
      destruct (get_prop order "id") as [order_id|e]; [|done].
      by destruct (get_prop order "created_at") as [created|e]. }
    rewrite Hshape. apply track_then_annotate.
    + do 2 count_step. apply Metaobject_tracker_at_most.
    + intros []. count_step. apply Metaobject_addNote_at_most.
Qed.

(** X17.  Each lookup sends at most what it is for: the catalog lookups one
    query of their own kind, the event-type lookup the identity call and the
    list call. *)
Theorem lookups_send_little (rt : runtime) (productId eventHandle : val) :
  sends_at_most 1 (λ r, ∃ variables, r = shopify_graphql GetProductMetafield variables)
    (Calendly.getCalendlyEventHandle rt productId) ∧
  sends_at_most 2 (λ r, r = calendly_users_me ∨ ∃ params, r = calendly_event_types params)
    (Calendly.getCalendlyEventTypeUri rt eventHandle) ∧
  sends_at_most 1 (λ r, ∃ variables, r = shopify_graphql GetProductEvent variables)
    (Metaobject.getEventDataFromProduct rt productId).
Proof.
  split; [|split].
  - unfold Calendly.getCalendlyEventHandle.
    apply (sends_at_most_try_catch 1 0); [|intros; count_step].
    repeat count_step.
  - unfold Calendly.getCalendlyEventTypeUri.
    apply (sends_at_most_try_catch 2 0); [|intros; count_step].
    apply (sends_at_most_bind 1 1); [apply (sends_at_most_fetch 0); by left|]. intros.
    do 2 count_step.
    apply (sends_at_most_bind 1 0); [apply (sends_at_most_fetch 0); right; by eexists|].
    intros. repeat count_step.
  - unfold Metaobject.getEventDataFromProduct.
    apply (sends_at_most_try_catch 1 0); [|intros; count_step].
    repeat count_step.
Qed.

(** X18.  What an invocation may send.  The metaobject handler sends only
    catalog queries for the event of a product, the Klaviyo event and the
    order-note mutation: it never calls the scheduling service.  The Calendly
    handler never sends the catalog query of the metaobject handler.  The
    enrichment passes send lookups only, and every link the Calendly handler
    creates is for the invitee extracted from the order. *)
Theorem requests_by_handler (rt : runtime) (ev : event) (order : val)
    (email firstName lastName : val) :
  sends metaobject_request (Metaobject.handler rt ev) ∧
  sends calendly_request (Calendly.handler rt ev) ∧
  sends (calendly_lookup email firstName lastName)
    (Calendly.collectSchedulingLinks rt email firstName lastName order) ∧
  sends (λ r, ∃ variables, r = shopify_graphql GetProductEvent variables)
    (Metaobject.collectEventProducts rt order).
Proof.
  split; [|split; [|split]].
  - unfold Metaobject.handler, Metaobject.collectEventProducts, Metaobject.trackAndAnnotate,
      Metaobject.lineItemEvents, Metaobject.getEventDataFromProduct,
      Metaobject.trackKlaviyoEvent, Metaobject.addNoteToShopifyOrder.
    cbn zeta. sends_all; by apply sends_fetch.
  - unfold Calendly.handler, Calendly.customerIdentity, Calendly.collectSchedulingLinks,
      Calendly.trackAndAnnotate, Calendly.lineItemLinks, Calendly.ticket,
      Calendly.getCalendlyEventHandle, Calendly.getCalendlyEventTypeUri,
      Calendly.createCalendlySchedulingLink,
      Calendly.trackKlaviyoEvent, Calendly.addNoteToShopifyOrder.
    cbn zeta. sends_all; by apply sends_fetch.
  - unfold Calendly.collectSchedulingLinks, Calendly.lineItemLinks, Calendly.ticket,
      Calendly.getCalendlyEventHandle, Calendly.getCalendlyEventTypeUri,
      Calendly.createCalendlySchedulingLink.
    sends_all; apply sends_fetch; try done. by eexists.
  - unfold Metaobject.collectEventProducts, Metaobject.lineItemEvents,
      Metaobject.getEventDataFromProduct.
    sends_all; apply sends_fetch; by eexists.
Qed.

(** ** One request per scheduling link *)

Lemma link_creations_app a b :
  link_creations (a ++ b) = (link_creations a + link_creations b)%nat.
Proof. unfold link_creations. by rewrite filter_app, length_app. Qed.

Lemma link_creations_none new :
  Forall (λ r, is_link_creation r = false) new → link_creations new = 0%nat.
Proof.
  unfold link_creations. induction 1 as [|r new Hr _ IH]; [done|].
  rewrite filter_cons, decide_False by (by rewrite Hr). exact IH.
Qed.

(** What a step that returned has sent. *)
Lemma sends_returned {A} P (m : M A) w a w' :
  sends P m → m w = (Returned a, w') →
  ∃ new, calls w' = calls w ++ new ∧ Forall P new.
Proof. intros Hs E. specialize (Hs w). by rewrite E in Hs. Qed.

Lemma getCalendlyEventHandle_no_link rt productId :
  sends (λ r, is_link_creation r = false) (Calendly.getCalendlyEventHandle rt productId).
Proof. unfold Calendly.getCalendlyEventHandle. sends_all. by apply sends_fetch. Qed.

Lemma getCalendlyEventTypeUri_no_link rt eventHandle :
  sends (λ r, is_link_creation r = false) (Calendly.getCalendlyEventTypeUri rt eventHandle).
Proof. unfold Calendly.getCalendlyEventTypeUri. sends_all; by apply sends_fetch. Qed.

Lemma ticket_mints rt email firstName lastName lineItem uri i :
  mints_per_link (Calendly.ticket rt email firstName lastName lineItem uri i).
Proof.
  intros acc w acc' w' H. unfold Calendly.ticket in H.
  apply bind_returned in H as (link & w1 & Hlink & H).
  apply bind_returned in H as (title & w2 & [_ ->]%get_returned & H).
  apply bind_returned in H as (t & w3 & [_ ->]%lift_returned & H).
  rewrite run_ret in H. injection H as <- <-.
  pose proof (scheduling_link_sent rt email firstName lastName uri w) as Hs.
  rewrite Hlink in Hs. cbn [snd] in Hs.
  eexists. split; [exact Hs|]. rewrite length_app. reflexivity.
Qed.

Lemma for_range_mints (body : nat → list val → M (list val)) n i :
  (∀ j, mints_per_link (body j)) → mints_per_link (for_range i n body).
Proof.
  intros Hb. revert i. induction n as [|n IH]; intros i acc w acc' w' H; cbn [for_range] in H.
  - rewrite run_ret in H. injection H as <- <-. exists []. by rewrite app_nil_r, Nat.add_0_r.
  - apply bind_returned in H as (acc1 & w1 & H1 & H).
    destruct (Hb i _ _ _ _ H1) as (n1 & E1 & L1).
    destruct (IH (S i) _ _ _ _ H) as (n2 & E2 & L2).
    exists (n1 ++ n2). rewrite E2, E1, app_assoc, link_creations_app. split; [done | lia].
Qed.

Lemma for_of_mints (body : val → list val → M (list val)) items :
  (∀ x, mints_per_link (body x)) → mints_per_link (for_of items body).
Proof.
  intros Hb. induction items as [|x rest IH]; intros acc w acc' w' H; cbn [for_of] in H.
  - rewrite run_ret in H. injection H as <- <-. exists []. by rewrite app_nil_r, Nat.add_0_r.
  - apply bind_returned in H as (acc1 & w1 & H1 & H).
    destruct (Hb x _ _ _ _ H1) as (n1 & E1 & L1).
    destruct (IH _ _ _ _ H) as (n2 & E2 & L2).
    exists (n1 ++ n2). rewrite E2, E1, app_assoc, link_creations_app. split; [done | lia].
Qed.

Lemma lineItemLinks_mints rt email firstName lastName lineItem :
  mints_per_link (Calendly.lineItemLinks rt email firstName lastName lineItem).
Proof.
  intros acc w acc' w' H. unfold Calendly.lineItemLinks in H.
  apply bind_returned in H as (productId & w1 & [_ ->]%get_returned & H).
  apply bind_returned in H as (quantity & w2 & [_ ->]%get_returned & H).
  apply bind_returned in H as (handle & w3 & Hh & H).
  destruct (sends_returned _ _ _ _ _ (getCalendlyEventHandle_no_link rt productId) Hh)
    as (n1 & E1 & F1%link_creations_none).
  destruct (truthy handle).
  - apply bind_returned in H as (title & w4 & [_ ->]%get_returned & H).
    apply bind_returned in H as (msg & w5 & [_ ->]%lift_returned & H).
    apply bind_returned in H as ([] & w6 & Hlog & H).
    unfold console_log, console_write in Hlog. injection Hlog as <-.
    apply bind_returned in H as (uri & w7 & Hu & H).
    destruct (sends_returned _ _ _ _ _ (getCalendlyEventTypeUri_no_link rt handle) Hu)
      as (n2 & E2 & F2%link_creations_none). cbn [calls] in E2.
    destruct (truthy uri).
    + apply bind_returned in H as (n & w8 & [_ ->]%lift_returned & H).
      destruct (for_range_mints _ n 0
                  (ticket_mints rt email firstName lastName lineItem uri) _ _ _ _ H)
        as (n3 & E3 & L3).
      exists (n1 ++ n2 ++ n3).
      rewrite E3, E2, E1, !link_creations_app, F1, F2, <- !app_assoc. split; [done | lia].
    + apply bind_returned in H as (msg' & w8 & [_ ->]%lift_returned & H).
      apply bind_returned in H as ([] & w9 & Hlog & H).
      unfold console_warn, console_write in Hlog. injection Hlog as <-.
      rewrite run_ret in H. injection H as <- <-. cbn [calls].
      exists (n1 ++ n2).
      rewrite E2, E1, !link_creations_app, F1, F2, <- !app_assoc. split; [done | lia].
  - rewrite run_ret in H. injection H as <- <-.
    exists n1. rewrite F1. split; [done | lia].
Qed.

(** X19.  When the enrichment pass of the Calendly handler returns, it has
    sent exactly as many link-creation requests as it returns links: every
    link was created by a request of its own. *)
Theorem one_request_per_link (rt : runtime) (email firstName lastName order : val)
    (w : world) (links : list val) (w' : world) :
  Calendly.collectSchedulingLinks rt email firstName lastName order w
  = (Returned links, w') →
  ∃ new, calls w' = calls w ++ new ∧ link_creations new = length links.
Proof.
  intros H. unfold Calendly.collectSchedulingLinks in H.
  apply bind_returned in H as (line_items & w1 & [_ ->]%get_returned & H).
  apply bind_returned in H as (items & w2 & [_ ->]%lift_returned & H).
  destruct (for_of_mints _ items
              (lineItemLinks_mints rt email firstName lastName) _ _ _ _ H)
    as (new & E & L).
  exists new. split; [exact E|]. cbn in L. lia.
Qed.

Lemma one_request_per_link_witness :
  ∃ new,
    calls (Calendly.collectSchedulingLinks Shop.healthy (JStr "ada@example.com")
             (JStr "") (JStr "") Shop.order_1001 Shop.fresh).2
    = [] ++ new ∧
    link_creations new = 2%nat.
Proof.
  destruct (Calendly.collectSchedulingLinks Shop.healthy (JStr "ada@example.com")
              (JStr "") (JStr "") Shop.order_1001 Shop.fresh) as [o w'] eqn:E.
  assert (Ho : o = Returned [ticket_record (Shop.item 7 "Workshop" 2) 0
                               (JStr "https://calendly.com/d/abc");
                             ticket_record (Shop.item 7 "Workshop" 2) 1
                               (JStr "https://calendly.com/d/abc")]).
  { vm_compute in E. by injection E as <- _. }
  subst o.
  exact (one_request_per_link _ _ _ _ _ _ _ _ E).
Defined.

(** ** Payloads and headers at the edges *)

(** X20.  A verified body that parses to anything but an object ([null], a
    number, a string, an array) is answered 500 by all three handlers, with
    no request sent. *)
Theorem non_object_payload (rt : runtime) (ev : event) (w : world) (order : val) :
  JSON_parse rt (body ev) = Returned order →
  (∀ props, order ≠ JObj props) →
  (verifyShopifyWebhook rt (header ev "x-shopify-hmac-sha256") (body ev) = Returned true →
     (∀ h u c n, ∃ w',
        Original.handler h u c n rt ev w = (Returned Internal_Server_Error, w') ∧
        calls w' = calls w) ∧
     (∃ w', Calendly.handler rt ev w = (Returned Internal_Server_Error, w') ∧
            calls w' = calls w)) ∧
  (verifyShopifyWebhook rt (Metaobject.hmacHeader ev) (body ev) = Returned true →
     ∃ w', Metaobject.handler rt ev w = (Returned Internal_Server_Error, w') ∧
           calls w' = calls w).
Proof.
  intros Hp Hno.
  assert (HC : ∀ email firstName lastName w0, ∃ e,
    Calendly.collectSchedulingLinks rt email firstName lastName order w0 = (Thrown e, w0)).
  { intros email firstName lastName w0.
    unfold Calendly.collectSchedulingLinks, get, lift. rewrite !run_bind.
    destruct order as [| |b|n|s|items|props]; cbn; eauto.
    by destruct (Hno props). }
  assert (HM : ∀ w0, ∃ e, Metaobject.collectEventProducts rt order w0 = (Thrown e, w0)).
  { intros w0. unfold Metaobject.collectEventProducts, get, lift. rewrite !run_bind.
    destruct order as [| |b|n|s|items|props]; cbn; eauto.
    by destruct (Hno props). }
  split.
  - intros Hv. split.
    + intros h u c n. unfold Original.handler. cbn zeta.
      rewrite run_try_catch, Hv, lift_bind. cbn [negb]. rewrite Hp, lift_bind.
      unfold get, lift. rewrite !run_bind.
      destruct order as [| |b|n0|s|items|props]; cbn; eauto.
      by destruct (Hno props).
    + unfold Calendly.handler. cbn zeta.
      rewrite run_try_catch, Hv, lift_bind. cbn [negb]. rewrite Hp, lift_bind, run_bind.
      pose proof (customerIdentity_quiet order w) as Hq.
      destruct (Calendly.customerIdentity order w)
        as [[[[email firstName] lastName]|e] w1]; cbn [snd] in Hq; [|cbn; eauto].
      rewrite run_bind. destruct (HC email firstName lastName w1) as [e ->]. cbn. eauto.
  - intros Hv. unfold Metaobject.handler. cbn zeta.
    rewrite run_try_catch, Hv, lift_bind. cbn [negb]. rewrite Hp, lift_bind, run_bind.
    unfold console_log at 1, console_write at 1.
    rewrite run_bind. unfold get at 1, lift at 1.
    destruct (get_prop order "id") as [order_id|e]; [|cbn; eauto].
    rewrite run_bind. unfold lift at 1.
    destruct (template _) as [nonPiiId|e]; [|cbn; eauto].
    rewrite run_bind.
    match goal with |- context [Metaobject.collectEventProducts rt order ?w0] =>
      destruct (HM w0) as [e ->] end.
    cbn. eauto.
Qed.

Lemma non_object_payload_witness :
  let rt := Shop.platform [("null", JNull); ("[]", JArr [])] (axios Shop.healthy) in
  (∃ w', Calendly.handler rt (Shop.signed "null") Shop.fresh
         = (Returned Internal_Server_Error, w') ∧ calls w' = []) ∧
  (∃ w', Metaobject.handler rt (Shop.signed "[]") Shop.fresh
         = (Returned Internal_Server_Error, w') ∧ calls w' = []).
Proof.
  cbn zeta. split.
  - destruct (non_object_payload
                (Shop.platform [("null", JNull); ("[]", JArr [])] (axios Shop.healthy))
                (Shop.signed "null") Shop.fresh JNull eq_refl) as [H _]; [done|].
    destruct H as [_ H]; [vm_compute; reflexivity | exact H].
  - destruct (non_object_payload
                (Shop.platform [("null", JNull); ("[]", JArr [])] (axios Shop.healthy))
                (Shop.signed "[]") Shop.fresh (JArr []) eq_refl) as [_ H]; [done|].
    apply H. vm_compute; reflexivity.
Defined.

(** X21.  In the metaobject handler a non-empty lower-case signature header
    is the one that counts: when it is not the digest of the body (a string)
    the request is answered 401, whatever the capitalised header says.  The
    capitalised header is consulted when the lower-case one is empty. *)
Theorem lowercase_header_takes_precedence (rt : runtime) (ev : event) (w : world)
    (h : string) :
  headers ev !! "x-shopify-hmac-sha256" = Some h →
  (h ≠ "" →
     Metaobject.hmacHeader ev = JStr h ∧
     (∀ text,
        body ev = JStr text →
        h ≠ createHmac_sha256_base64 rt (SHOPIFY_WEBHOOK_SECRET rt) text →
        Metaobject.handler rt ev w
        = (Returned Invalid_request, logged error "Invalid webhook signature." [] w))) ∧
  (h = "" → Metaobject.hmacHeader ev = header ev "X-Shopify-Hmac-Sha256").
Proof.
  intros Hh. unfold Metaobject.hmacHeader. rewrite (header_present _ _ _ Hh). cbn [truthy].
  split.
  - intros Hne. pose proof Hne as Hne2. apply String.eqb_neq in Hne2 as ->. cbn [negb]. split; [done|].
    intros text Hbody Hd. apply Metaobject_rejects. unfold Metaobject.hmacHeader.
    rewrite (header_present _ _ _ Hh). cbn [truthy].
    assert (String.eqb h "" = false) as -> by (apply String.eqb_neq; by intros ->).
    cbn [negb]. rewrite Hbody. apply verify_other_header. congruence.
  - intros ->. reflexivity.
Qed.

Lemma lowercase_header_takes_precedence_witness :
  let ev := Event {[ "x-shopify-hmac-sha256" := "c2lnbmF0dXJl";
                     "X-Shopify-Hmac-Sha256" := Shop.digest Shop.secret "order 1001" ]}
              (JStr "order 1001") in
  header ev "X-Shopify-Hmac-Sha256"
  = JStr (createHmac_sha256_base64 Shop.healthy (SHOPIFY_WEBHOOK_SECRET Shop.healthy)
            "order 1001") ∧
  Metaobject.handler Shop.healthy ev Shop.fresh
  = (Returned Invalid_request, World [] [LogEntry error "Invalid webhook signature." []]).
Proof.
  cbn zeta. split; [vm_compute; reflexivity|].
  destruct (lowercase_header_takes_precedence Shop.healthy
              (Event {[ "x-shopify-hmac-sha256" := "c2lnbmF0dXJl";
                        "X-Shopify-Hmac-Sha256" := Shop.digest Shop.secret "order 1001" ]}
                 (JStr "order 1001"))
              Shop.fresh "c2lnbmF0dXJl") as [H _]; [vm_compute; reflexivity|].
  destruct H as [_ H]; [done|]. apply (H "order 1001"); done.
Defined.

(** X22.  The identity fallback chain on any order object: the e-mail is the
    first value among the customer's e-mail, the order's e-mail, its contact
    e-mail and the billing address's e-mail, the names come from the customer
    and then the billing address, the empty string stands for none; nothing
    is sent, and the console gets the order's keys, the customer and billing
    objects, the three extracted values and the greeting. *)
Theorem identity_fallback_chain (props : list (string * val)) (w : world) (msg : string) :
  greeting (identity_of (JObj props)) = Returned msg →
  let order := JObj props in
  let customer := member order "customer" in
  let billing_address := member order "billing_address" in
  let customerEmail :=
    first_truthy [guarded customer "email"; member order "email";
                  member order "contact_email"; guarded billing_address "email"] in
  let firstName :=
    first_truthy [guarded customer "first_name"; guarded billing_address "first_name"] in
  let lastName :=
    first_truthy [guarded customer "last_name"; guarded billing_address "last_name"] in
  Calendly.customerIdentity order w
  = (Returned (customerEmail, firstName, lastName),
     World (calls w)
       (console w ++
        [LogEntry log "Order object keys:" [JArr (JStr <$> props.*1)];
         LogEntry log "order.customer:" [customer];
         LogEntry log "order.billing_address:" [billing_address];
         LogEntry log "Extracted customerEmail:" [customerEmail];
         LogEntry log "Extracted firstName:" [firstName];
         LogEntry log "Extracted lastName:" [lastName];
         LogEntry log msg []])).
Proof.
  intros Hmsg. cbn zeta. unfold Calendly.customerIdentity.
  set (order := JObj props) in *.
  assert (Hget : ∀ k w, get order k w = (Returned (member order k), w)) by done.
  assert (Hemail : ∀ w,
    (customer ← get order "customer";
     customer_email ← and_then customer (get customer "email");
     or_else customer_email (
       email ← get order "email";
       or_else email (
         contact_email ← get order "contact_email";
         or_else contact_email (
           billing_address ← get order "billing_address";
           billing_email ← and_then billing_address (get billing_address "email");
           or_else billing_email (mret (JStr "")))))) w
    = (Returned (first_truthy [guarded (member order "customer") "email";
                               member order "email"; member order "contact_email";
                               guarded (member order "billing_address") "email"]), w)).
  { intros w0. rewrite run_bind, Hget, run_bind, and_then_guarded.
    apply or_else_first. rewrite run_bind, Hget.
    apply or_else_first. rewrite run_bind, Hget.
    apply or_else_first. rewrite run_bind, Hget, run_bind, and_then_guarded.
    by apply or_else_first. }
  assert (Hname : ∀ k w,
    (customer ← get order "customer";
     customer_name ← and_then customer (get customer k);
     or_else customer_name (
       billing_address ← get order "billing_address";
       billing_name ← and_then billing_address (get billing_address k);
       or_else billing_name (mret (JStr "")))) w
    = (Returned (first_truthy [guarded (member order "customer") k;
                               guarded (member order "billing_address") k]), w)).
  { intros k w0. rewrite run_bind, Hget, run_bind, and_then_guarded.
    apply or_else_first. rewrite run_bind, Hget, run_bind, and_then_guarded.
    by apply or_else_first. }
  rewrite run_bind. unfold lift at 1. cbn [Object_keys order].
  rewrite run_bind. unfold console_log at 1, console_write at 1.
  rewrite run_bind, Hget. rewrite run_bind. unfold console_log at 1, console_write at 1.
  rewrite run_bind, Hget. rewrite run_bind. unfold console_log at 1, console_write at 1.
  rewrite run_bind, Hemail. rewrite run_bind, Hname. rewrite run_bind, Hname.
  rewrite run_bind. unfold console_log at 1, console_write at 1.
  rewrite run_bind. unfold console_log at 1, console_write at 1.
  rewrite run_bind. unfold console_log at 1, console_write at 1.
  rewrite run_bind. unfold lift at 1.
  unfold greeting, identity_of in Hmsg. cbn zeta in Hmsg. rewrite Hmsg.
  rewrite run_bind. unfold console_log at 1, console_write at 1. rewrite run_ret.
  cbn [calls console]. by rewrite <- !app_assoc.
Qed.

Lemma identity_fallback_chain_witness :
  let order :=
    [("email", JStr "ada@example.com");
     ("customer", JObj [("email", JStr ""); ("first_name", JStr "Ada")]);
     ("billing_address", JObj [("first_name", JStr "A."); ("last_name", JStr "Lovelace")])] in
  (Calendly.customerIdentity (JObj order) Shop.fresh).1
  = Returned (JStr "ada@example.com", JStr "Ada", JStr "Lovelace").
Proof.
  cbn zeta.
  by rewrite (identity_fallback_chain
                [("email", JStr "ada@example.com");
                 ("customer", JObj [("email", JStr ""); ("first_name", JStr "Ada")]);
                 ("billing_address", JObj [("first_name", JStr "A.");
                                           ("last_name", JStr "Lovelace")])]
                Shop.fresh "Received order from Ada Lovelace (ada@example.com)" eq_refl).
Defined.

(** ** The original handler *)

(** X8.  The tracker of the original handler has no e-mail guard: whenever
    the order time converts it posts one event, whose profile carries the
    e-mail and names it was given, whatever they are. *)
Theorem Original_tracked_event (rt : runtime) (email firstName lastName : val)
    (schedulingLinks : list val) (orderId orderTime : val) (ms : option Z) (w : world) :
  Date_getTime rt orderTime = Returned ms →
  let track :=
    Original.trackKlaviyoEvent rt email firstName lastName schedulingLinks orderId orderTime in
  let payload :=
    Original.klaviyoPayload email firstName lastName schedulingLinks orderId
      (Calendly.epochSeconds ms) in
  calls (track w).2 = calls w ++ [klaviyo_events payload] ∧
  at_path payload ["data"; "attributes"; "event_name"] = JStr "Order Contains Event" ∧
  at_path payload ["data"; "attributes"; "profile"; "data"; "attributes"; "email"] = email ∧
  at_path payload ["data"; "attributes"; "profile"; "data"; "attributes"; "first_name"]
  = firstName ∧
  at_path payload ["data"; "attributes"; "profile"; "data"; "attributes"; "last_name"]
  = lastName ∧
  at_path payload ["data"; "attributes"; "properties"; "scheduling_links"]
  = JArr schedulingLinks ∧
  at_path payload ["data"; "attributes"; "properties"; "order_id"] = orderId ∧
  at_path payload ["data"; "attributes"; "time"] = Calendly.epochSeconds ms ∧
  (∀ data, axios rt (calls w) (klaviyo_events payload) = Resolved data →
     track w
     = (Returned (),
        logged log "Tracked Klaviyo event for purchase with multiple scheduling links." []
          (sent (klaviyo_events payload) w))) ∧
  (∀ m r, axios rt (calls w) (klaviyo_events payload) = Rejected m r →
     track w
     = (Thrown (Error "Failed to track Klaviyo event"),
        logged error "Error tracking Klaviyo event:" [error_detail (AxiosError m r)]
          (sent (klaviyo_events payload) w))).
Proof.
  intros Hms. cbn zeta.
  assert (Hrun : ∀ w,
    Original.trackKlaviyoEvent rt email firstName lastName schedulingLinks orderId orderTime w
    = match axios rt (calls w)
              (klaviyo_events
                 (Original.klaviyoPayload email firstName lastName schedulingLinks orderId
                    (Calendly.epochSeconds ms))) with
      | Resolved _ =>
          (Returned (),
           logged log "Tracked Klaviyo event for purchase with multiple scheduling links." []
             (sent (klaviyo_events
                      (Original.klaviyoPayload email firstName lastName schedulingLinks
                         orderId (Calendly.epochSeconds ms))) w))
      | Rejected m r =>
          (Thrown (Error "Failed to track Klaviyo event"),
           logged error "Error tracking Klaviyo event:" [error_detail (AxiosError m r)]
             (sent (klaviyo_events
                      (Original.klaviyoPayload email firstName lastName schedulingLinks
                         orderId (Calendly.epochSeconds ms))) w))
      end).
  { intros w0. unfold Original.trackKlaviyoEvent.
    rewrite rethrown, run_bind. unfold lift at 1. rewrite Hms. cbn zeta.
    rewrite run_bind. unfold fetch at 1.
    by destruct (axios rt (calls w0) _). }
  split; [|repeat (split; [reflexivity|]); split].
  - rewrite Hrun. by destruct (axios rt (calls w) _).
  - intros data Hr. by rewrite Hrun, Hr.
  - intros m r Hr. by rewrite Hrun, Hr.
Qed.

Lemma Original_tracked_event_witness :
  let payload :=
    Original.klaviyoPayload JUndefined (JStr "Ada") (JStr "Lovelace") [] (JNum 1001)
      (JNum 1700000000) in
  Original.trackKlaviyoEvent Shop.healthy JUndefined (JStr "Ada") (JStr "Lovelace") []
    (JNum 1001) (JStr "2023-11-14T22:13:20Z") Shop.fresh
  = (Returned (),
     World [klaviyo_events payload]
       [LogEntry log "Tracked Klaviyo event for purchase with multiple scheduling links." []]).
Proof.
  cbn zeta.
  destruct (Original_tracked_event Shop.healthy JUndefined (JStr "Ada") (JStr "Lovelace") []
              (JNum 1001) (JStr "2023-11-14T22:13:20Z") _ Shop.fresh eq_refl)
    as (_ & _ & _ & _ & _ & _ & _ & _ & Hok & _).
  exact (Hok (JObj []) eq_refl).
Defined.

(** X23.  The original handler takes the e-mail from the order and the names
    from the customer object, with no fallback: an order without a customer
    (or with a [null] customer) is answered 500 before any helper runs,
    whatever the helpers are. *)
Theorem Original_reads_the_customer (rt : runtime) (ev : event) (w : world)
    (props : list (string * val))
    (getCalendlyEventHandle getCalendlyEventTypeUri : val → M val)
    (createCalendlySchedulingLink : val → val → val → val → M val)
    (addNoteToShopifyOrder : val → list val → M ()) :
  verifyShopifyWebhook rt (header ev "x-shopify-hmac-sha256") (body ev) = Returned true →
  JSON_parse rt (body ev) = Returned (JObj props) →
  let handler :=
    Original.handler getCalendlyEventHandle getCalendlyEventTypeUri
      createCalendlySchedulingLink addNoteToShopifyOrder rt ev in
  (assoc "customer" props = None →
     handler w
     = (Returned Internal_Server_Error,
        reported (TypeError "Cannot read properties of undefined") w)) ∧
  (assoc "customer" props = Some JNull →
     handler w
     = (Returned Internal_Server_Error,
        reported (TypeError "Cannot read properties of null") w)) ∧
  (∀ customer msg,
     assoc "customer" props = Some (JObj customer) →
     assoc "line_items" props = Some (JArr []) →
     template [lit "Received order from "; sub (member (JObj customer) "first_name");
               lit " "; sub (member (JObj customer) "last_name");
               lit " ("; sub (member (JObj props) "email"); lit ")"] = Returned msg →
     handler w = (Returned Success, logged log msg [] w)).
Proof.
  intros Hv Hp. cbn zeta. split; [|split].
  - intros Hc. by apply Original_requires_customer with (props := props).
  - intros Hc. unfold Original.handler. cbn zeta.
    rewrite run_try_catch, Hv, lift_bind. cbn [negb]. rewrite Hp, lift_bind.
    unfold get, lift. cbn [get_prop]. rewrite !run_bind, Hc. reflexivity.
  - intros customer msg Hc Hitems Hmsg. unfold Original.handler. cbn zeta.
    rewrite run_try_catch, Hv, lift_bind. cbn [negb]. rewrite Hp, lift_bind.
    unfold get, lift. cbn [get_prop].
    repeat (rewrite ?run_bind, ?Hc; cbn [default from_option id get_prop]).
    unfold member in Hmsg. cbn [get_prop] in Hmsg. rewrite Hmsg.
    rewrite run_bind. unfold console_log at 1, console_write at 1.
    rewrite !run_bind, Hitems. reflexivity.
Qed.

Lemma Original_reads_the_customer_witness :
  let orders :=
    [("guest", JObj [("id", JNum 1004); ("email", JStr "ada@example.com");
                     ("billing_address", JObj [("first_name", JStr "Ada")]);
                     ("line_items", JArr [])]);
     ("member", JObj [("id", JNum 1005); ("email", JStr "ada@example.com");
                      ("customer", JObj [("first_name", JStr "Ada")]);
                      ("line_items", JArr [])])] in
  let rt := Shop.platform orders (axios Shop.healthy) in
  let handler :=
    Original.handler (Calendly.getCalendlyEventHandle rt) (Calendly.getCalendlyEventTypeUri rt)
      (Calendly.createCalendlySchedulingLink rt) (Calendly.addNoteToShopifyOrder rt) rt in
  handler (Shop.signed "guest") Shop.fresh
  = (Returned Internal_Server_Error,
     World [] [LogEntry error "Error processing webhook:"
                 [JStr "Cannot read properties of undefined"]]) ∧
  handler (Shop.signed "member") Shop.fresh
  = (Returned Success,
     World [] [LogEntry log "Received order from Ada undefined (ada@example.com)" []]).
Proof.
  cbn zeta.
  set (rt := Shop.platform _ _).
  split.
  - edestruct (Original_reads_the_customer rt (Shop.signed "guest") Shop.fresh)
      as (H & _ & _); [vm_compute; reflexivity | reflexivity |].
    apply H. reflexivity.
  - edestruct (Original_reads_the_customer rt (Shop.signed "member") Shop.fresh)
      as (_ & _ & H); [vm_compute; reflexivity | reflexivity |].
    eapply H; reflexivity.
Defined.

(** X24.  The original handler has no e-mail guard either: once the
    enrichment pass has returned a link, the tracker runs with the order's
    e-mail as it is, the annotator runs only if the tracker returned, and the
    answer is 200 exactly when both returned. *)
Theorem Original_tracks_whatever_the_email (rt : runtime) (ev : event) (w : world)
    (props customer : list (string * val)) (items : list val) (msg : string)
    (links : list val) (w2 : world)
    (getCalendlyEventHandle getCalendlyEventTypeUri : val → M val)
    (createCalendlySchedulingLink : val → val → val → val → M val)
    (addNoteToShopifyOrder : val → list val → M ()) :
  let order := JObj props in
  let email := member order "email" in
  let firstName := member (JObj customer) "first_name" in
  let lastName := member (JObj customer) "last_name" in
  verifyShopifyWebhook rt (header ev "x-shopify-hmac-sha256") (body ev) = Returned true →
  JSON_parse rt (body ev) = Returned order →
  assoc "customer" props = Some (JObj customer) →
  assoc "line_items" props = Some (JArr items) →
  template [lit "Received order from "; sub firstName; lit " "; sub lastName;
            lit " ("; sub email; lit ")"] = Returned msg →
  for_of items
    (Original.lineItemLinks getCalendlyEventHandle getCalendlyEventTypeUri
       createCalendlySchedulingLink rt email firstName lastName) []
    (logged log msg [] w)
  = (Returned links, w2) →
  links ≠ [] →
  Original.handler getCalendlyEventHandle getCalendlyEventTypeUri
    createCalendlySchedulingLink addNoteToShopifyOrder rt ev w
  = match Original.trackKlaviyoEvent rt email firstName lastName links
            (member order "id") (member order "created_at") w2 with
    | (Returned _, w3) =>
        match addNoteToShopifyOrder (member order "id") links w3 with
        | (Returned _, w4) => (Returned Success, w4)
        | (Thrown e, w4) => (Returned Internal_Server_Error, reported e w4)
        end
    | (Thrown e, w3) => (Returned Internal_Server_Error, reported e w3)
    end.
Proof.
  cbn zeta. intros Hv Hp Hc Hitems Hmsg Hloop Hl.
  unfold Original.handler. cbn zeta.
  rewrite run_try_catch, Hv, lift_bind. cbn [negb]. rewrite Hp, lift_bind.
  unfold get, lift. cbn [get_prop].
  repeat (rewrite ?run_bind, ?Hc; cbn [default from_option id get_prop]).
  unfold member in *. cbn [get_prop] in *. rewrite Hmsg.
  rewrite run_bind. unfold console_log at 1, console_write at 1.
  rewrite !run_bind, Hitems. cbn [default from_option id iterate].
  unfold logged in Hloop. rewrite run_bind, Hloop.
  destruct links as [|link links]; [done|]. cbn [length Nat.ltb Nat.leb].
  rewrite !run_bind.
  destruct (Original.trackKlaviyoEvent _ _ _ _ _ _ _ _) as [[[]|err] w3]; [|done].
  rewrite !run_bind.
  by destruct (addNoteToShopifyOrder _ _ _) as [[[]|err] w4].
Qed.

Lemma Original_tracks_whatever_the_email_witness :
  let order :=
    JObj [("id", JNum 1006); ("created_at", JStr "2023-11-14T22:13:20Z");
          ("customer", JObj [("first_name", JStr "Ada")]);
          ("line_items", JArr [Shop.item 7 "Workshop" 1])] in
  let rt := Shop.platform [("walk-in", order)] (axios Shop.healthy) in
  let run :=
    Original.handler (Calendly.getCalendlyEventHandle rt) (Calendly.getCalendlyEventTypeUri rt)
      (Calendly.createCalendlySchedulingLink rt) (Calendly.addNoteToShopifyOrder rt) rt
      (Shop.signed "walk-in") Shop.fresh in
  run.1 = Returned Success ∧
  filter (λ r, is_klaviyo r = true) (calls run.2)
  = [klaviyo_events
       (Original.klaviyoPayload JUndefined (JStr "Ada") JUndefined
          [JObj [("title", JStr "Workshop (Ticket 1)");
                 ("link", JStr "https://calendly.com/d/abc")]]
          (JNum 1006) (JNum 1700000000))].
Proof.
  cbn zeta.
  set (order := JObj [("id", JNum 1006); ("created_at", JStr "2023-11-14T22:13:20Z");
                      ("customer", JObj [("first_name", JStr "Ada")]);
                      ("line_items", JArr [Shop.item 7 "Workshop" 1])]).
  set (rt := Shop.platform [("walk-in", order)] (axios Shop.healthy)).
  erewrite (Original_tracks_whatever_the_email rt (Shop.signed "walk-in") Shop.fresh
              _ _ _ "Received order from Ada undefined (undefined)");
    [| vm_compute; reflexivity | reflexivity | reflexivity | reflexivity | reflexivity
     | vm_compute; reflexivity | done].
  split; vm_compute; reflexivity.
Defined.
